(** * Kassa: the request lifecycle of the MobCash bot (index.js, models.js)

    A shallow embedding of the handlers of index.js that create, resolve and
    expire deposit/withdraw requests, over the three tables of models.js.

    Conventions of the model.
    - A handler runs from its first to its last statement without another
      handler or the sweep running in between: the points where the source
      awaits are not points of interleaving here. The sweep is also given
      statement by statement ([race_step]), with handlers running between
      its SELECT and its UPDATEs.
    - Numbers are integers ([Z]): the values of the INTEGER columns and of
      [parseInt], taken exactly. The source computes on doubles, which are
      exact on the safe integers ([Js.safe], at most 2^53 - 1 in absolute
      value); a statement on the value of an amount or a balance asks for
      that.
    - A string is the sequence of its characters, each with a code below
      256; the character classes of the regular expressions of the source
      ([\s], [\d], [A-Z0-9]) are written out on the codes.
    - The status and the type of a request, the flow, the step and the
      admin mode of a session are the enumerations of the strings the
      source compares them with.
    - Library functions that rest on tables of the platform
      ([toUpperCase], [toLowerCase], [Date.prototype.toISOString],
      [JSON.parse], [JSON.stringify]) and the configuration read from the
      environment are fields of [Env]; every theorem holds for every [Env].
    - The clock is read once per handler; the results of [nanoid()] and
      [Math.random()] are given to the handler.
    - The transport ([ctx.reply], [sendMessage], ...) never fails; what a
      handler sends is recorded as a list of [effect]s. The text and photo
      handlers are also given with sends that can fail ([on_text_via],
      [on_photo_via]). *)

From Stdlib Require Import ZArith String Ascii List Bool.
From stdpp Require Import gmap strings list fin_maps pretty.
From stdpp Require Import sorting.

Local Open Scope string_scope.
Local Open Scope Z_scope.
Set Warnings "-register-all".

(** ** JavaScript values and primitives *)

Module Js.

(** The values [JSON.parse] returns; [JNull] also stands for [undefined]. *)
Inductive json : Type :=
  | JNull
  | JBool (b : bool)
  | JNum (n : Z)
  | JStr (s : string)
  | JArr (l : list json)
  | JObj (o : list (string * json)).

(** ToBoolean *)
Definition truthy (v : json) : bool :=
  match v with
  | JNull => false
  | JBool b => b
  | JNum n => negb (n =? 0)
  | JStr s => negb (String.eqb s "")
  | JArr _ | JObj _ => true
  end.

(** [typeof v === "object"] *)
Definition typeof_object (v : json) : bool :=
  match v with
  | JNull | JArr _ | JObj _ => true
  | _ => false
  end.


(** ToString (the elements [null] of an array are printed as nothing) *)
Fixpoint to_string (v : json) : string :=
  match v with
  | JNull => "null"
  | JBool true => "true"
  | JBool false => "false"
  | JNum n => pretty n
  | JStr s => s
  | JArr l =>
      (fix join (l : list json) : string :=
         match l with
         | [] => ""
         | [x] => match x with JNull => "" | _ => to_string x end
         | x :: l' =>
             match x with JNull => "" | _ => to_string x end ++ "," ++ join l'
         end) l
  | JObj _ => "[object Object]"
  end.

Fixpoint assoc (k : string) (o : list (string * json)) : option json :=
  match o with
  | [] => None
  | (k', v) :: o' => if String.eqb k k' then Some v else assoc k o'
  end.

(** [v.k]: own property [k] of an object, [undefined] otherwise. (On
    [null] the source throws a TypeError instead; statements on the outcome
    of a handler that reads a property ask for an object, or for a branch
    that does not read it.) *)
Definition prop (k : string) (v : json) : json :=
  match v with
  | JObj o => match assoc k o with Some x => x | None => JNull end
  | _ => JNull
  end.

(** [x || null] and [x || 0] on a nullable integer *)
Definition int_or_null (x : option Z) : option Z :=
  match x with
  | Some n => if n =? 0 then None else Some n
  | None => None
  end.

Definition int_or_zero (x : option Z) : Z :=
  match x with Some n => n | None => 0 end.

(** [x || null] on a nullable string *)
Definition str_or_null (x : option string) : option string :=
  match x with
  | Some s => if String.eqb s "" then None else Some s
  | None => None
  end.

(** *** Character classes *)

Definition code (c : ascii) : N := N_of_ascii c.

(** [\s] (and the white space [trim] and [parseInt] skip) *)
Definition is_space (c : ascii) : bool :=
  let n := code c in
  ((9 <=? n) && (n <=? 13) || (n =? 32) || (n =? 160))%N.

(** [\d] *)
Definition is_digit (c : ascii) : bool :=
  let n := code c in ((48 <=? n) && (n <=? 57))%N.

Definition is_upper (c : ascii) : bool :=
  let n := code c in ((65 <=? n) && (n <=? 90))%N.

Definition is_lower (c : ascii) : bool :=
  let n := code c in ((97 <=? n) && (n <=? 122))%N.

Fixpoint forallb_str (p : ascii -> bool) (s : string) : bool :=
  match s with
  | EmptyString => true
  | String c s' => p c && forallb_str p s'
  end.

Fixpoint filter_str (p : ascii -> bool) (s : string) : string :=
  match s with
  | EmptyString => EmptyString
  | String c s' => if p c then String c (filter_str p s') else filter_str p s'
  end.

Fixpoint drop_while (p : ascii -> bool) (s : string) : string :=
  match s with
  | EmptyString => EmptyString
  | String c s' => if p c then drop_while p s' else s
  end.

Fixpoint rev_str (acc s : string) : string :=
  match s with
  | EmptyString => acc
  | String c s' => rev_str (String c acc) s'
  end.

(** [String.prototype.trim] *)
Definition trim (s : string) : string :=
  let s1 := drop_while is_space s in
  rev_str "" (drop_while is_space (rev_str "" s1)).

(** *** parseInt(s, 10) *)

Definition digit_val (c : ascii) : Z := Z.of_N (code c) - 48.

(** the value of the longest prefix of decimal digits, [None] when it is
    empty *)
Fixpoint digits_prefix (acc : option Z) (s : string) : option Z :=
  match s with
  | EmptyString => acc
  | String c s' =>
      if is_digit c
      then digits_prefix (Some (10 * int_or_zero acc + digit_val c)) s'
      else acc
  end.

(** [Number.isSafeInteger]: the integers a double holds exactly, with
    exact sums as long as the result is safe too *)
Definition safe (n : Z) : Prop := - (2 ^ 53 - 1) <= n <= 2 ^ 53 - 1.

(** [parseInt(s, 10)], as the integer the digits denote; [None] is [NaN].
    The Number the call returns is this integer when it is [safe]; past
    2^53 it is the nearest double, and Infinity for very long strings of
    digits. Rounding keeps the order, so the comparison with a safe bound
    is the one of the integers. *)
Definition parseInt (s : string) : option Z :=
  match drop_while is_space s with
  | String "-" s' => Z.opp <$> digits_prefix None s'
  | String "+" s' => digits_prefix None s'
  | s' => digits_prefix None s'
  end.

(** *** Comparison of strings ([<=] on two strings: by character codes) *)
Definition str_le (a b : string) : bool := String.leb a b.

End Js.

(** ** Configuration and platform *)

(** The constants index.js reads from the environment (lines 17-22) and the
    library functions it calls. [JSON_parse s = None] when [JSON.parse]
    throws a SyntaxError. *)
Record Env := {
  ADMIN_IDS : list string;
  ADMIN_USERNAME : string;
  MIN_DEPOSIT : Z;
  CHECK_TIMEOUT_MIN : Z;
  PAYMENT_CARDS : list string;
  toUpperCase : string -> string;
  toLowerCase : string -> string;
  toISOString : Z -> string;
  JSON_parse : string -> option Js.json;
  JSON_stringify : Js.json -> string;
}.

(** ** Data model (models.js) *)

(** [type] of a request and [flow] of a session *)
Inductive kind := deposit | withdraw.

Inductive status_t := pending | approved | rejected | expired.

#[global] Instance kind_eq_dec : EqDecision kind.
Proof. solve_decision. Defined.
#[global] Instance status_eq_dec : EqDecision status_t.
Proof. solve_decision. Defined.

(** A row of [users]; the key of the table is [id]. *)
Record user := {
  username : option string;
  balance : option Z;
  secret_code : option string;
}.

(** A row of [requests] without its primary key [id]; [D] is the type of
    the [details] column: the stored text in the table, the parsed value in
    the rows the helper functions return. *)
Record request (D : Type) := {
  user_id : Z;
  provider_id : option string;
  provider_name : option string;
  type : kind;
  amount : option Z;
  details : D;
  status : status_t;
  created_at : option string;
  expires_at : option string;
  resolved_at : option string;
  admin_note : option string;
}.
Arguments user_id {D}. Arguments provider_id {D}. Arguments provider_name {D}.
Arguments type {D}. Arguments amount {D}. Arguments details {D}.
Arguments status {D}. Arguments created_at {D}. Arguments expires_at {D}.
Arguments resolved_at {D}. Arguments admin_note {D}.

Abbreviation row := (request (option string)).

Definition set_details {D D'} (d : D') (r : request D) : request D' :=
  {| user_id := user_id r; provider_id := provider_id r;
     provider_name := provider_name r; type := type r; amount := amount r;
     details := d; status := status r; created_at := created_at r;
     expires_at := expires_at r; resolved_at := resolved_at r;
     admin_note := admin_note r |}.

(** The three tables; primary keys are the keys of the maps. *)
Record db := {
  users : gmap Z user;
  providers : gmap string string;
  requests : gmap string row;
}.

Definition set_users (u : gmap Z user) (d : db) : db :=
  {| users := u; providers := providers d; requests := requests d |}.
Definition set_providers (p : gmap string string) (d : db) : db :=
  {| users := users d; providers := p; requests := requests d |}.
Definition set_requests (q : gmap string row) (d : db) : db :=
  {| users := users d; providers := providers d; requests := q |}.

(** ** Session (line 43) *)

Inductive step_t :=
  | deposit_userid | deposit_amount | deposit_wait_check
  | withdraw_userid | withdraw_code | withdraw_card.

Inductive admin_mode := add_provider | remove_provider.

Module Session.

(** [ctx.session.data]: each property is absent ([None]) until assigned. *)
Record data := {
  providerId : option string;
  providerName : option string;
  step : option step_t;
  userGameId : option string;
  amount : option Z;
  expiresAt : option string;
  code : option string;
  card : option string;
}.

(** [{}] *)
Definition empty : data :=
  {| providerId := None; providerName := None; step := None;
     userGameId := None; amount := None; expiresAt := None;
     code := None; card := None |}.

Definition set_step (x : step_t) (d : data) : data :=
  {| providerId := providerId d; providerName := providerName d;
     step := Some x; userGameId := userGameId d; amount := amount d;
     expiresAt := expiresAt d; code := code d; card := card d |}.
Definition set_userGameId (x : string) (d : data) : data :=
  {| providerId := providerId d; providerName := providerName d;
     step := step d; userGameId := Some x; amount := amount d;
     expiresAt := expiresAt d; code := code d; card := card d |}.
Definition set_amount (x : Z) (d : data) : data :=
  {| providerId := providerId d; providerName := providerName d;
     step := step d; userGameId := userGameId d; amount := Some x;
     expiresAt := expiresAt d; code := code d; card := card d |}.
Definition set_expiresAt (x : string) (d : data) : data :=
  {| providerId := providerId d; providerName := providerName d;
     step := step d; userGameId := userGameId d; amount := amount d;
     expiresAt := Some x; code := code d; card := card d |}.
Definition set_code (x : string) (d : data) : data :=
  {| providerId := providerId d; providerName := providerName d;
     step := step d; userGameId := userGameId d; amount := amount d;
     expiresAt := expiresAt d; code := Some x; card := card d |}.
Definition set_card (x : string) (d : data) : data :=
  {| providerId := providerId d; providerName := providerName d;
     step := step d; userGameId := userGameId d; amount := amount d;
     expiresAt := expiresAt d; code := code d; card := Some x |}.

(** [ctx.session] *)
Record t := {
  flow : option kind;
  sdata : data;
  adminMode : option admin_mode;
}.

(** [defaultSession] *)
Definition default : t := {| flow := None; sdata := empty; adminMode := None |}.

Definition set_flow (f : option kind) (s : t) : t :=
  {| flow := f; sdata := sdata s; adminMode := adminMode s |}.
Definition set_data (d : data) (s : t) : t :=
  {| flow := flow s; sdata := d; adminMode := adminMode s |}.
Definition set_adminMode (m : option admin_mode) (s : t) : t :=
  {| flow := flow s; sdata := sdata s; adminMode := m |}.

End Session.

(** ** What a handler sends *)

Inductive chat := ChatId (id : Z) | ChatName (id : string).

(** The texts of the source, by their role (the wording is not modelled). *)
Inductive message :=
  | ProviderAdded (val id : string)
  | ProviderRemoved
  | AskAmount (min : Z)
  | BadAmount (min : Z)
  | PayInstructions (cards : list string) (amount timeout : Z)
  | AskCode
  | BadCode
  | AskCard
  | BadCard
  | NewWithdraw (reqId : string) (from : Z) (provider gameId code card : option string)
  | NewDeposit (reqId : string) (from : Z) (provider gameId : option string) (amount : Z)
  | WithdrawReceived
  | CheckReceived
  | Cancelled
  | AdminsOnly
  | NotFound
  | AlreadyResolved
  | Credited (amount : Z) (provider : option string)
  | DepositApproved (provider : option string)
  | WithdrawApproved
  | Rejected (contact : string)
  | ApprovedMark (reqId : string)
  | RejectedMark (reqId : string)
  | ExpiredNotice
  | ExpiredAdminNotice (reqId : string).

Inductive effect :=
  | AnswerCbQuery
  | Reply (m : message)
  | SendMessage (to : chat) (m : message)
  | SendPhoto (to : chat) (fileId : string) (caption : message)
  | EditMessageText (m : message)
  | Next.

(** ** Handlers as state transformers that may throw *)

(** [TelegramError]: the messenger refused a call (a send that a handler
    awaits outside try/catch). *)
Inductive error := SyntaxError | ConstraintError | TelegramError.

Inductive outcome (A : Type) := Ok (a : A) | Throw (e : error).
Arguments Ok {A}. Arguments Throw {A}.

(** [try { body } catch (e) { handler }] on a computation without state *)
Definition try_catch {A} (body : outcome A) (handler : error -> outcome A) : outcome A :=
  match body with
  | Ok a => Ok a
  | Throw e => handler e
  end.

(** What a handler reads and writes: the tables, the session of the
    sender, what was sent so far, and how many ids [nanoid] has drawn. *)
Record world := {
  w_db : db;
  w_session : Session.t;
  w_out : list effect;
  w_pos : nat;
}.

(** What a handler is given: the sender, the clock, and the random draws
    ([tape n] is the [n]-th result of [nanoid()], [random] the value of
    [Math.floor(Math.random() * 10000)]). *)
Record ctx := {
  from : Z;
  now : Z;
  tape : nat -> string;
  random : Z;
}.

(** A thrown exception keeps the state reached so far: assignments to the
    session are in place. *)
Definition M (A : Type) : Type := world -> outcome A * world.

Definition ret {A} (a : A) : M A := fun w => (Ok a, w).
Definition bind {A B} (m : M A) (k : A -> M B) : M B :=
  fun w => match m w with
           | (Ok a, w') => k a w'
           | (Throw e, w') => (Throw e, w')
           end.
Definition lift {A} (o : outcome A) : M A := fun w => (o, w).

Notation "x <- m ;; k" := (bind m (fun x => k))
  (at level 100, m at next level, right associativity).
Notation "m ;;; k" := (bind m (fun _ => k))
  (at level 100, right associativity).

Definition with_db (d : db) (w : world) : world :=
  {| w_db := d; w_session := w_session w; w_out := w_out w; w_pos := w_pos w |}.

Definition with_session (s : Session.t) (w : world) : world :=
  {| w_db := w_db w; w_session := s; w_out := w_out w; w_pos := w_pos w |}.

(** the world after [es] were sent *)
Definition sent (es : list effect) (w : world) : world :=
  {| w_db := w_db w; w_session := w_session w; w_out := w_out w ++ es; w_pos := w_pos w |}.

(** [await db.get(...)] / [await db.all(...)]: a query *)
Definition query {A} (q : db -> A) : M A := fun w => (Ok (q (w_db w)), w).
(** [await db.run(...)]: a statement that cannot fail *)
Definition exec (f : db -> db) : M unit := fun w => (Ok tt, with_db (f (w_db w)) w).
Definition get_session : M Session.t := fun w => (Ok (w_session w), w).
Definition put_session (s : Session.t) : M unit := fun w => (Ok tt, with_session s w).
Definition emit (e : effect) : M unit := fun w => (Ok tt, sent [e] w).
Definition nanoid (c : ctx) : M string :=
  fun w => (Ok (tape c (w_pos w)),
            {| w_db := w_db w; w_session := w_session w; w_out := w_out w; w_pos := S (w_pos w) |}).

(** [for (const x of l) body(x)] *)
Fixpoint for_each {A} (l : list A) (body : A -> M unit) : M unit :=
  match l with
  | [] => ret tt
  | x :: l' => body x ;;; for_each l' body
  end.

(** ** SQL statements of the source on the tables *)

(** [UPDATE requests SET status=?, resolved_at=?, admin_note=?] on one row *)
Definition resolve_row (st : status_t) (at_ : string) (note : option string) (r : row) : row :=
  {| user_id := user_id r; provider_id := provider_id r;
     provider_name := provider_name r; type := type r; amount := amount r;
     details := details r; status := st; created_at := created_at r;
     expires_at := expires_at r; resolved_at := Some at_;
     admin_note := note |}.

(** [UPDATE requests SET status='expired', resolved_at=?] on one row *)
Definition expire_row (at_ : string) (r : row) : row :=
  {| user_id := user_id r; provider_id := provider_id r;
     provider_name := provider_name r; type := type r; amount := amount r;
     details := details r; status := expired; created_at := created_at r;
     expires_at := expires_at r; resolved_at := Some at_;
     admin_note := admin_note r |}.

(** [UPDATE users SET balance = ?] on one row *)
Definition set_balance (b : Z) (u : user) : user :=
  {| username := username u; balance := Some b; secret_code := secret_code u |}.

(** [UPDATE requests SET ... WHERE id=?] *)
Definition update_request (id : string) (f : row -> row) (d : db) : db :=
  set_requests (alter f id (requests d)) d.

(** [UPDATE users SET ... WHERE id=?] *)
Definition update_user (id : Z) (f : user -> user) (d : db) : db :=
  set_users (alter f id (users d)) d.

(** [INSERT INTO requests ...]: the primary key must be new *)
Definition insert_request (id : string) (r : row) : M unit :=
  fun w => match requests (w_db w) !! id with
           | Some _ => (Throw ConstraintError, w)
           | None => exec (fun d => set_requests (<[id := r]> (requests d)) d) w
           end.

(** SQLite's [lower()]: the letters A-Z only *)
Definition sql_lower_char (c : ascii) : ascii :=
  if Js.is_upper c then ascii_of_N (Js.code c + 32) else c.
Fixpoint sql_lower (s : string) : string :=
  match s with
  | EmptyString => EmptyString
  | String c s' => String (sql_lower_char c) (sql_lower s')
  end.

(** [{ k1: v1, ... }]: a property whose value is [undefined] is left out *)
Definition object_of (fields : list (string * option Js.json)) : Js.json :=
  Js.JObj (omap (fun kv => match snd kv with Some v => Some (fst kv, v) | None => None end) fields).

(** the value read from a nullable TEXT column *)
Definition of_column (x : option string) : Js.json :=
  match x with Some s => Js.JStr s | None => Js.JNull end.

(** The argument of [createRequest]. *)
Record new_request := {
  nr_id : string;
  nr_user_id : Z;
  nr_provider_id : option string;
  nr_provider_name : option string;
  nr_type : kind;
  nr_amount : option Z;
  nr_details : Js.json;
  nr_status : option status_t;
  nr_expires_at : option string;
}.

Inductive action := approve | reject.

(** ** The functions and handlers of index.js *)

Section Bot.

Context (E : Env).

(** line 26 *)
Definition isAdmin (userId : Z) : bool :=
  bool_decide (pretty userId ∈ ADMIN_IDS E).

(** line 27 *)
Definition nowISO (c : ctx) : string := toISOString E (now c).

(** [A-Z0-9] *)
Definition is_code_char (ch : ascii) : bool := Js.is_upper ch || Js.is_digit ch.

(** lines 38-40: [/^[A-Z0-9]{4}$/.test(code)] *)
Definition validateSecretCode (code : string) : bool :=
  Nat.eqb (String.length code) 4 && Js.forallb_str is_code_char code.

(** line 275: [/^\d{12,20}$/.test(card)] *)
Definition valid_card (card : string) : bool :=
  Nat.leb 12 (String.length card) && Nat.leb (String.length card) 20
  && Js.forallb_str Js.is_digit card.

Definition JSON_parse_js (s : string) : outcome Js.json :=
  match JSON_parse E s with
  | Some j => Ok j
  | None => Throw SyntaxError
  end.

(** lines 106-115 *)
Definition safeParse (v : Js.json) : outcome Js.json :=
  if negb (Js.truthy v) then Ok (Js.JObj [])
  else if Js.typeof_object v then Ok v
  else try_catch (JSON_parse_js (Js.to_string v)) (fun _ => Ok (Js.JObj [])).

(** [if (row) row.details = safeParse(row.details); return row] *)
Definition parse_details (r : option row) : M (option (request Js.json)) :=
  match r with
  | None => ret None
  | Some r =>
      d <- lift (safeParse (of_column (details r))) ;;
      ret (Some (set_details d r))
  end.

(** [db.get("SELECT * FROM requests WHERE id=?", id)] *)
Definition select_request (id : string) : M (option row) :=
  query (fun d => requests d !! id).

(** lines 62-75 *)
Definition createRequest (c : ctx) (req : new_request) : M (option (request Js.json)) :=
  id <- (if String.eqb (nr_id req) "" then nanoid c else ret (nr_id req)) ;;
  let created_at := nowISO c in
  let expires_at := Js.str_or_null (nr_expires_at req) in
  let detailsStr :=
    JSON_stringify E (if Js.truthy (nr_details req) then nr_details req else Js.JObj []) in
  insert_request id
    {| user_id := nr_user_id req; provider_id := nr_provider_id req;
       provider_name := nr_provider_name req; type := nr_type req;
       amount := Js.int_or_null (nr_amount req); details := Some detailsStr;
       status := default pending (nr_status req);
       created_at := Some created_at; expires_at := expires_at;
       resolved_at := None; admin_note := None |} ;;;
  row <- select_request id ;;
  parse_details row.

(** lines 78-84 *)
Definition updateRequestStatus (c : ctx) (id : string) (st : status_t)
    (admin_note : option string) : M (option (request Js.json)) :=
  let resolved_at := nowISO c in
  exec (update_request id (resolve_row st resolved_at admin_note)) ;;;
  row <- select_request id ;;
  parse_details row.

(** lines 87-92 *)
Definition getRequest (id : string) : M (option (request Js.json)) :=
  r <- select_request id ;;
  parse_details r.

(** [INSERT OR IGNORE INTO providers (id,name) VALUES (?,?)] *)
Definition insert_or_ignore_provider (id name : string) (d : db) : db :=
  match providers d !! id with
  | Some _ => d
  | None => set_providers (<[id := name]> (providers d)) d
  end.

(** [DELETE FROM providers WHERE id=? OR lower(name)=lower(?)] *)
Definition delete_provider (key : string) (d : db) : db :=
  set_providers
    (filter (fun p => ¬ (p.1 = key ∨ sql_lower p.2 = sql_lower key)) (providers d)) d.

(** [s.flow = null; s.data = {}] *)
Definition reset_flow (s : Session.t) : Session.t :=
  Session.set_data Session.empty (Session.set_flow None s).

(** line 221: [isAdmin(ctx.from.id) && s.adminMode], the admin mode that
    takes the text, if any *)
Definition admin_input (c : ctx) (s : Session.t) : option admin_mode :=
  if isAdmin (from c) then Session.adminMode s else None.

(** lines 215-309: [bot.on("text", ...)]. The session and its data are
    objects in every state (line 43 and every assignment to them), so the
    test of line 218 does not fire. *)
Definition on_text (c : ctx) (text : string) : M unit :=
  s <- get_session ;;
  let t := Js.trim text in
  let data := Session.sdata s in
  match admin_input c s with
  | Some add_provider =>
      let val := t in
      let id :=
        let x := Js.filter_str (fun ch => Js.is_lower ch || Js.is_digit ch) (toLowerCase E val) in
        if String.eqb x "" then "prov" ++ pretty (random c) else x in
      exec (insert_or_ignore_provider id val) ;;;
      put_session (Session.set_adminMode None s) ;;;
      emit (Reply (ProviderAdded val id))
  | Some remove_provider =>
      let key := toLowerCase E t in
      exec (delete_provider key) ;;;
      put_session (Session.set_adminMode None s) ;;;
      emit (Reply ProviderRemoved)
  | None =>
      match Session.flow s, Session.step data with
      | Some deposit, Some deposit_userid =>
          put_session (Session.set_data
            (Session.set_step deposit_amount (Session.set_userGameId t data)) s) ;;;
          emit (Reply (AskAmount (MIN_DEPOSIT E)))
      | Some deposit, Some deposit_amount =>
          match Js.parseInt t with
          | None => emit (Reply (BadAmount (MIN_DEPOSIT E)))
          | Some amount =>
              if amount <? MIN_DEPOSIT E then emit (Reply (BadAmount (MIN_DEPOSIT E)))
              else
                let expiresAt := toISOString E (now c + CHECK_TIMEOUT_MIN E * 60000) in
                put_session (Session.set_data
                  (Session.set_expiresAt expiresAt
                     (Session.set_step deposit_wait_check
                        (Session.set_amount amount data))) s) ;;;
                emit (Reply (PayInstructions (PAYMENT_CARDS E) amount (CHECK_TIMEOUT_MIN E)))
          end
      | Some withdraw, Some withdraw_userid =>
          put_session (Session.set_data
            (Session.set_step withdraw_code (Session.set_userGameId t data)) s) ;;;
          emit (Reply AskCode)
      | Some withdraw, Some withdraw_code =>
          let code := toUpperCase E t in
          if negb (validateSecretCode code) then emit (Reply BadCode)
          else
            put_session (Session.set_data
              (Session.set_step withdraw_card (Session.set_code code data)) s) ;;;
            emit (Reply AskCard)
      | Some withdraw, Some withdraw_card =>
          let card := Js.filter_str (fun ch => negb (Js.is_space ch)) t in
          if negb (valid_card card) then emit (Reply BadCard)
          else
            let data := Session.set_card card data in
            put_session (Session.set_data data s) ;;;
            reqId <- nanoid c ;;
            createRequest c
              {| nr_id := reqId; nr_user_id := from c;
                 nr_provider_id := Session.providerId data;
                 nr_provider_name := Session.providerName data;
                 nr_type := withdraw; nr_amount := None;
                 nr_details := object_of
                   [("userGameId", Js.JStr <$> Session.userGameId data);
                    ("code", Js.JStr <$> Session.code data);
                    ("card", Js.JStr <$> Session.card data)];
                 nr_status := Some pending; nr_expires_at := None |} ;;;
            for_each (ADMIN_IDS E) (fun admin =>
              emit (SendMessage (ChatName admin)
                (NewWithdraw reqId (from c) (Session.providerName data)
                   (Session.userGameId data) (Session.code data) (Session.card data)))) ;;;
            put_session (reset_flow (Session.set_data data s)) ;;;
            emit (Reply WithdrawReceived)
      | _, _ => emit Next
      end
  end.

(** lines 312-347: [bot.on("photo", ...)] *)
Definition on_photo (c : ctx) (fileId : string) : M unit :=
  s <- get_session ;;
  let data := Session.sdata s in
  match Session.flow s, Session.step data with
  | Some deposit, Some deposit_wait_check =>
      reqId <- nanoid c ;;
      let expiresAt :=
        match Js.str_or_null (Session.expiresAt data) with
        | Some e => e
        | None => toISOString E (now c + CHECK_TIMEOUT_MIN E * 60000)
        end in
      createRequest c
        {| nr_id := reqId; nr_user_id := from c;
           nr_provider_id := Session.providerId data;
           nr_provider_name := Session.providerName data;
           nr_type := deposit; nr_amount := Session.amount data;
           nr_details := object_of
             [("userGameId", Js.JStr <$> Session.userGameId data);
              ("checkFileId", Some (Js.JStr fileId))];
           nr_status := Some pending; nr_expires_at := Some expiresAt |} ;;;
      for_each (ADMIN_IDS E) (fun admin =>
        emit (SendPhoto (ChatName admin) fileId
          (NewDeposit reqId (from c) (Session.providerName data)
             (Session.userGameId data) (Js.int_or_zero (Session.amount data))))) ;;;
      put_session (reset_flow s) ;;;
      emit (Reply CheckReceived)
  | _, _ => ret tt
  end.

(** lines 350-354: [bot.action("cancel_flow", ...)] *)
Definition cancel_flow (c : ctx) : M unit :=
  emit AnswerCbQuery ;;;
  s <- get_session ;;
  put_session (reset_flow s) ;;;
  emit (EditMessageText Cancelled).

(** line 372: [req.amount || (details.amount || 0)]. The [amount] property
    of the payload is read when it is a number; a property of another type,
    which the comparison and the sum of the source would convert, counts as
    absent. The payload is read only when the amount of the request is
    NULL or 0, and the requests the bot stores have an object without
    [amount] for payload (lines 287 and 327). *)
Definition effective_amount (req_amount : option Z) (details : Js.json) : Z :=
  match Js.int_or_null req_amount with
  | Some n => n
  | None =>
      match Js.prop "amount" details with
      | Js.JNum n => n
      | _ => 0
      end
  end.

(** line 399: [ADMIN_USERNAME || ADMIN_IDS[0]] *)
Definition contact : string :=
  if String.eqb (ADMIN_USERNAME E) "" then List.hd "undefined" (ADMIN_IDS E)
  else ADMIN_USERNAME E.

(** lines 357-403: [bot.action(/^admin:(approve|reject):([A-Z0-9]{8})$/, ...)],
    called [resolve] in the specification; [act] and [id] are the two groups
    of the match. *)
Definition admin_action (c : ctx) (act : action) (id : string) : M unit :=
  emit AnswerCbQuery ;;;
  if negb (isAdmin (from c)) then emit (Reply AdminsOnly)
  else
    req <- getRequest id ;;
    match req with
    | None => emit (Reply NotFound)
    | Some req =>
        if negb (bool_decide (status req = pending)) then emit (Reply AlreadyResolved)
        else
          match act with
          | approve =>
              updateRequestStatus c id approved
                (Some ("Manually approved by " ++ pretty (from c))) ;;;
              match type req with
              | deposit =>
                  details <- lift (safeParse (details req)) ;;
                  let amount := effective_amount (amount req) details in
                  if 0 <? amount then
                    userRow <- query (fun d => users d !! user_id req) ;;
                    match userRow with
                    | Some userRow =>
                        exec (update_user (user_id req)
                          (set_balance (Js.int_or_zero (balance userRow) + amount)))
                    | None => ret tt
                    end ;;;
                    emit (SendMessage (ChatId (user_id req))
                            (Credited amount (provider_name req)))
                  else
                    emit (SendMessage (ChatId (user_id req))
                            (DepositApproved (provider_name req)))
              | withdraw =>
                  emit (SendMessage (ChatId (user_id req)) WithdrawApproved)
              end ;;;
              emit (EditMessageText (ApprovedMark id))
          | reject =>
              updateRequestStatus c id rejected
                (Some ("Rejected by " ++ pretty (from c))) ;;;
              emit (SendMessage (ChatId (user_id req)) (Rejected contact)) ;;;
              emit (EditMessageText (RejectedMark id))
          end
    end.

(** lines 492-510: one tick of the expiry sweep. [pend] is read once; the
    rows are then updated one at a time by primary key. *)
Definition pending_with_deadline (d : db) : list (string * row) :=
  filter (fun x => status x.2 = pending ∧ expires_at x.2 ≠ None)
         (map_to_list (requests d)).

Definition sweep_row (nowS : string) (acc : db * list effect) (x : string * row)
    : db * list effect :=
  match Js.str_or_null (expires_at x.2) with
  | Some e =>
      if Js.str_le e nowS then
        (update_request x.1 (expire_row nowS) acc.1,
         (acc.2 ++ SendMessage (ChatId (user_id x.2)) ExpiredNotice
                :: map (fun a => SendMessage (ChatName a) (ExpiredAdminNotice x.1))
                       (ADMIN_IDS E))%list)
      else acc
  | None => acc
  end.

Definition sweep (now_ : Z) (d : db) : db * list effect :=
  foldl (sweep_row (toISOString E now_)) (d, []) (pending_with_deadline d).

(** ** Events

    [Text text] is a text message that comes to [bot.on("text")]: the
    handlers registered before it take the [/start] command and the labels
    of the menu ([reaches_text] below). *)

Inductive event :=
  | Text (text : string)
  | Photo (fileId : string)
  | CancelFlow
  | AdminAction (act : action) (id : string).

Definition handle (c : ctx) (ev : event) : M unit :=
  match ev with
  | Text text => on_text c text
  | Photo fileId => on_photo c fileId
  | CancelFlow => cancel_flow c
  | AdminAction act id => admin_action c act id
  end.

(** The world a handler starts in. *)
Definition start (d : db) (s : Session.t) : world :=
  {| w_db := d; w_session := s; w_out := []; w_pos := 0 |}.

(** One unit of work on the tables: a handler run for some sender and
    session, or one tick of the sweep. *)
Inductive db_step : db -> db -> Prop :=
  | step_handle c ev d s r w :
      handle c ev (start d s) = (r, w) -> db_step d (w_db w)
  | step_sweep now_ d :
      db_step d (sweep now_ d).1.

End Bot.

(** ** A concrete platform

    An [Env] on which the handlers can be run: the case mappings on the
    letters a-z and A-Z, [toISOString] by the proleptic Gregorian calendar,
    and [JSON.parse]/[JSON.stringify] on the fragment of JSON without
    fractions, exponents, escapes and repeated keys. The theorems below do
    not depend on it; it serves the examples. *)

Module Demo.

Definition upper_char (c : ascii) : ascii :=
  if Js.is_lower c then ascii_of_N (Js.code c - 32) else c.

Fixpoint map_str (f : ascii -> ascii) (s : string) : string :=
  match s with
  | EmptyString => EmptyString
  | String c s' => String (f c) (map_str f s')
  end.

Definition upper (s : string) : string := map_str upper_char s.
Definition lower (s : string) : string := map_str sql_lower_char s.

(** [n] in decimal, padded with zeros to [w] digits (for [0 <= n]) *)
Definition pad (w : nat) (n : Z) : string :=
  let s := pretty n in
  String.concat "" (repeat "0" (w - String.length s)) ++ s.

(** year, month, day of the day number [z] (days since 1970-01-01) *)
Definition civil_from_days (z : Z) : Z * Z * Z :=
  let z := z + 719468 in
  let era := z / 146097 in
  let doe := z - era * 146097 in
  let yoe := (doe - doe / 1460 + doe / 36524 - doe / 146096) / 365 in
  let y := yoe + era * 400 in
  let doy := doe - (365 * yoe + yoe / 4 - yoe / 100) in
  let mp := (5 * doy + 2) / 153 in
  let d := doy - (153 * mp + 2) / 5 + 1 in
  let m := if mp <? 10 then mp + 3 else mp - 9 in
  (if m <=? 2 then y + 1 else y, m, d).

Definition year_string (y : Z) : string :=
  if (0 <=? y) && (y <=? 9999) then pad 4 y
  else if y <? 0 then "-" ++ pad 6 (- y)
  else "+" ++ pad 6 y.

(** [new Date(t).toISOString()] for [t] milliseconds since the epoch *)
Definition iso_string (t : Z) : string :=
  let ms := t mod 1000 in
  let secs := t / 1000 in
  let days := secs / 86400 in
  let sod := secs mod 86400 in
  let '(y, m, d) := civil_from_days days in
  year_string y ++ "-" ++ pad 2 m ++ "-" ++ pad 2 d ++ "T"
  ++ pad 2 (sod / 3600) ++ ":" ++ pad 2 (sod / 60 mod 60) ++ ":" ++ pad 2 (sod mod 60)
  ++ "." ++ pad 3 ms ++ "Z".

Definition dquote : ascii := "034"%char.
Definition quoted (s : string) : string := String dquote (s ++ String dquote "").

Fixpoint stringify (v : Js.json) : string :=
  match v with
  | Js.JNull => "null"
  | Js.JBool true => "true"
  | Js.JBool false => "false"
  | Js.JNum n => pretty n
  | Js.JStr s => quoted s
  | Js.JArr l =>
      "[" ++ String.concat "," (map stringify l) ++ "]"
  | Js.JObj o =>
      "{" ++ String.concat ","
               (map (fun kv => quoted (fst kv) ++ ":" ++ stringify (snd kv)) o)
          ++ "}"
  end.

Definition is_json_space (c : ascii) : bool :=
  let n := Js.code c in ((n =? 32) || (n =? 9) || (n =? 10) || (n =? 13))%N.

Definition skip_ws (s : string) : string := Js.drop_while is_json_space s.

(** the characters up to the closing quote *)
Fixpoint parse_chars (s : string) : option (string * string) :=
  match s with
  | EmptyString => None
  | String c s' =>
      if Ascii.eqb c dquote then Some (EmptyString, s')
      else if Ascii.eqb c "\" || (Js.code c <? 32)%N then None
      else '(body, rest) ← parse_chars s'; Some (String c body, rest)
  end.

Fixpoint take_digits (s : string) : string * string :=
  match s with
  | String c s' =>
      if Js.is_digit c then let '(ds, rest) := take_digits s' in (String c ds, rest)
      else (EmptyString, s)
  | EmptyString => (EmptyString, EmptyString)
  end.

(** an integer without a leading zero, not followed by a fraction or an
    exponent *)
Definition parse_int (s : string) : option (Z * string) :=
  let '(neg, s1) :=
    match s with
    | String "-" s' => (true, s')
    | _ => (false, s)
    end in
  let '(ds, rest) := take_digits s1 in
  match ds, rest with
  | EmptyString, _ => None
  | String "0" (String _ _), _ => None
  | _, String "." _ | _, String "e" _ | _, String "E" _ => None
  | _, _ =>
      n ← Js.digits_prefix None ds;
      Some (if neg then - n else n, rest)
  end.

Definition expect (lit : string) (v : Js.json) (s : string) : option (Js.json * string) :=
  if String.prefix lit s
  then Some (v, String.substring (String.length lit) (String.length s - String.length lit) s)
  else None.

Fixpoint parse_value (fuel : nat) (s : string) : option (Js.json * string) :=
  match fuel with
  | O => None
  | S fuel =>
      match skip_ws s with
      | EmptyString => None
      | String c rest as s0 =>
          if Ascii.eqb c "n" then expect "null" Js.JNull s0
          else if Ascii.eqb c "t" then expect "true" (Js.JBool true) s0
          else if Ascii.eqb c "f" then expect "false" (Js.JBool false) s0
          else if Ascii.eqb c dquote then
            '(body, r) ← parse_chars rest; Some (Js.JStr body, r)
          else if Ascii.eqb c "[" then
            match skip_ws rest with
            | String "]" r => Some (Js.JArr [], r)
            | _ => '(l, r) ← parse_elems fuel rest; Some (Js.JArr l, r)
            end
          else if Ascii.eqb c "{" then
            match skip_ws rest with
            | String "}" r => Some (Js.JObj [], r)
            | _ => '(o, r) ← parse_members fuel rest; Some (Js.JObj o, r)
            end
          else '(n, r) ← parse_int s0; Some (Js.JNum n, r)
      end
  end
with parse_elems (fuel : nat) (s : string) : option (list Js.json * string) :=
  match fuel with
  | O => None
  | S fuel =>
      '(v, r) ← parse_value fuel s;
      match skip_ws r with
      | String "," r' => '(l, r'') ← parse_elems fuel r'; Some (v :: l, r'')
      | String "]" r' => Some ([v], r')
      | _ => None
      end
  end
with parse_members (fuel : nat) (s : string) : option (list (string * Js.json) * string) :=
  match fuel with
  | O => None
  | S fuel =>
      match skip_ws s with
      | String c rest =>
          if Ascii.eqb c dquote then
            '(k, r) ← parse_chars rest;
            match skip_ws r with
            | String ":" r1 =>
                '(v, r2) ← parse_value fuel r1;
                match skip_ws r2 with
                | String "," r3 => '(o, r4) ← parse_members fuel r3; Some ((k, v) :: o, r4)
                | String "}" r3 => Some ([(k, v)], r3)
                | _ => None
                end
            | _ => None
            end
          else None
      | EmptyString => None
      end
  end.

Definition parse (s : string) : option Js.json :=
  '(v, rest) ← parse_value (2 * String.length s + 2) s;
  match skip_ws rest with
  | EmptyString => Some v
  | _ => None
  end.

Definition env : Env :=
  {| ADMIN_IDS := ["1001"; "1002"];
     ADMIN_USERNAME := "kassa_admin";
     MIN_DEPOSIT := 5000;
     CHECK_TIMEOUT_MIN := 5;
     PAYMENT_CARDS := ["8600123412341234"];
     toUpperCase := upper;
     toLowerCase := lower;
     toISOString := iso_string;
     JSON_parse := parse;
     JSON_stringify := stringify |}.

End Demo.

(** ** Vocabulary of the statements *)

(** the same world over another [users] table *)
Definition with_users (u : gmap Z user) (w : world) : world :=
  with_db (set_users u (w_db w)) w.

(** the value [safeParse] returns *)
Definition parsed (E : Env) (v : Js.json) : Js.json :=
  match safeParse E v with
  | Ok j => j
  | Throw _ => Js.JObj []
  end.

(** a stored row as [getRequest] returns it *)
Definition parsed_row (E : Env) (r : row) : request Js.json :=
  set_details (parsed E (of_column (details r))) r.

(** what one tick of the sweep at [nowS] makes of a stored row *)
Definition swept (nowS : string) (r : row) : row :=
  match status r, Js.str_or_null (expires_at r) with
  | pending, Some e => if Js.str_le e nowS then expire_row nowS r else r
  | _, _ => r
  end.

(** the balance of a user, [0] when the row or the value is missing *)
Definition balance_of (d : db) (uid : Z) : Z :=
  match users d !! uid with
  | Some u => Js.int_or_zero (balance u)
  | None => 0
  end.

(** the last thing a handler sent *)
Definition last_sent (w : world) : option effect := last (w_out w).


(** the status an admin decision gives *)
Definition decided (act : action) : status_t :=
  match act with approve => approved | reject => rejected end.

(** the note an admin decision leaves *)
Definition note_of (c : ctx) (act : action) : string :=
  match act with
  | approve => "Manually approved by " ++ pretty (from c)
  | reject => "Rejected by " ++ pretty (from c)
  end.

(** the payload line 371 reads from the stored row [r] *)
Definition payload (E : Env) (r : row) : Js.json :=
  parsed E (details (parsed_row E r)).

(** the amount line 372 computes for the stored row [r] *)
Definition amount_of (E : Env) (r : row) : Z :=
  effective_amount (amount r) (payload E r).


(** ** Sample data on the concrete platform *)

Module Sample.

(** user 7, with the balance [b] *)
Definition user7 (b : Z) : user :=
  {| username := Some "ali"; balance := Some b; secret_code := Some "Q7ZK" |}.

(** a deposit of user 7 *)
Definition deposit_row (st : status_t) (amt : option Z) (payload : Js.json)
    (deadline : option string) : row :=
  {| user_id := 7; provider_id := Some "coldbet"; provider_name := Some "ColdBet";
     type := deposit; amount := amt; details := Some (Demo.stringify payload);
     status := st; created_at := Some (Demo.iso_string 1700000000000);
     expires_at := deadline; resolved_at := None; admin_note := None |}.

Definition proof_payload : Js.json :=
  Js.JObj [("userGameId", Js.JStr "g1"); ("checkFileId", Js.JStr "file1")].

(** the tables with user 7 at balance [b] and the request [r] under [id] *)
Definition tables (b : Z) (id : string) (r : row) : db :=
  {| users := {[ 7 := user7 b ]};
     providers := {[ "coldbet" := "ColdBet" ]};
     requests := {[ id := r ]} |}.

(** an administrator and an ordinary user, at the time [t] *)
Definition admin (t : Z) : ctx :=
  {| from := 1001; now := t; tape := fun _ => "ZZZZ2222"; random := 42 |}.
Definition client (t : Z) : ctx :=
  {| from := 7; now := t; tape := fun _ => "ABCDEFGH"; random := 42 |}.

(** a session at the step [st] of the flow [f] *)
Definition at_step (f : kind) (st : step_t) : Session.t :=
  {| Session.flow := Some f;
     Session.sdata :=
       Session.set_step st
         {| Session.providerId := Some "coldbet"; Session.providerName := Some "ColdBet";
            Session.step := None; Session.userGameId := Some "g1";
            Session.amount := None; Session.expiresAt := None;
            Session.code := None; Session.card := None |};
     Session.adminMode := None |}.

(** the id of the sample requests *)
Definition rid : string := "ABCDEFGH".

(** a pending deposit of 10000 with the deadline 2023-11-14T22:18:20.000Z,
    user 7 at balance 0, no session *)
Definition deposit_due : row :=
  deposit_row pending (Some 10000) proof_payload (Some (Demo.iso_string 1700000300000)).
Definition pending_deposit : world :=
  start (tables 0 rid deposit_due) Session.default.

(** the same deposit, already expired *)
Definition expired_deposit : world :=
  start (tables 0 rid
           (deposit_row expired (Some 10000) proof_payload
              (Some (Demo.iso_string 1700000300000))))
        Session.default.

(** user 7 at a step of a flow, over empty requests *)
Definition in_flow (f : kind) (st : step_t) : world :=
  start {| users := {[ 7 := user7 0 ]};
           providers := {[ "coldbet" := "ColdBet" ]};
           requests := ∅ |}
        (at_step f st).

(** administrator 1001 at a step of a flow, with the admin mode
    add_provider set from the admin panel *)
Definition admin_adding (f : kind) (st : step_t) : world :=
  start {| users := {[ 1001 := user7 0 ]};
           providers := {[ "coldbet" := "ColdBet" ]};
           requests := ∅ |}
        (Session.set_adminMode (Some add_provider) (at_step f st)).

(** user 7 at the card step, the code A9K3 accepted before *)
Definition at_card : world :=
  start {| users := {[ 7 := user7 0 ]};
           providers := {[ "coldbet" := "ColdBet" ]};
           requests := ∅ |}
        (Session.set_data
           (Session.set_code "A9K3" (Session.sdata (at_step withdraw withdraw_card)))
           (at_step withdraw withdraw_card)).

(** a users table in which user 7 has another secret code *)
Definition other_users : gmap Z user :=
  {[ 7 := {| username := Some "ali"; balance := Some 0; secret_code := Some "0000" |} ]}.

(** the tables after the approval of the pending deposit *)
Definition approved_tables : db :=
  tables 10000 rid
    (resolve_row approved (Demo.iso_string 1700000100000)
       (Some "Manually approved by 1001") deposit_due).


End Sample.

(** the row [x] of the snapshot is due at [nowS] (line 498) *)
Definition due (nowS : string) (x : string * row) : bool :=
  match Js.str_or_null (expires_at x.2) with
  | Some e => Js.str_le e nowS
  | None => false
  end.

(** [m] relates every world it is run in to the world it leaves, thrown
    exception or not. *)
Definition respects (R : world -> world -> Prop) {A} (m : M A) : Prop :=
  forall w, R w (m w).2.

(** the stored requests are kept as they are; new ones may be added *)
Definition requests_kept (w w' : world) : Prop :=
  requests (w_db w) ⊆ requests (w_db w').

(** [m] neither reads nor writes the [users] table: run over another
    table, it does the same and carries that table through. *)
Definition users_blind {A} (m : M A) : Prop :=
  forall u w, m (with_users u w) = ((m w).1, with_users u (m w).2).

(** Along [d ~> d']: every stored request is still stored, a request that
    is not pending is exactly as it was, and a status that changed was
    pending before. *)
Definition lifecycle (d d' : db) : Prop :=
  forall id r, requests d !! id = Some r ->
    exists r', requests d' !! id = Some r'
      ∧ (status r <> pending -> r' = r)
      ∧ (status r' = status r ∨ (status r = pending ∧ status r' <> pending)).

(** the id [createRequest] stores a request under when the handler run in
    [w] draws its [reqId] from [nanoid] *)
Definition new_id (c : ctx) (w : world) : string :=
  if String.eqb (tape c (w_pos w)) "" then tape c (S (w_pos w))
  else tape c (w_pos w).

(** the row the photo handler stores for the session [s] (lines 320-330) *)
Definition deposit_request (E : Env) (c : ctx) (fileId : string) (s : Session.t) : row :=
  let data := Session.sdata s in
  {| user_id := from c;
     provider_id := Session.providerId data;
     provider_name := Session.providerName data;
     type := deposit;
     amount := Js.int_or_null (Session.amount data);
     details := Some (JSON_stringify E (object_of
       [("userGameId", Js.JStr <$> Session.userGameId data);
        ("checkFileId", Some (Js.JStr fileId))]));
     status := pending;
     created_at := Some (toISOString E (now c));
     expires_at := Js.str_or_null (Some
       match Js.str_or_null (Session.expiresAt data) with
       | Some e => e
       | None => toISOString E (now c + CHECK_TIMEOUT_MIN E * 60000)
       end);
     resolved_at := None; admin_note := None |}.

(** the row the text handler stores at the card step, for the session [s]
    and the card [card] (lines 280-289) *)
Definition withdraw_request (E : Env) (c : ctx) (card : string) (s : Session.t) : row :=
  let data := Session.sdata s in
  {| user_id := from c;
     provider_id := Session.providerId data;
     provider_name := Session.providerName data;
     type := withdraw;
     amount := None;
     details := Some (JSON_stringify E (object_of
       [("userGameId", Js.JStr <$> Session.userGameId data);
        ("code", Js.JStr <$> Session.code data);
        ("card", Some (Js.JStr card))]));
     status := pending;
     created_at := Some (toISOString E (now c));
     expires_at := None;
     resolved_at := None; admin_note := None |}.

(** Every stored deadline is a time stamp (not the empty string), and a
    withdrawal has none. *)
Definition deadlines_ok (d : db) : Prop :=
  forall id r, requests d !! id = Some r ->
    expires_at r <> Some "" ∧ (type r = withdraw -> expires_at r = None).


(** ** The other functions and handlers of index.js

    The handlers of the menu and of the admin panel. What they send is
    returned, in order, as a list of [notice]s. [CallbackAnswered] is the
    call [ctx.answerCbQuery()] a button handler starts with; the call is in
    a try/catch, so that the handler goes on whether or not it succeeds. *)

Inductive notice :=
  | CallbackAnswered
  | JoinChannel (channel : string)
  | Welcome
  | YourCode (code : option string)
  | NoProviders
  | ChooseProvider (f : kind) (buttons : list (string * string))
  | ProviderNotFound
  | AskGameId (name : string)
  | ChooseFromMenu
  | AskNewProvider
  | AskProviderToRemove
  | Statistics (total pending approvedDeposits : Z).

(** line 31 *)
Definition code_chars : string := "ABCDEFGHIJKLMNOPQRSTUVWXYZ0123456789".

(** [s.charAt(i)]: the empty string when [i] is out of range *)
Definition charAt (i : nat) (s : string) : string :=
  match String.get i s with
  | Some ch => String ch EmptyString
  | None => EmptyString
  end.

(** lines 30-37; [draw i] is the value of
    [Math.floor(Math.random() * chars.length)] in round [i] of the loop. *)
Definition generateSecretCode (draw : nat -> nat) : string :=
  fold_left (fun code i => code ++ charAt (draw i) code_chars) (seq 0 4) "".

(** line 18 and the answer of [ctx.telegram.getChatMember] (line 129):
    the status of the member, [None] when the call throws. *)
Record subscription := {
  CHANNEL_ID : string;
  getChatMember : option string;
}.

(** lines 126-140; the result and the prompt sent with it *)
Definition ensureSubscribed (g : subscription) : bool * list notice :=
  if String.eqb (CHANNEL_ID g) "" then (true, [])
  else
    match getChatMember g with
    | Some st =>
        if bool_decide (st ∈ ["creator"; "administrator"; "member"]) then (true, [])
        else (false, [JoinChannel (CHANNEL_ID g)])
    | None => (true, [])
    end.

(** [ORDER BY name]: the order of two rows by their names *)
Definition name_le (p q : string * string) : Prop := Js.str_le p.2 q.2 = true.

#[global] Instance name_le_dec : RelDecision name_le.
Proof. intros p q. unfold name_le. apply _. Defined.

(** lines 57-59: the rows [(id, name)] of [providers], ordered by name
    (rows of one name in the order the sort leaves them; SQL leaves it
    open) *)
Definition listProviders (d : db) : list (string * string) :=
  merge_sort name_le (map_to_list (providers d)).

(** lines 48-53; [COUNT( * )] is the number of rows *)
Definition ensureDefaultProvider : M unit :=
  c <- query (fun d => size (providers d)) ;;
  if Nat.eqb c 0 then exec (insert_or_ignore_provider "coldbet" "ColdBet")
  else ret tt.

(** [INSERT INTO users (id, username, balance, secret_code)] *)
Definition insert_user (id : Z) (u : user) (d : db) : db :=
  set_users (<[id := u]> (users d)) d.

(** lines 95-103; [uid] and [uname] are [user.id] and [user.username] *)
Definition ensureUser (uid : Z) (uname : option string) (draw : nat -> nat) : M user :=
  row <- query (fun d => users d !! uid) ;;
  match row with
  | None =>
      let code := generateSecretCode draw in
      exec (insert_user uid
              {| username := Js.str_or_null uname; balance := Some 0;
                 secret_code := Some code |}) ;;;
      ret {| username := uname; balance := Some 0; secret_code := Some code |}
  | Some row => ret row
  end.

(** [ctx.session.data.providerId = prov.id;
     ctx.session.data.providerName = prov.name] *)
Definition set_provider (id name : string) (d : Session.data) : Session.data :=
  {| Session.providerId := Some id; Session.providerName := Some name;
     Session.step := Session.step d; Session.userGameId := Session.userGameId d;
     Session.amount := Session.amount d; Session.expiresAt := Session.expiresAt d;
     Session.code := Session.code d; Session.card := Session.card d |}.

(** [db.get("SELECT id,name FROM providers WHERE name=?", pid)]: a row of
    that name (the first the table gives) *)
Definition provider_by_name (name : string) (d : db) : option (string * string) :=
  List.find (fun p => String.eqb p.2 name) (map_to_list (providers d)).

(** lines 197-198 *)
Definition find_provider (pid : string) (d : db) : option (string * string) :=
  match providers d !! pid with
  | Some name => Some (pid, name)
  | None => provider_by_name pid d
  end.

(** [SELECT COUNT( * ) FROM requests] *)
Definition count_requests (d : db) : Z :=
  Z.of_nat (length (map_to_list (requests d))).

(** [SELECT COUNT( * ) FROM requests WHERE status='pending'] *)
Definition count_pending (d : db) : Z :=
  Z.of_nat (length (filter (fun x => status x.2 = pending) (map_to_list (requests d)))).

(** [SELECT SUM(amount) FROM requests WHERE status='approved' AND
    type='deposit'], with [|| 0] for the NULL of an empty sum *)
Definition sum_approved_deposits (d : db) : Z :=
  foldr Z.add 0
    (map (fun x => Js.int_or_zero (amount x.2))
       (filter (fun x => status x.2 = approved ∧ type x.2 = deposit)
          (map_to_list (requests d)))).

Section Menu.

Context (E : Env).

(** lines 153-157: [bot.start] *)
Definition start_cmd (c : ctx) (uname : option string) (draw : nat -> nat)
    (g : subscription) : M (list notice) :=
  ensureUser (from c) uname draw ;;;
  if negb (ensureSubscribed g).1 then ret (ensureSubscribed g).2
  else ret ((ensureSubscribed g).2 ++ [Welcome])%list.

(** lines 160-163: [bot.hears("Mening kodim")] *)
Definition my_code (c : ctx) (uname : option string) (draw : nat -> nat)
    : M (list notice) :=
  u <- ensureUser (from c) uname draw ;;
  ret [YourCode (secret_code u)].

(** lines 172-180 and 183-191: the two [bot.hears] that start a flow,
    [f] being the flow each of them sets *)
Definition start_flow (f : kind) (g : subscription) : M (list notice) :=
  if negb (ensureSubscribed g).1 then ret (ensureSubscribed g).2
  else
    provs <- query listProviders ;;
    match provs with
    | [] => ret ((ensureSubscribed g).2 ++ [NoProviders])%list
    | _ =>
        s <- get_session ;;
        put_session (Session.set_data Session.empty (Session.set_flow (Some f) s)) ;;;
        ret ((ensureSubscribed g).2 ++ [ChooseProvider f provs])%list
    end.

(** lines 194-212: [bot.action(/^prov:(.+)$/i)], [pid] the group of the
    match *)
Definition prov_selected (pid : string) : M (list notice) :=
  prov <- query (find_provider pid) ;;
  match prov with
  | None => ret [CallbackAnswered; ProviderNotFound]
  | Some prov =>
      s <- get_session ;;
      let data := set_provider prov.1 prov.2 (Session.sdata s) in
      match Session.flow s with
      | Some deposit =>
          put_session (Session.set_data (Session.set_step deposit_userid data) s) ;;;
          ret [CallbackAnswered; AskGameId prov.2]
      | Some withdraw =>
          put_session (Session.set_data (Session.set_step withdraw_userid data) s) ;;;
          ret [CallbackAnswered; AskGameId prov.2]
      | None =>
          put_session (Session.set_data data s) ;;;
          ret [CallbackAnswered; ChooseFromMenu]
      end
  end.

(** lines 423-428 and 429-434: [bot.action("ap:add")] and
    [bot.action("ap:remove")], [mode] being the mode each of them sets *)
Definition ap_mode (c : ctx) (mode : admin_mode) : M (list notice) :=
  if negb (isAdmin E (from c)) then ret [CallbackAnswered]
  else
    s <- get_session ;;
    put_session (Session.set_adminMode (Some mode) s) ;;;
    ret [CallbackAnswered;
         match mode with
         | add_provider => AskNewProvider
         | remove_provider => AskProviderToRemove
         end].

(** lines 456-466: [bot.action("ap:stats")] *)
Definition ap_stats (c : ctx) : M (list notice) :=
  if negb (isAdmin E (from c)) then ret [CallbackAnswered]
  else
    total <- query count_requests ;;
    pending_ <- query count_pending ;;
    approvedDeposits <- query sum_approved_deposits ;;
    ret [CallbackAnswered; Statistics total pending_ approvedDeposits].

(** The events of the whole bot on the tables: those of [db_step], the
    seeding at startup, and the handlers of the menu and the admin panel,
    each run for some sender and session. *)
Inductive bot_step : db -> db -> Prop :=
  | bot_core d d' : db_step E d d' -> bot_step d d'
  | bot_seed d s r w :
      ensureDefaultProvider (start d s) = (r, w) -> bot_step d (w_db w)
  | bot_start c uname draw g d s r w :
      start_cmd c uname draw g (start d s) = (r, w) -> bot_step d (w_db w)
  | bot_my_code c uname draw d s r w :
      my_code c uname draw (start d s) = (r, w) -> bot_step d (w_db w)
  | bot_start_flow f g d s r w :
      start_flow f g (start d s) = (r, w) -> bot_step d (w_db w)
  | bot_prov pid d s r w :
      prov_selected pid (start d s) = (r, w) -> bot_step d (w_db w)
  | bot_ap_mode c mode d s r w :
      ap_mode c mode (start d s) = (r, w) -> bot_step d (w_db w)
  | bot_ap_stats c d s r w :
      ap_stats c (start d s) = (r, w) -> bot_step d (w_db w).

End Menu.


(** the index of a character of [code_chars] *)
Definition code_index (ch : ascii) : nat :=
  if Js.is_upper ch then N.to_nat (Js.code ch) - 65
  else 26 + (N.to_nat (Js.code ch) - 48).


(** Along [d ~> d']: every user keeps a row, with the same username and
    secret code and a balance that is not smaller. *)
Definition ledger_grows (d d' : db) : Prop :=
  forall uid u, users d !! uid = Some u ->
    exists u', users d' !! uid = Some u'
      ∧ username u' = username u
      ∧ secret_code u' = secret_code u
      ∧ Js.int_or_zero (balance u) <= Js.int_or_zero (balance u').


(** the world the next handler of the same chat starts in: tables and
    session as the previous handler left them *)
Definition carry (w : world) : world := start (w_db w) (w_session w).


(** ** Updates, sessions and well-formed requests *)

#[global] Instance step_eq_dec : EqDecision step_t.
Proof. solve_decision. Defined.

(** the flow a step belongs to *)
Definition kind_of (st : step_t) : kind :=
  match st with
  | deposit_userid | deposit_amount | deposit_wait_check => deposit
  | withdraw_userid | withdraw_code | withdraw_card => withdraw
  end.

(** What a session at a step has collected: the step is one of the
    session's flow and a provider is picked; past the game id step the
    game id is there; at the proof step the amount is at least the minimum
    and a deadline is set; at the card step the code has the format. *)
Definition session_ok (E : Env) (s : Session.t) : Prop :=
  let data := Session.sdata s in
  forall st, Session.step data = Some st ->
    Session.flow s = Some (kind_of st)
    ∧ is_Some (Session.providerId data)
    ∧ is_Some (Session.providerName data)
    ∧ (st <> deposit_userid -> st <> withdraw_userid ->
       is_Some (Session.userGameId data))
    ∧ (st = deposit_wait_check ->
       is_Some (Session.expiresAt data)
       ∧ exists a, Session.amount data = Some a ∧ MIN_DEPOSIT E <= a)
    ∧ (st = withdraw_card ->
       exists code, Session.code data = Some code ∧ validateSecretCode code = true).

(** A stored request names its provider, has its creation time and its
    details; the amount of a deposit is a safe integer of at least the
    minimum (stored as NULL when it is 0), a withdrawal has no amount. *)
Definition request_ok (E : Env) (r : row) : Prop :=
  is_Some (provider_id r) ∧ is_Some (provider_name r)
  ∧ is_Some (created_at r) ∧ is_Some (details r)
  ∧ match type r with
    | deposit => exists a, MIN_DEPOSIT E <= a ∧ Js.safe a
                           ∧ amount r = Js.int_or_null (Some a)
    | withdraw => amount r = None
    end.

(** the amount a session holds, if any, is a safe integer *)
Definition amount_safe (s : Session.t) : Prop :=
  forall a, Session.amount (Session.sdata s) = Some a -> Js.safe a.

Definition requests_ok (E : Env) (d : db) : Prop :=
  forall id r, requests d !! id = Some r -> request_ok E r.

Section Updates.

Context (E : Env).

(** The updates the bot handles with a handler that writes to the tables
    or to the session, one constructor for each registered handler. *)
Inductive update :=
  | Core (ev : event)
  | StartCmd (uname : option string) (draw : nat -> nat) (g : subscription)
  | MyCode (uname : option string) (draw : nat -> nat)
  | StartFlow (f : kind) (g : subscription)
  | ProvSelected (pid : string)
  | ApMode (mode : admin_mode)
  | ApStats.

Definition run (c : ctx) (u : update) : M (list notice) :=
  match u with
  | Core ev => handle E c ev ;;; ret []
  | StartCmd uname draw g => start_cmd c uname draw g
  | MyCode uname draw => my_code c uname draw
  | StartFlow f g => start_flow f g
  | ProvSelected pid => prov_selected pid
  | ApMode mode => ap_mode E c mode
  | ApStats => ap_stats E c
  end.

(** The session of a chat after one more update, over whatever the tables
    hold at that moment. *)
Inductive session_step : Session.t -> Session.t -> Prop :=
  | session_run c u d s r w :
      run c u (start d s) = (r, w) -> session_step s (w_session w).

End Updates.


(** ** Sample visits on the concrete platform *)

Module Visit.

(** a member of the channel, and somebody who left it *)
Definition member : subscription :=
  {| CHANNEL_ID := "@kassa"; getChatMember := Some "member" |}.
Definition outsider : subscription :=
  {| CHANNEL_ID := "@kassa"; getChatMember := Some "left" |}.

(** the draws 0, 35, 26, 25 *)
Definition draws (i : nat) : nat :=
  match i with 0 => 0 | 1 => 35 | 2 => 26 | _ => 25 end%nat.

(** user 7 and the provider coldbet, no request *)
Definition shop : db :=
  {| users := {[ 7 := Sample.user7 0 ]};
     providers := {[ "coldbet" := "ColdBet" ]};
     requests := ∅ |}.

(** administrator 1001 in the remove mode *)
Definition removing : world :=
  start shop {| Session.flow := None; Session.sdata := Session.empty;
                Session.adminMode := Some remove_provider |}.


(** the session of user 7 after the updates [us], from the default
    session, over the tables [d] *)
Definition session_after (d : db) (us : list update) : Session.t :=
  foldl (fun s u => w_session (run Demo.env (Sample.client 1700000000000) u (start d s)).2)
        Session.default us.

(** a deposit up to the photo: the flow is started, the provider picked,
    the game id and the amount 7000 sent *)
Definition deposit_updates : list update :=
  [StartFlow deposit member; ProvSelected "coldbet";
   Core (Text " g1 "); Core (Text "7000")].

(** the request the photo of that deposit stores, two minutes later *)
Definition deposit_7000 : row :=
  {| user_id := 7; provider_id := Some "coldbet"; provider_name := Some "ColdBet";
     type := deposit; amount := Some 7000;
     details := Some (Demo.stringify
       (Js.JObj [("userGameId", Js.JStr "g1"); ("checkFileId", Js.JStr "file1")]));
     status := pending;
     created_at := Some "2023-11-14T22:15:20.000Z";
     expires_at := Some "2023-11-14T22:18:20.000Z";
     resolved_at := None; admin_note := None |}.

(** the messenger when the administrator [admin] has blocked the bot:
    what is sent to that chat is refused, everything else goes through *)
Definition blocked (admin : string) (e : effect) : bool :=
  match e with
  | SendMessage (ChatName a) _ | SendPhoto (ChatName a) _ _ => negb (String.eqb a admin)
  | _ => true
  end.

(** the tables after the approval of the sample deposit *)
Definition approved : db :=
  w_db (handle Demo.env (Sample.admin 1700000100000)
          (AdminAction approve Sample.rid) Sample.pending_deposit).2.

End Visit.


(** ** The sweep, statement by statement

    A tick awaits each of its statements (lines 496 and 499), and handlers
    run at those points. A tick in flight is the time it read and the rows
    of its SELECT that it has still to look at. *)
Record tick := {
  tick_now : string;
  tick_rows : list (string * row);
}.

Section Interleaving.

Context (E : Env).

(** lines 495-496: the clock is read and the SELECT takes the snapshot *)
Definition tick_select (now_ : Z) (d : db) : tick :=
  {| tick_now := toISOString E now_; tick_rows := pending_with_deadline d |}.

(** lines 497-504 for the next row of the snapshot, on the tables as they
    are by then; after the last row the tick is over *)
Definition tick_next (t : tick) (d : db) : db * option tick :=
  match tick_rows t with
  | [] => (d, None)
  | x :: rest =>
      ((sweep_row E (tick_now t) (d, []) x).1,
       Some {| tick_now := tick_now t; tick_rows := rest |})
  end.

(** The tables and the tick in flight, if any: a handler runs, a tick
    starts, or the tick in flight looks at its next row. *)
Inductive race_step : db * option tick -> db * option tick -> Prop :=
  | race_handle c ev d s r w t :
      handle E c ev (start d s) = (r, w) -> race_step (d, t) (w_db w, t)
  | race_select now_ d :
      race_step (d, None) (d, Some (tick_select now_ d))
  | race_next t d :
      race_step (d, Some t) (tick_next t d).

End Interleaving.


(** ** Sends that can fail

    [ctx.reply], [bot.telegram.sendMessage] and [bot.telegram.sendPhoto]
    return promises that reject when the messenger refuses the call. The
    text and the photo handler await them outside try/catch, so that a
    refused send ends the handler there. The two handlers are given here
    over the way a send is done, [say]; with [emit] for it they are
    [on_text] and [on_photo]. *)

Section Sends.

Context (E : Env) (say : effect -> M unit).

(** lines 215-309, as [on_text] *)
Definition on_text_with (c : ctx) (text : string) : M unit :=
  s <- get_session ;;
  let t := Js.trim text in
  let data := Session.sdata s in
  match admin_input E c s with
  | Some add_provider =>
      let val := t in
      let id :=
        let x := Js.filter_str (fun ch => Js.is_lower ch || Js.is_digit ch) (toLowerCase E val) in
        if String.eqb x "" then "prov" ++ pretty (random c) else x in
      exec (insert_or_ignore_provider id val) ;;;
      put_session (Session.set_adminMode None s) ;;;
      say (Reply (ProviderAdded val id))
  | Some remove_provider =>
      let key := toLowerCase E t in
      exec (delete_provider key) ;;;
      put_session (Session.set_adminMode None s) ;;;
      say (Reply ProviderRemoved)
  | None =>
      match Session.flow s, Session.step data with
      | Some deposit, Some deposit_userid =>
          put_session (Session.set_data
            (Session.set_step deposit_amount (Session.set_userGameId t data)) s) ;;;
          say (Reply (AskAmount (MIN_DEPOSIT E)))
      | Some deposit, Some deposit_amount =>
          match Js.parseInt t with
          | None => say (Reply (BadAmount (MIN_DEPOSIT E)))
          | Some amount =>
              if amount <? MIN_DEPOSIT E then say (Reply (BadAmount (MIN_DEPOSIT E)))
              else
                let expiresAt := toISOString E (now c + CHECK_TIMEOUT_MIN E * 60000) in
                put_session (Session.set_data
                  (Session.set_expiresAt expiresAt
                     (Session.set_step deposit_wait_check
                        (Session.set_amount amount data))) s) ;;;
                say (Reply (PayInstructions (PAYMENT_CARDS E) amount (CHECK_TIMEOUT_MIN E)))
          end
      | Some withdraw, Some withdraw_userid =>
          put_session (Session.set_data
            (Session.set_step withdraw_code (Session.set_userGameId t data)) s) ;;;
          say (Reply AskCode)
      | Some withdraw, Some withdraw_code =>
          let code := toUpperCase E t in
          if negb (validateSecretCode code) then say (Reply BadCode)
          else
            put_session (Session.set_data
              (Session.set_step withdraw_card (Session.set_code code data)) s) ;;;
            say (Reply AskCard)
      | Some withdraw, Some withdraw_card =>
          let card := Js.filter_str (fun ch => negb (Js.is_space ch)) t in
          if negb (valid_card card) then say (Reply BadCard)
          else
            let data := Session.set_card card data in
            put_session (Session.set_data data s) ;;;
            reqId <- nanoid c ;;
            createRequest E c
              {| nr_id := reqId; nr_user_id := from c;
                 nr_provider_id := Session.providerId data;
                 nr_provider_name := Session.providerName data;
                 nr_type := withdraw; nr_amount := None;
                 nr_details := object_of
                   [("userGameId", Js.JStr <$> Session.userGameId data);
                    ("code", Js.JStr <$> Session.code data);
                    ("card", Js.JStr <$> Session.card data)];
                 nr_status := Some pending; nr_expires_at := None |} ;;;
            for_each (ADMIN_IDS E) (fun admin =>
              say (SendMessage (ChatName admin)
                (NewWithdraw reqId (from c) (Session.providerName data)
                   (Session.userGameId data) (Session.code data) (Session.card data)))) ;;;
            put_session (reset_flow (Session.set_data data s)) ;;;
            say (Reply WithdrawReceived)
      | _, _ => emit Next
      end
  end.

(** lines 312-347, as [on_photo] *)
Definition on_photo_with (c : ctx) (fileId : string) : M unit :=
  s <- get_session ;;
  let data := Session.sdata s in
  match Session.flow s, Session.step data with
  | Some deposit, Some deposit_wait_check =>
      reqId <- nanoid c ;;
      let expiresAt :=
        match Js.str_or_null (Session.expiresAt data) with
        | Some e => e
        | None => toISOString E (now c + CHECK_TIMEOUT_MIN E * 60000)
        end in
      createRequest E c
        {| nr_id := reqId; nr_user_id := from c;
           nr_provider_id := Session.providerId data;
           nr_provider_name := Session.providerName data;
           nr_type := deposit; nr_amount := Session.amount data;
           nr_details := object_of
             [("userGameId", Js.JStr <$> Session.userGameId data);
              ("checkFileId", Some (Js.JStr fileId))];
           nr_status := Some pending; nr_expires_at := Some expiresAt |} ;;;
      for_each (ADMIN_IDS E) (fun admin =>
        say (SendPhoto (ChatName admin) fileId
          (NewDeposit reqId (from c) (Session.providerName data)
             (Session.userGameId data) (Js.int_or_zero (Session.amount data))))) ;;;
      put_session (reset_flow s) ;;;
      say (Reply CheckReceived)
  | _, _ => ret tt
  end.

End Sends.

(** a send that goes through when [deliver] says so, and throws otherwise *)
Definition send (deliver : effect -> bool) (e : effect) : M unit :=
  fun w => if deliver e then emit e w else (Throw TelegramError, w).

(** of the sends [es], in order, those that are made: all up to the first
    that is refused *)
Fixpoint delivered (deliver : effect -> bool) (es : list effect) : list effect :=
  match es with
  | [] => []
  | e :: es' => if deliver e then e :: delivered deliver es' else []
  end.

Definition on_text_via (E : Env) (deliver : effect -> bool) : ctx -> string -> M unit :=
  on_text_with E (send deliver).

Definition on_photo_via (E : Env) (deliver : effect -> bool) : ctx -> string -> M unit :=
  on_photo_with E (send deliver).


(** the notification of a new deposit to the administrator [admin], as the
    photo handler run in [w] sends it (lines 333-343) *)
Definition deposit_notice (c : ctx) (fileId : string) (w : world) (admin : string) : effect :=
  let data := Session.sdata (w_session w) in
  SendPhoto (ChatName admin) fileId
    (NewDeposit (tape c (w_pos w)) (from c) (Session.providerName data)
       (Session.userGameId data) (Js.int_or_zero (Session.amount data))).

(** the notification of a new withdrawal to the administrator [admin], as
    the text handler run in [w] at the card step sends it for the card
    [card] (lines 292-301) *)
Definition withdraw_notice (c : ctx) (card : string) (w : world) (admin : string) : effect :=
  let data := Session.sdata (w_session w) in
  SendMessage (ChatName admin)
    (NewWithdraw (tape c (w_pos w)) (from c) (Session.providerName data)
       (Session.userGameId data) (Session.code data) (Some card)).


(** ** Which texts the text handler sees

    lines 153-191: [bot.start] and the four [bot.hears] are registered before
    [bot.on("text")] and do not call [next]. A message that is the [/start]
    command, or whose text is one of the four labels of the menu, is theirs
    and never reaches the text handler; a text that does not begin with
    [/start] and is none of the labels does. ([/admin] and [/help] are
    registered after the text handler, lines 406 and 513, which sees them
    first.) *)

(** lines 160, 166, 172, 183: the labels, as the file has them *)
Definition menu_labels : list string :=
  ["Mening kodim"; "Aloqa"; "Hisobni toâ€˜ldirish"; "Hisobdan yechish"].

Definition reaches_text (text : string) : bool :=
  negb (existsb (String.eqb text) menu_labels) && negb (String.prefix "/start" text).


(** ** Updates over a messenger that refuses sends *)

Section Served.

Context (E : Env).

(** The update [u] over the messenger [deliver]. The text and the photo
    handler are the two that write after a send they await outside
    try/catch (lines 293-303 and 334-345). Every other handler has written
    what it writes when it comes to such a send, and a send inside
    try/catch stops nothing: for them [run] is the handler whatever is
    delivered. *)
Definition run_via (deliver : effect -> bool) (c : ctx) (u : update) : M (list notice) :=
  match u with
  | Core (Text text) => on_text_via E deliver c text ;;; ret []
  | Core (Photo fileId) => on_photo_via E deliver c fileId ;;; ret []
  | _ => run E c u
  end.

(** A text is safely typed when the integer it begins with, if there is
    one, is a safe integer: [parseInt] of line 247 then returns that
    integer, where it returns a rounded number for a longer one and
    Infinity for some hundreds of digits. *)
Definition typed_safely (u : update) : Prop :=
  match u with
  | Core (Text text) => forall a, Js.parseInt (Js.trim text) = Some a -> Js.safe a
  | _ => True
  end.

(** The session of a chat after one more update with a safely typed text,
    over whatever the tables hold and whatever the messenger delivers. *)
Inductive typed_step : Session.t -> Session.t -> Prop :=
  | typed_run deliver c u d s r w :
      typed_safely u ->
      run_via deliver c u (start d s) = (r, w) -> typed_step s (w_session w).

(** The tables after one more such update of a chat whose session started
    as the default session, or after one tick of the sweep. *)
Inductive served_step : db -> db -> Prop :=
  | served_run deliver c u d s r w :
      rtc typed_step Session.default s ->
      typed_safely u ->
      run_via deliver c u (start d s) = (r, w) -> served_step d (w_db w)
  | served_sweep now_ d : served_step d (sweep E now_ d).1.

End Served.

(** ** Sample visits when sends can fail *)

Module Attempt.

(** user 7, a member of the channel, deposits 7000 at coldbet with the game
    id g1 over the messenger [deliver]: the amount is sent at 22:13:20 and
    the photo two minutes later *)
Definition deposit_photo (deliver : effect -> bool) : outcome unit * world :=
  on_photo_via Demo.env deliver (Sample.client 1700000120000) "file1"
    (carry (on_text_via Demo.env deliver (Sample.client 1700000000000) "7000"
      (carry (on_text_via Demo.env deliver (Sample.client 1700000000000) " g1 "
        (carry (prov_selected "coldbet"
          (carry (start_flow deposit Visit.member
            (start Visit.shop Session.default)).2)).2)).2)).2).

(** user 7 withdraws at coldbet with the code a9k3 and a card typed in
    groups of four, over the messenger [deliver] *)
Definition withdraw_card_text (deliver : effect -> bool) : outcome unit * world :=
  on_text_via Demo.env deliver (Sample.client 1700000120000) "8600 1234 1234 1234"
    (carry (on_text_via Demo.env deliver (Sample.client 1700000000000) " a9k3 "
      (carry (on_text_via Demo.env deliver (Sample.client 1700000000000) " g1 "
        (carry (prov_selected "coldbet"
          (carry (start_flow withdraw Visit.member
            (start Visit.shop Session.default)).2)).2)).2)).2).

(** the request the card of that withdrawal stores *)
Definition withdraw_a9k3 : row :=
  {| user_id := 7; provider_id := Some "coldbet"; provider_name := Some "ColdBet";
     type := withdraw; amount := None;
     details := Some (Demo.stringify
       (Js.JObj [("userGameId", Js.JStr "g1");
                 ("code", Js.JStr "A9K3");
                 ("card", Js.JStr "8600123412341234")]));
     status := pending;
     created_at := Some "2023-11-14T22:15:20.000Z";
     expires_at := None;
     resolved_at := None; admin_note := None |}.

(** every send is delivered *)
Definition online (e : effect) : bool := true.

(** the session of user 7 after the updates [us], from the default
    session, over the tables [d] and the messenger [deliver] *)
Definition session_after (deliver : effect -> bool) (d : db) (us : list update) : Session.t :=
  foldl (fun s u =>
           w_session (run_via Demo.env deliver (Sample.client 1700000000000) u (start d s)).2)
        Session.default us.

(** the photo of the sample deposit, two minutes after the amount, when
    administrator 1002 has blocked the bot *)
Definition photo_blocked : outcome (list notice) * world :=
  run_via Demo.env (Visit.blocked "1002") (Sample.client 1700000120000)
    (Core (Photo "file1"))
    (start Visit.shop
       (session_after (Visit.blocked "1002") Visit.shop Visit.deposit_updates)).

End Attempt.

(** * Properties *)

(** ** The state monad *)

Lemma bind_ok {A B} (m : M A) (k : A -> M B) w a w' :
  m w = (Ok a, w') -> bind m k w = k a w'.
Proof. intros H. unfold bind. now rewrite H. Qed.

Lemma sent_sent es1 es2 w : sent es2 (sent es1 w) = sent (es1 ++ es2) w.
Proof. unfold sent; simpl. now rewrite <- app_assoc. Qed.

Lemma emit_run e w : emit e w = (Ok tt, sent [e] w).
Proof. reflexivity. Qed.

Lemma for_each_emit {A} (f : A -> effect) (l : list A) w :
  for_each l (fun x => emit (f x)) w = (Ok tt, sent (map f l) w).
Proof.
  revert w. induction l as [|x l IH]; intros w; simpl.
  - unfold ret, sent. now rewrite app_nil_r; destruct w.
  - unfold bind. rewrite emit_run, IH, sent_sent. reflexivity.
Qed.

Section Facts.

Context (E : Env).

(** ** safeParse and the helper functions of the store *)

Lemma safeParse_ok (v : Js.json) : safeParse E v = Ok (parsed E v).
Proof.
  unfold parsed, safeParse, try_catch, JSON_parse_js.
  destruct (negb (Js.truthy v)); [reflexivity|].
  destruct (Js.typeof_object v); [reflexivity|].
  now destruct (JSON_parse E (Js.to_string v)).
Qed.

Lemma parse_details_run (r : option row) w :
  parse_details E r w = (Ok (parsed_row E <$> r), w).
Proof.
  destruct r as [r|]; [|reflexivity].
  unfold parse_details, bind, lift. now rewrite safeParse_ok.
Qed.

Lemma getRequest_run id w :
  getRequest E id w = (Ok (parsed_row E <$> requests (w_db w) !! id), w).
Proof.
  unfold getRequest, select_request, bind, query.
  apply parse_details_run.
Qed.

Lemma updateRequestStatus_run c id st note w :
  let d' := update_request id (resolve_row st (nowISO E c) note) (w_db w) in
  updateRequestStatus E c id st note w
  = (Ok (parsed_row E <$> requests d' !! id), with_db d' w).
Proof.
  unfold updateRequestStatus, select_request, bind, query, exec; simpl.
  apply parse_details_run.
Qed.

Lemma createRequest_run c req w :
  let w1 := if String.eqb (nr_id req) ""
            then {| w_db := w_db w; w_session := w_session w; w_out := w_out w;
                    w_pos := S (w_pos w) |}
            else w in
  let id := if String.eqb (nr_id req) "" then tape c (w_pos w) else nr_id req in
  let r : row :=
    {| user_id := nr_user_id req; provider_id := nr_provider_id req;
       provider_name := nr_provider_name req; type := nr_type req;
       amount := Js.int_or_null (nr_amount req);
       details := Some (JSON_stringify E
          (if Js.truthy (nr_details req) then nr_details req else Js.JObj []));
       status := default pending (nr_status req);
       created_at := Some (nowISO E c);
       expires_at := Js.str_or_null (nr_expires_at req);
       resolved_at := None; admin_note := None |} in
  createRequest E c req w =
    match requests (w_db w) !! id with
    | Some _ => (Throw ConstraintError, w1)
    | None =>
        (Ok (Some (parsed_row E r)),
         with_db (set_requests (<[id := r]> (requests (w_db w))) (w_db w)) w1)
    end.
Proof.
  unfold createRequest.
  destruct (String.eqb (nr_id req) ""); simpl.
  - unfold bind at 1. unfold nanoid at 1. unfold bind at 1.
    unfold insert_request at 1; simpl.
    destruct (requests (w_db w) !! tape c (w_pos w)) eqn:Hl; [reflexivity|].
    unfold exec; simpl. unfold bind, select_request, query; simpl.
    rewrite parse_details_run; simpl. now rewrite lookup_insert_eq.
  - unfold bind at 1. unfold ret at 1. unfold bind at 1.
    unfold insert_request at 1; simpl.
    destruct (requests (w_db w) !! nr_id req) eqn:Hl; [reflexivity|].
    unfold exec; simpl. unfold bind, select_request, query; simpl.
    rewrite parse_details_run; simpl. now rewrite lookup_insert_eq.
Qed.

(** ** The admin decision, case by case *)

Lemma admin_action_denied c act id w :
  isAdmin E (from c) = false ->
  admin_action E c act id w = (Ok tt, sent [AnswerCbQuery; Reply AdminsOnly] w).
Proof.
  intros Hna. unfold admin_action.
  rewrite (bind_ok _ _ _ _ _ (emit_run _ _)), Hna; simpl.
  now rewrite emit_run, sent_sent.
Qed.

Lemma admin_action_not_found c act id w :
  isAdmin E (from c) = true ->
  requests (w_db w) !! id = None ->
  admin_action E c act id w = (Ok tt, sent [AnswerCbQuery; Reply NotFound] w).
Proof.
  intros Ha Hl. unfold admin_action.
  rewrite (bind_ok _ _ _ _ _ (emit_run _ _)), Ha; simpl.
  rewrite (bind_ok _ _ _ _ _ (getRequest_run _ _)); simpl. rewrite Hl; simpl.
  now rewrite emit_run, sent_sent.
Qed.

Lemma admin_action_already c act id w r :
  isAdmin E (from c) = true ->
  requests (w_db w) !! id = Some r ->
  status r <> pending ->
  admin_action E c act id w = (Ok tt, sent [AnswerCbQuery; Reply AlreadyResolved] w).
Proof.
  intros Ha Hl Hs. unfold admin_action.
  rewrite (bind_ok _ _ _ _ _ (emit_run _ _)), Ha; simpl.
  rewrite (bind_ok _ _ _ _ _ (getRequest_run _ _)); simpl. rewrite Hl; simpl.
  rewrite bool_decide_eq_false_2 by exact Hs; simpl.
  now rewrite emit_run, sent_sent.
Qed.

Lemma admin_action_pending c act id w r :
  isAdmin E (from c) = true ->
  requests (w_db w) !! id = Some r ->
  status r = pending ->
  exists es,
    admin_action E c act id w
    = (Ok tt,
       sent es (with_db
         (let d1 := update_request id
                      (resolve_row (decided act) (nowISO E c) (Some (note_of c act)))
                      (w_db w) in
          match act, type r with
          | approve, deposit =>
              if 0 <? amount_of E r then
                match users d1 !! user_id r with
                | Some u =>
                    update_user (user_id r)
                      (set_balance (Js.int_or_zero (balance u) + amount_of E r)) d1
                | None => d1
                end
              else d1
          | _, _ => d1
          end) w)).
Proof.
  intros Ha Hl Hs. unfold admin_action.
  rewrite (bind_ok _ _ _ _ _ (emit_run _ _)), Ha; simpl.
  rewrite (bind_ok _ _ _ _ _ (getRequest_run _ _)); simpl. rewrite Hl; simpl.
  rewrite bool_decide_eq_true_2 by exact Hs; simpl.
  destruct act; simpl.
  - rewrite (bind_ok _ _ _ _ _ (updateRequestStatus_run _ _ _ _ _)).
    destruct (type r) eqn:Ht; simpl.
    + unfold amount_of, payload, parsed_row; simpl.
      unfold bind at 1. unfold bind at 1. unfold lift. rewrite safeParse_ok.
      match goal with |- context [0 <? ?a] => destruct (0 <? a) eqn:Hlt end.
      * unfold bind, query, exec, emit, ret; simpl.
        destruct (users (w_db w) !! user_id r) as [u|] eqn:Hu; simpl;
          eexists; unfold sent, with_db; simpl;
          rewrite <- ?app_assoc; reflexivity.
      * eexists. unfold bind, emit; simpl. unfold sent, with_db; simpl.
        rewrite <- ?app_assoc. reflexivity.
    + eexists. unfold bind, emit; simpl. unfold sent, with_db; simpl.
      rewrite <- !app_assoc. reflexivity.
  - rewrite (bind_ok _ _ _ _ _ (updateRequestStatus_run _ _ _ _ _)).
    eexists. unfold bind, emit; simpl. unfold sent, with_db; simpl.
    rewrite <- !app_assoc.
    destruct (type r); reflexivity.
Qed.


(** After a decision on a pending request, the row carries the decision. *)
Lemma admin_action_pending_row c act id w r :
  isAdmin E (from c) = true ->
  requests (w_db w) !! id = Some r ->
  status r = pending ->
  requests (w_db (admin_action E c act id w).2) !! id
  = Some (resolve_row (decided act) (nowISO E c) (Some (note_of c act)) r).
Proof.
  intros Ha Hl Hs.
  destruct (admin_action_pending c act id w r Ha Hl Hs) as [es ->]; simpl.
  assert (Hr : forall d, requests d = requests (update_request id
             (resolve_row (decided act) (nowISO E c) (Some (note_of c act))) (w_db w)) ->
           requests d !! id
           = Some (resolve_row (decided act) (nowISO E c) (Some (note_of c act)) r)).
  { intros d ->. simpl. rewrite lookup_alter_eq, Hl. reflexivity. }
  apply Hr.
  destruct act, (type r); try reflexivity.
  destruct (0 <? amount_of E r); [|reflexivity].
  now destruct (users _ !! user_id r).
Qed.


(** ** Claims on the admin decision *)

(** C9. A decision attempted by an identity outside the administrator set
    is answered with the admins-only notice and changes nothing: the tables
    (every request with its status, resolved_at and admin_note, every
    user's balance) and the session are as before, and nothing is thrown. *)
Theorem non_admin_decision_changes_nothing c act id w :
  isAdmin E (from c) = false ->
  let res := admin_action E c act id w in
  res.1 = Ok tt
  ∧ w_db res.2 = w_db w
  ∧ w_session res.2 = w_session w
  ∧ (forall rid, requests (w_db res.2) !! rid = requests (w_db w) !! rid)
  ∧ (forall uid, balance_of (w_db res.2) uid = balance_of (w_db w) uid)
  ∧ last_sent res.2 = Some (Reply AdminsOnly).
Proof.
  intros Hna res. subst res.
  rewrite (admin_action_denied c act id w Hna); simpl.
  repeat split; try reflexivity.
  unfold last_sent; simpl.
  now rewrite (app_assoc _ [AnswerCbQuery] [Reply AdminsOnly]), last_snoc.
Qed.




(** The users table after the approval of a pending deposit. *)
Lemma approve_deposit_users c id w r :
  isAdmin E (from c) = true ->
  requests (w_db w) !! id = Some r ->
  status r = pending ->
  type r = deposit ->
  users (w_db (admin_action E c approve id w).2)
  = if 0 <? amount_of E r
    then alter (fun u => set_balance (Js.int_or_zero (balance u) + amount_of E r) u)
               (user_id r) (users (w_db w))
    else users (w_db w).
Proof.
  intros Ha Hl Hs Ht.
  destruct (admin_action_pending c approve id w r Ha Hl Hs) as [es ->]; simpl.
  rewrite Ht.
  destruct (0 <? amount_of E r); [|reflexivity].
  destruct (users (w_db w) !! user_id r) as [u|] eqn:Hu; simpl.
  - apply map_eq. intros k. rewrite !lookup_alter.
    case_decide; [subst k; now rewrite Hu | reflexivity].
  - apply map_eq. intros k. rewrite lookup_alter.
    case_decide; [subst k; now rewrite Hu | reflexivity].
Qed.


(** ** Claims on safeParse *)


(** ** The expiry sweep *)

Lemma sweep_row_requests nowS acc x :
  requests (sweep_row E nowS acc x).1
  = if due nowS x then alter (expire_row nowS) x.1 (requests acc.1)
    else requests acc.1.
Proof.
  unfold sweep_row, due.
  destruct (Js.str_or_null (expires_at x.2)); [|reflexivity].
  now destruct (Js.str_le _ _).
Qed.

Lemma sweep_row_frame nowS acc x :
  users (sweep_row E nowS acc x).1 = users acc.1
  ∧ providers (sweep_row E nowS acc x).1 = providers acc.1.
Proof.
  unfold sweep_row.
  destruct (Js.str_or_null (expires_at x.2)); [|easy].
  now destruct (Js.str_le _ _).
Qed.

(** The loop over a snapshot [l]: a row of the table is rewritten iff the
    snapshot holds a due row with its key. *)
Lemma foldl_sweep_row nowS (l : list (string * row)) acc k :
  requests (foldl (sweep_row E nowS) acc l).1 !! k
  = (if existsb (fun x => bool_decide (x.1 = k) && due nowS x) l
     then expire_row nowS else fun r => r) <$> requests acc.1 !! k.
Proof.
  revert acc. induction l as [|x l IH]; intros acc; simpl.
  - now destruct (requests acc.1 !! k).
  - rewrite IH, sweep_row_requests.
    destruct (due nowS x) eqn:Hd; rewrite ?andb_false_r; simpl; [|reflexivity].
    rewrite lookup_alter. case_decide as Hk.
    + rewrite bool_decide_eq_true_2 by exact Hk; simpl. subst k.
      destruct (requests acc.1 !! x.1); simpl; [|reflexivity].
      now destruct (existsb _ l).
    + now rewrite bool_decide_eq_false_2 by exact Hk.
Qed.

Lemma foldl_sweep_frame nowS (l : list (string * row)) acc :
  users (foldl (sweep_row E nowS) acc l).1 = users acc.1
  ∧ providers (foldl (sweep_row E nowS) acc l).1 = providers acc.1.
Proof.
  revert acc. induction l as [|x l IH]; intros acc; simpl; [easy|].
  destruct (IH (sweep_row E nowS acc x)) as [-> ->].
  apply sweep_row_frame.
Qed.

Lemma snapshot_has_due nowS d k :
  existsb (fun x => bool_decide (x.1 = k) && due nowS x) (pending_with_deadline d) = true
  <-> exists r, requests d !! k = Some r ∧ status r = pending ∧ due nowS (k, r) = true.
Proof.
  rewrite existsb_exists. split.
  - intros [[k' r] [Hin Hx]]. apply andb_true_iff in Hx as [Hk Hd].
    apply bool_decide_eq_true_1 in Hk. simpl in Hk. subst k'.
    apply list_elem_of_In in Hin.
    unfold pending_with_deadline in Hin.
    apply list_elem_of_filter in Hin as [[Hs _] Hin].
    apply elem_of_map_to_list in Hin. eauto.
  - intros (r & Hl & Hs & Hd). exists (k, r). split.
    + apply list_elem_of_In. unfold pending_with_deadline.
      apply list_elem_of_filter. split.
      * split; [exact Hs|]. unfold due in Hd; simpl in *.
        destruct (expires_at r); [easy | discriminate].
      * now apply elem_of_map_to_list.
    + simpl. now rewrite bool_decide_eq_true_2.
Qed.

(** One tick rewrites each stored row by [swept], and nothing else. *)
Lemma sweep_requests now_ d k :
  requests (sweep E now_ d).1 !! k = swept (toISOString E now_) <$> requests d !! k.
Proof.
  unfold sweep. rewrite foldl_sweep_row; simpl.
  destruct (requests d !! k) as [r|] eqn:Hl; simpl; [|reflexivity].
  f_equal.
  destruct (existsb _ _) eqn:Hex.
  - apply snapshot_has_due in Hex as (r' & Hl' & Hs & Hd).
    rewrite Hl in Hl'. injection Hl' as <-.
    unfold swept, due in *; simpl in *. rewrite Hs.
    destruct (Js.str_or_null (expires_at r)); [|discriminate]. now rewrite Hd.
  - unfold swept.
    destruct (status r) eqn:Hs; try reflexivity.
    destruct (Js.str_or_null (expires_at r)) as [e|] eqn:He; [|reflexivity].
    destruct (Js.str_le e (toISOString E now_)) eqn:Hle; [|reflexivity].
    exfalso. apply not_true_iff_false in Hex. apply Hex.
    apply snapshot_has_due. exists r. unfold due; simpl. now rewrite He.
Qed.

Lemma swept_terminal nowS r : status r <> pending -> swept nowS r = r.
Proof. unfold swept. now destruct (status r). Qed.

(** ** What the handlers keep *)

Section Respects.

Context (R : world -> world -> Prop) `{!PreOrder R}.

Lemma respects_ret {A} (a : A) : respects R (ret a).
Proof. intros w. reflexivity. Qed.

Lemma respects_query {A} (q : db -> A) : respects R (query q).
Proof. intros w. reflexivity. Qed.

Lemma respects_get_session : respects R get_session.
Proof. intros w. reflexivity. Qed.

Lemma respects_bind {A B} (m : M A) (k : A -> M B) :
  respects R m -> (forall a, respects R (k a)) -> respects R (bind m k).
Proof.
  intros Hm Hk w. unfold bind. specialize (Hm w).
  destruct (m w) as [[a|e] w1]; simpl in *; [|exact Hm].
  etransitivity; [exact Hm | apply Hk].
Qed.

Lemma respects_for_each {A} (l : list A) (body : A -> M unit) :
  (forall x, respects R (body x)) -> respects R (for_each l body).
Proof.
  intros Hb. induction l as [|x l IH]; simpl.
  - apply respects_ret.
  - apply respects_bind; [apply Hb | intros _; exact IH].
Qed.

End Respects.

#[local] Instance requests_kept_preorder : PreOrder requests_kept.
Proof.
  split.
  - intros w. unfold requests_kept. reflexivity.
  - intros w1 w2 w3 H12 H23. unfold requests_kept in *. etransitivity; eassumption.
Qed.

Lemma kept_put_session s : respects requests_kept (put_session s).
Proof. intros w. unfold requests_kept. reflexivity. Qed.

Lemma kept_emit e : respects requests_kept (emit e).
Proof. intros w. unfold requests_kept. reflexivity. Qed.

Lemma kept_nanoid c : respects requests_kept (nanoid c).
Proof. intros w. unfold requests_kept. reflexivity. Qed.

Lemma kept_exec f :
  (forall d, requests (f d) = requests d) -> respects requests_kept (exec f).
Proof. intros Hf w. unfold requests_kept; simpl. now rewrite Hf. Qed.

Lemma kept_insert_request id r : respects requests_kept (insert_request id r).
Proof.
  intros w. unfold requests_kept, insert_request.
  destruct (requests (w_db w) !! id) eqn:Hl; simpl; [reflexivity|].
  now apply insert_subseteq.
Qed.

Lemma kept_parse_details r : respects requests_kept (parse_details E r).
Proof. intros w. rewrite parse_details_run. unfold requests_kept. reflexivity. Qed.

Lemma kept_createRequest c req : respects requests_kept (createRequest E c req).
Proof.
  unfold createRequest.
  apply (respects_bind requests_kept); [|intros id].
  - destruct (String.eqb _ _); [apply kept_nanoid | exact (respects_ret _ _)].
  - apply (respects_bind requests_kept); [apply kept_insert_request|intros _].
    apply (respects_bind requests_kept);
      [exact (respects_query _ _) | apply kept_parse_details].
Qed.

Lemma insert_or_ignore_provider_requests id name d :
  requests (insert_or_ignore_provider id name d) = requests d.
Proof. unfold insert_or_ignore_provider. now destruct (providers d !! id). Qed.

Ltac kept_step :=
  lazymatch goal with
  | |- respects _ (bind _ _) => apply (respects_bind requests_kept); [ | intros ?]
  | |- respects _ (for_each _ _) => apply (respects_for_each requests_kept); intros ?
  | |- respects _ (ret _) => exact (respects_ret _ _)
  | |- respects _ get_session => exact (respects_get_session _)
  | |- respects _ (put_session _) => apply kept_put_session
  | |- respects _ (emit _) => apply kept_emit
  | |- respects _ (nanoid _) => apply kept_nanoid
  | |- respects _ (createRequest _ _ _) => apply kept_createRequest
  | |- respects _ (exec _) => apply kept_exec; intros ?
  | |- respects _ (match ?x with _ => _ end) => destruct x
  | |- respects _ _ => progress cbv zeta
  end.

Lemma on_text_keeps c text : respects requests_kept (on_text E c text).
Proof.
  unfold on_text. repeat kept_step;
    first [apply insert_or_ignore_provider_requests | reflexivity].
Qed.

Lemma on_photo_keeps c fileId : respects requests_kept (on_photo E c fileId).
Proof. unfold on_photo. repeat kept_step. Qed.

Lemma cancel_flow_keeps c : respects requests_kept (cancel_flow c).
Proof. unfold cancel_flow. repeat kept_step. Qed.

(** ** The life cycle of a request *)

Lemma lifecycle_refl d : lifecycle d d.
Proof. intros id r Hl. exists r. auto. Qed.

Lemma lifecycle_trans d1 d2 d3 : lifecycle d1 d2 -> lifecycle d2 d3 -> lifecycle d1 d3.
Proof.
  intros H12 H23 id r Hl.
  destruct (H12 id r Hl) as (r2 & Hl2 & Hfix2 & Hst2).
  destruct (H23 id r2 Hl2) as (r3 & Hl3 & Hfix3 & Hst3).
  exists r3. split; [exact Hl3|]. split.
  - intros Hs. specialize (Hfix2 Hs). subst r2. now apply Hfix3.
  - destruct Hst2 as [Heq|[Hp Hnp]].
    + destruct Hst3 as [Heq3|[Hp3 Hnp3]].
      * left. congruence.
      * right. split; [congruence | exact Hnp3].
    + right. split; [exact Hp|]. now rewrite (Hfix3 Hnp).
Qed.

Lemma kept_lifecycle w w' : requests_kept w w' -> lifecycle (w_db w) (w_db w').
Proof.
  intros Hk id r Hl. exists r. split; [|auto].
  eapply lookup_weaken; eassumption.
Qed.

Lemma admin_action_pending_requests c act id w r :
  isAdmin E (from c) = true ->
  requests (w_db w) !! id = Some r ->
  status r = pending ->
  requests (w_db (admin_action E c act id w).2)
  = alter (resolve_row (decided act) (nowISO E c) (Some (note_of c act))) id
          (requests (w_db w)).
Proof.
  intros Ha Hl Hs.
  destruct (admin_action_pending c act id w r Ha Hl Hs) as [es ->]; simpl.
  destruct act, (type r); try reflexivity.
  destruct (0 <? amount_of E r); [|reflexivity].
  now destruct (users _ !! user_id r).
Qed.

Lemma admin_action_lifecycle c act id w :
  lifecycle (w_db w) (w_db (admin_action E c act id w).2).
Proof.
  destruct (isAdmin E (from c)) eqn:Ha;
    [|rewrite (admin_action_denied c act id w Ha); apply lifecycle_refl].
  destruct (requests (w_db w) !! id) as [r|] eqn:Hl;
    [|rewrite (admin_action_not_found c act id w Ha Hl); apply lifecycle_refl].
  destruct (decide (status r = pending)) as [Hs|Hs];
    [|rewrite (admin_action_already c act id w r Ha Hl Hs); apply lifecycle_refl].
  intros id' r' Hl'.
  rewrite (admin_action_pending_requests c act id w r Ha Hl Hs), lookup_alter.
  case_decide as Hid.
  - subst id'. rewrite Hl in Hl'. injection Hl' as <-. rewrite Hl; simpl.
    eexists. split; [reflexivity|]. split; [easy|].
    right. split; [exact Hs | now destruct act].
  - rewrite Hl'. exists r'. auto.
Qed.

Lemma sweep_lifecycle now_ d : lifecycle d (sweep E now_ d).1.
Proof.
  intros id r Hl. rewrite sweep_requests, Hl; simpl.
  eexists. split; [reflexivity|]. split; [apply swept_terminal|].
  unfold swept. destruct (status r) eqn:Hs; auto.
  destruct (Js.str_or_null (expires_at r)); auto.
  destruct (Js.str_le _ _); simpl; [right; split; [reflexivity | discriminate] | now left].
Qed.

Lemma handle_lifecycle c ev w : lifecycle (w_db w) (w_db (handle E c ev w).2).
Proof.
  destruct ev; simpl.
  - apply kept_lifecycle, (on_text_keeps c text w).
  - apply kept_lifecycle, (on_photo_keeps c fileId w).
  - apply kept_lifecycle, (cancel_flow_keeps c w).
  - apply admin_action_lifecycle.
Qed.

Lemma db_step_lifecycle d d' : db_step E d d' -> lifecycle d d'.
Proof.
  intros [c ev d0 s r w Hrun | now_ d0].
  - pose proof (handle_lifecycle c ev (start d0 s)) as H.
    now rewrite Hrun in H.
  - apply sweep_lifecycle.
Qed.

Lemma rtc_lifecycle d d' : rtc (db_step E) d d' -> lifecycle d d'.
Proof.
  intros Hsteps. induction Hsteps as [d | d1 d2 d3 Hstep _ IH].
  - apply lifecycle_refl.
  - eapply lifecycle_trans; [|exact IH]. now apply db_step_lifecycle.
Qed.

(** When handlers and sweep ticks run one at a time, each from its first
    statement to its last, in whatever order: a stored request stays
    stored, its status changes only away from pending, and once it is
    approved, rejected or expired its row is not written again. (Between
    the statements of a tick this fails, see the sweep statement by
    statement.) *)
Theorem status_only_leaves_pending d d' :
  rtc (db_step E) d d' ->
  forall id r, requests d !! id = Some r ->
    exists r', requests d' !! id = Some r'
      ∧ (status r <> pending -> r' = r)
      ∧ (status r' = status r ∨ (status r = pending ∧ status r' <> pending)).
Proof.
  intros Hsteps.
  change (lifecycle d d').
  induction Hsteps as [d | d1 d2 d3 Hstep _ IH].
  - apply lifecycle_refl.
  - eapply lifecycle_trans; [|exact IH]. now apply db_step_lifecycle.
Qed.

(** A request that is decided or expired stays so: whatever handlers and
    sweeps run afterwards, a later decision by an administrator is answered
    with the already-resolved notice and changes nothing (no second credit,
    however late the second click). *)
Theorem decided_stays_decided d d' id r c act w :
  rtc (db_step E) d d' ->
  requests d !! id = Some r ->
  status r <> pending ->
  isAdmin E (from c) = true ->
  w_db w = d' ->
  admin_action E c act id w = (Ok tt, sent [AnswerCbQuery; Reply AlreadyResolved] w).
Proof.
  intros Hsteps Hl Hs Ha <-.
  destruct (rtc_lifecycle _ _ Hsteps id r Hl) as (r' & Hl' & Hfix & _).
  rewrite (Hfix Hs) in Hl'.
  exact (admin_action_already c act id w r Ha Hl' Hs).
Qed.

(** ** The text and photo handlers, step by step *)

(** the branch of the text handler for the flow and step of the session,
    when no admin mode takes the text *)
Ltac on_text_at Hgate Hflow Hstep :=
  unfold on_text; unfold bind at 1; unfold get_session at 1; cbv zeta;
  rewrite Hgate, Hflow, ?Hstep.

Lemma validateSecretCode_spec (code : string) :
  validateSecretCode code = true
  <-> exists a b c d,
        code = String a (String b (String c (String d EmptyString)))
        ∧ is_code_char a = true ∧ is_code_char b = true
        ∧ is_code_char c = true ∧ is_code_char d = true.
Proof.
  unfold validateSecretCode. split.
  - intros H. apply andb_true_iff in H as [Hlen Hall].
    apply Nat.eqb_eq in Hlen.
    destruct code as [|a [|b [|c [|d [|]]]]]; try discriminate.
    simpl in Hall. rewrite andb_true_r in Hall.
    apply andb_true_iff in Hall as [Ha Hall].
    apply andb_true_iff in Hall as [Hb Hall].
    apply andb_true_iff in Hall as [Hc Hd].
    exists a, b, c, d. auto.
  - intros (a & b & c & d & -> & Ha & Hb & Hc & Hd). simpl.
    now rewrite Ha, Hb, Hc, Hd.
Qed.

(** C6 (amended). At the code step of the withdraw flow, a text that no
    admin mode takes is trimmed and put in upper case, and it is accepted
    exactly when the result is four characters of A-Z, 0-9: then the code
    is stored as normalized and the flow is at the card step; otherwise the
    only effect is the re-prompt, and the session (the step with it) is as
    before. *)
Theorem withdraw_code_step c text w :
  admin_input E c (w_session w) = None ->
  Session.flow (w_session w) = Some withdraw ->
  Session.step (Session.sdata (w_session w)) = Some withdraw_code ->
  let s := w_session w in
  let code := toUpperCase E (Js.trim text) in
  (validateSecretCode code = true
   <-> exists a b c d,
         code = String a (String b (String c (String d EmptyString)))
         ∧ is_code_char a = true ∧ is_code_char b = true
         ∧ is_code_char c = true ∧ is_code_char d = true)
  ∧ on_text E c text w
    = if validateSecretCode code
      then (Ok tt,
            sent [Reply AskCard]
              (with_session
                 (Session.set_data
                    (Session.set_step withdraw_card
                       (Session.set_code code (Session.sdata s))) s) w))
      else (Ok tt, sent [Reply BadCode] w).
Proof.
  intros Hgate Hflow Hstep s code. split; [apply validateSecretCode_spec|].
  on_text_at Hgate Hflow Hstep. fold code.
  now destruct (validateSecretCode code).
Qed.

Lemma on_photo_run c fileId w :
  Session.flow (w_session w) = Some deposit ->
  Session.step (Session.sdata (w_session w)) = Some deposit_wait_check ->
  requests (w_db w) !! new_id c w = None ->
  exists w',
    on_photo E c fileId w = (Ok tt, w')
    ∧ w_db w' = set_requests
        (<[new_id c w := deposit_request E c fileId (w_session w)]> (requests (w_db w)))
        (w_db w)
    ∧ w_session w' = reset_flow (w_session w).
Proof.
  intros Hflow Hstep Hfresh.
  unfold on_photo. unfold bind at 1. unfold get_session at 1. cbv zeta.
  rewrite Hflow, Hstep.
  unfold bind at 1. unfold nanoid at 1.
  unfold bind at 1. rewrite createRequest_run. cbn [nr_id w_pos w_db].
  unfold new_id in Hfresh.
  destruct (String.eqb (tape c (w_pos w)) "") eqn:Hid; rewrite Hfresh.
  - unfold bind at 1. rewrite for_each_emit.
    eexists. split; [reflexivity|]. split; [|reflexivity].
    unfold new_id. rewrite Hid. reflexivity.
  - unfold bind at 1. rewrite for_each_emit.
    eexists. split; [reflexivity|]. split; [|reflexivity].
    unfold new_id. rewrite Hid. reflexivity.
Qed.

(** C5 (amended). At the amount step of the deposit flow, for a text
    that no admin mode takes, the configured minimum being a safe integer
    (so that the comparison of line 248 is the comparison of the integers):
    when [parseInt] of the text is NaN or below the configured minimum, the
    only effect is the re-prompt and the session (step and data) is as
    before; otherwise the flow is at the proof step and [expiresAt] is
    stored in the session as the clock of this moment plus the configured
    timeout; the request the photo handler later creates carries that
    value as expires_at, whatever the clock reads when the photo arrives.
    When the integer typed is a safe integer, it is the amount stored in
    the session and then in the request (past 2^53 the source stores the
    double [parseInt] rounds to, on which nothing is said). *)
Theorem deposit_amount_step c text w :
  admin_input E c (w_session w) = None ->
  Session.flow (w_session w) = Some deposit ->
  Session.step (Session.sdata (w_session w)) = Some deposit_amount ->
  Js.safe (MIN_DEPOSIT E) ->
  let s := w_session w in
  let res := on_text E c text w in
  let deadline := toISOString E (now c + CHECK_TIMEOUT_MIN E * 60000) in
  ((Js.parseInt (Js.trim text) = None
    ∨ exists a, Js.parseInt (Js.trim text) = Some a ∧ a < MIN_DEPOSIT E) ->
   res = (Ok tt, sent [Reply (BadAmount (MIN_DEPOSIT E))] w))
  ∧ (forall a, Js.parseInt (Js.trim text) = Some a -> MIN_DEPOSIT E <= a ->
       res.1 = Ok tt
       ∧ w_db res.2 = w_db w
       ∧ Session.flow (w_session res.2) = Some deposit
       ∧ Session.step (Session.sdata (w_session res.2)) = Some deposit_wait_check
       ∧ Session.expiresAt (Session.sdata (w_session res.2)) = Some deadline
       ∧ (Js.safe a ->
          res = (Ok tt,
                 sent [Reply (PayInstructions (PAYMENT_CARDS E) a (CHECK_TIMEOUT_MIN E))]
                   (with_session
                      (Session.set_data
                         (Session.set_expiresAt deadline
                            (Session.set_step deposit_wait_check
                               (Session.set_amount a (Session.sdata s)))) s) w)))
       ∧ (deadline <> "" ->
          forall c2 fileId,
            requests (w_db w) !! new_id c2 res.2 = None ->
            exists r,
              requests (w_db (on_photo E c2 fileId res.2).2) !! new_id c2 res.2 = Some r
              ∧ type r = deposit ∧ status r = pending
              ∧ expires_at r = Some deadline
              ∧ (Js.safe a -> amount r = Js.int_or_null (Some a)))).
Proof.
  intros Hgate Hflow Hstep _ s res deadline. subst res.
  assert (Hrun : on_text E c text w
            = match Js.parseInt (Js.trim text) with
              | None => (Ok tt, sent [Reply (BadAmount (MIN_DEPOSIT E))] w)
              | Some a =>
                  if a <? MIN_DEPOSIT E
                  then (Ok tt, sent [Reply (BadAmount (MIN_DEPOSIT E))] w)
                  else (Ok tt,
                        sent [Reply (PayInstructions (PAYMENT_CARDS E) a (CHECK_TIMEOUT_MIN E))]
                          (with_session
                             (Session.set_data
                                (Session.set_expiresAt deadline
                                   (Session.set_step deposit_wait_check
                                      (Session.set_amount a (Session.sdata s)))) s) w))
              end).
  { on_text_at Hgate Hflow Hstep.
    destruct (Js.parseInt (Js.trim text)) as [a|]; [|reflexivity].
    now destruct (a <? MIN_DEPOSIT E). }
  rewrite Hrun. split.
  - intros [-> | (a & -> & Hlt)]; [reflexivity|].
    apply Z.ltb_lt in Hlt. now rewrite Hlt.
  - intros a -> Hge. apply Z.ltb_ge in Hge. rewrite Hge.
    split; [reflexivity|]. split; [reflexivity|]. split; [exact Hflow|].
    split; [reflexivity|]. split; [reflexivity|]. split; [reflexivity|].
    intros Hne c2 fileId Hfresh.
    simpl in Hfresh |- *.
    match type of Hfresh with requests _ !! new_id c2 ?x = None => set (w1 := x) in * end.
    destruct (on_photo_run c2 fileId w1) as (w' & Hp & Hdb & _);
      [exact Hflow | reflexivity | exact Hfresh |].
    rewrite Hp; simpl. rewrite Hdb; simpl. rewrite lookup_insert_eq.
    eexists. split; [reflexivity|]. repeat split.
    simpl. destruct (String.eqb deadline "") eqn:Hd; simpl.
    + apply String.eqb_eq in Hd. contradiction.
    + now rewrite Hd.
Qed.

(** ** The handlers of the flows and the users table *)

Lemma blind_ret {A} (a : A) : users_blind (ret a).
Proof. intros u w. reflexivity. Qed.

Lemma blind_bind {A B} (m : M A) (k : A -> M B) :
  users_blind m -> (forall a, users_blind (k a)) -> users_blind (bind m k).
Proof.
  intros Hm Hk u w. unfold bind. rewrite Hm.
  destruct (m w) as [[a|e] w1]; simpl; [apply Hk | reflexivity].
Qed.

Lemma blind_for_each {A} (l : list A) (body : A -> M unit) :
  (forall x, users_blind (body x)) -> users_blind (for_each l body).
Proof.
  intros Hb. induction l as [|x l IH]; simpl.
  - apply blind_ret.
  - apply blind_bind; [apply Hb | intros _; exact IH].
Qed.

Lemma blind_lift {A} (o : outcome A) : users_blind (lift o).
Proof. intros u w. reflexivity. Qed.

Lemma blind_get_session : users_blind get_session.
Proof. intros u w. reflexivity. Qed.

Lemma blind_put_session s : users_blind (put_session s).
Proof. intros u w. reflexivity. Qed.

Lemma blind_emit e : users_blind (emit e).
Proof. intros u w. reflexivity. Qed.

Lemma blind_nanoid c : users_blind (nanoid c).
Proof. intros u w. reflexivity. Qed.

Lemma blind_query {A} (q : db -> A) :
  (forall u d, q (set_users u d) = q d) -> users_blind (query q).
Proof. intros Hq u w. unfold query; simpl. now rewrite Hq. Qed.

Lemma blind_exec f :
  (forall u d, f (set_users u d) = set_users u (f d)) -> users_blind (exec f).
Proof. intros Hf u w. unfold exec, with_users, with_db; simpl. now rewrite Hf. Qed.

Lemma blind_insert_request id r : users_blind (insert_request id r).
Proof.
  intros u w. unfold insert_request; simpl.
  destruct (requests (w_db w) !! id); reflexivity.
Qed.

Lemma blind_parse_details r : users_blind (parse_details E r).
Proof. intros u w. now rewrite !parse_details_run. Qed.

Lemma blind_createRequest c req : users_blind (createRequest E c req).
Proof.
  unfold createRequest.
  apply blind_bind; [|intros id].
  - destruct (String.eqb _ _); [apply blind_nanoid | apply blind_ret].
  - apply blind_bind; [apply blind_insert_request|intros _].
    apply blind_bind; [now apply blind_query | apply blind_parse_details].
Qed.

Lemma insert_or_ignore_provider_users id name u d :
  insert_or_ignore_provider id name (set_users u d)
  = set_users u (insert_or_ignore_provider id name d).
Proof. unfold insert_or_ignore_provider; simpl. now destruct (providers d !! id). Qed.

Ltac blind_step :=
  lazymatch goal with
  | |- users_blind (bind _ _) => apply blind_bind; [ | intros ?]
  | |- users_blind (for_each _ _) => apply blind_for_each; intros ?
  | |- users_blind (ret _) => apply blind_ret
  | |- users_blind get_session => apply blind_get_session
  | |- users_blind (put_session _) => apply blind_put_session
  | |- users_blind (emit _) => apply blind_emit
  | |- users_blind (nanoid _) => apply blind_nanoid
  | |- users_blind (createRequest _ _ _) => apply blind_createRequest
  | |- users_blind (exec _) => apply blind_exec; intros ? ?
  | |- users_blind (match ?x with _ => _ end) => destruct x
  | |- users_blind _ => progress cbv zeta
  end.

Lemma on_text_blind c text : users_blind (on_text E c text).
Proof.
  unfold on_text. repeat blind_step;
    first [apply insert_or_ignore_provider_users | reflexivity].
Qed.

Lemma on_photo_blind c fileId : users_blind (on_photo E c fileId).
Proof. unfold on_photo. repeat blind_step. Qed.

Lemma with_users_id w : with_users (users (w_db w)) w = w.
Proof. destruct w as [[u p q] s o n]. reflexivity. Qed.

(** the text handler leaves the users table as it is *)
Lemma on_text_users c text w : users (w_db (on_text E c text w).2) = users (w_db w).
Proof.
  pose proof (on_text_blind c text (users (w_db w)) w) as H.
  rewrite with_users_id in H. rewrite H at 1. reflexivity.
Qed.

Lemma on_text_card_run c text w :
  admin_input E c (w_session w) = None ->
  Session.flow (w_session w) = Some withdraw ->
  Session.step (Session.sdata (w_session w)) = Some withdraw_card ->
  let card := Js.filter_str (fun ch => negb (Js.is_space ch)) (Js.trim text) in
  valid_card card = true ->
  requests (w_db w) !! new_id c w = None ->
  exists w',
    on_text E c text w = (Ok tt, w')
    ∧ w_db w' = set_requests
        (<[new_id c w := withdraw_request E c card (w_session w)]> (requests (w_db w)))
        (w_db w)
    ∧ w_session w' = reset_flow (w_session w).
Proof.
  intros Hgate Hflow Hstep card Hcard Hfresh.
  on_text_at Hgate Hflow Hstep. fold card. rewrite Hcard. cbn [negb]. cbv zeta.
  unfold bind at 1. unfold put_session at 1.
  unfold bind at 1. unfold nanoid at 1.
  unfold bind at 1. rewrite createRequest_run. cbn [nr_id w_pos w_db with_session].
  unfold new_id in Hfresh.
  destruct (String.eqb (tape c (w_pos w)) "") eqn:Hid; rewrite Hfresh.
  - unfold bind at 1. rewrite for_each_emit.
    eexists. split; [reflexivity|]. split; [|reflexivity].
    unfold new_id. rewrite Hid. reflexivity.
  - unfold bind at 1. rewrite for_each_emit.
    eexists. split; [reflexivity|]. split; [|reflexivity].
    unfold new_id. rewrite Hid. reflexivity.
Qed.

(** C7. The text handler, the withdraw steps included, does not depend on
    the users table, hence not on any stored secret_code: over two users
    tables it returns the same result, leaves the same session, sends the
    same messages and stores the same requests, and it leaves each users
    table as it was. The code typed at the code step is stored in the
    session whenever it has the format, and the request created at the card
    step records the session's code in its details. *)
Theorem withdraw_ignores_stored_code c text w (u1 u2 : gmap Z user) :
  let r1 := on_text E c text (with_users u1 w) in
  let r2 := on_text E c text (with_users u2 w) in
  (r1.1 = r2.1
   ∧ w_session r1.2 = w_session r2.2
   ∧ w_out r1.2 = w_out r2.2
   ∧ requests (w_db r1.2) = requests (w_db r2.2)
   ∧ providers (w_db r1.2) = providers (w_db r2.2)
   ∧ users (w_db r1.2) = u1 ∧ users (w_db r2.2) = u2)
  ∧ (admin_input E c (w_session w) = None ->
     Session.flow (w_session w) = Some withdraw ->
     Session.step (Session.sdata (w_session w)) = Some withdraw_code ->
     validateSecretCode (toUpperCase E (Js.trim text)) = true ->
     Session.code (Session.sdata (w_session r1.2)) = Some (toUpperCase E (Js.trim text)))
  ∧ (admin_input E c (w_session w) = None ->
     Session.flow (w_session w) = Some withdraw ->
     Session.step (Session.sdata (w_session w)) = Some withdraw_card ->
     forall card, card = Js.filter_str (fun ch => negb (Js.is_space ch)) (Js.trim text) ->
     valid_card card = true ->
     requests (w_db w) !! new_id c w = None ->
     exists r,
       requests (w_db r1.2) !! new_id c w = Some r
       ∧ type r = withdraw ∧ status r = pending
       ∧ details r = Some (JSON_stringify E (object_of
           [("userGameId", Js.JStr <$> Session.userGameId (Session.sdata (w_session w)));
            ("code", Js.JStr <$> Session.code (Session.sdata (w_session w)));
            ("card", Some (Js.JStr card))]))).
Proof.
  intros r1 r2. subst r1 r2.
  rewrite !on_text_blind. simpl. split; [|split].
  - repeat split; reflexivity.
  - intros Hgate Hflow Hstep Hvalid.
    revert Hvalid. on_text_at Hgate Hflow Hstep. intros ->. reflexivity.
  - intros Hgate Hflow Hstep card -> Hcard Hfresh.
    destruct (on_text_card_run c text w Hgate Hflow Hstep Hcard Hfresh)
      as (w' & Hrun & Hdb & _).
    rewrite Hrun; simpl. rewrite Hdb; simpl. rewrite lookup_insert_eq.
    eexists. split; [reflexivity|]. repeat split.
Qed.

(** ** Cancellation *)

(** C8. Whatever the session, the cancel handler leaves it with no flow
    and empty data (the admin mode is kept), throws nothing, and leaves the
    three tables as they are: no request is created, no user or provider
    changes. *)
Theorem cancel_resets_flow c w :
  let res := cancel_flow c w in
  res.1 = Ok tt
  ∧ Session.flow (w_session res.2) = None
  ∧ Session.sdata (w_session res.2) = Session.empty
  ∧ Session.adminMode (w_session res.2) = Session.adminMode (w_session w)
  ∧ w_db res.2 = w_db w
  ∧ requests (w_db res.2) = requests (w_db w)
  ∧ users (w_db res.2) = users (w_db w)
  ∧ providers (w_db res.2) = providers (w_db w).
Proof. repeat split. Qed.

(** The requests after the text handler: as before, or with one new
    withdrawal. *)
Lemma on_text_requests c text w :
  requests (w_db (on_text E c text w).2) = requests (w_db w)
  ∨ exists card,
      requests (w_db w) !! new_id c w = None
      ∧ requests (w_db (on_text E c text w).2)
        = <[new_id c w := withdraw_request E c card (w_session w)]> (requests (w_db w)).
Proof.
  destruct (admin_input E c (w_session w)) as [[|]|] eqn:Hgate.
  - left. unfold on_text. unfold bind at 1. unfold get_session at 1. cbv zeta.
    rewrite Hgate. simpl. apply insert_or_ignore_provider_requests.
  - left. unfold on_text. unfold bind at 1. unfold get_session at 1. cbv zeta.
    rewrite Hgate. reflexivity.
  - destruct (Session.flow (w_session w)) as [[|]|] eqn:Hflow;
    destruct (Session.step (Session.sdata (w_session w))) as [[| | | | |]|] eqn:Hstep;
    try (left; on_text_at Hgate Hflow Hstep; reflexivity).
    + left. on_text_at Hgate Hflow Hstep.
      destruct (Js.parseInt _) as [a|]; [|reflexivity].
      now destruct (a <? MIN_DEPOSIT E).
    + left. on_text_at Hgate Hflow Hstep.
      now destruct (validateSecretCode _).
    + destruct (valid_card (Js.filter_str (fun ch => negb (Js.is_space ch)) (Js.trim text)))
        eqn:Hcard.
      * destruct (requests (w_db w) !! new_id c w) eqn:Hfresh.
        -- left. on_text_at Hgate Hflow Hstep. rewrite Hcard. cbn [negb]. cbv zeta.
           unfold bind at 1. unfold put_session at 1.
           unfold bind at 1. unfold nanoid at 1.
           unfold bind at 1. rewrite createRequest_run.
           cbn [nr_id w_pos w_db with_session].
           unfold new_id in Hfresh.
           destruct (String.eqb (tape c (w_pos w)) ""); now rewrite Hfresh.
        -- right. eexists. split; [reflexivity|].
           destruct (on_text_card_run c text w Hgate Hflow Hstep Hcard Hfresh)
             as (w' & Hrun & Hdb & _).
           rewrite Hrun; simpl. now rewrite Hdb.
      * left. on_text_at Hgate Hflow Hstep. now rewrite Hcard.
Qed.


(** ** Deadlines in the store *)

Lemma str_or_null_stamp (x : option string) : Js.str_or_null x <> Some "".
Proof.
  destruct x as [s|]; simpl; [|discriminate].
  destruct (String.eqb s "") eqn:Hs; [discriminate|].
  intros [= ->]. discriminate.
Qed.

(** The requests after the photo handler: as before, or with one new
    deposit. *)
Lemma on_photo_requests c fileId w :
  requests (w_db (on_photo E c fileId w).2) = requests (w_db w)
  ∨ requests (w_db (on_photo E c fileId w).2)
    = <[new_id c w := deposit_request E c fileId (w_session w)]> (requests (w_db w)).
Proof.
  destruct (Session.flow (w_session w)) as [[|]|] eqn:Hflow;
  destruct (Session.step (Session.sdata (w_session w))) as [[| | | | |]|] eqn:Hstep;
    try (left; unfold on_photo; unfold bind at 1; unfold get_session at 1; cbv zeta;
         rewrite Hflow, ?Hstep; reflexivity).
  destruct (requests (w_db w) !! new_id c w) eqn:Hfresh.
  - left. unfold on_photo. unfold bind at 1. unfold get_session at 1. cbv zeta.
    rewrite Hflow, Hstep.
    unfold bind at 1. unfold nanoid at 1.
    unfold bind at 1. rewrite createRequest_run. cbn [nr_id w_pos w_db].
    unfold new_id in Hfresh.
    destruct (String.eqb (tape c (w_pos w)) ""); now rewrite Hfresh.
  - right. destruct (on_photo_run c fileId w Hflow Hstep Hfresh) as (w' & Hrun & Hdb & _).
    rewrite Hrun; simpl. now rewrite Hdb.
Qed.

Lemma deadlines_ok_insert d' d id r :
  deadlines_ok d ->
  expires_at r <> Some "" -> (type r = withdraw -> expires_at r = None) ->
  requests d' = <[id := r]> (requests d) ->
  deadlines_ok d'.
Proof.
  intros Hok Hr1 Hr2 Heq k r' Hl. rewrite Heq, lookup_insert in Hl.
  case_decide; [injection Hl as <-; auto | eauto].
Qed.

Lemma deadlines_ok_alter d' d id (f : row -> row) :
  deadlines_ok d ->
  (forall r, expires_at (f r) = expires_at r ∧ type (f r) = type r) ->
  requests d' = alter f id (requests d) ->
  deadlines_ok d'.
Proof.
  intros Hok Hf Heq k r' Hl. rewrite Heq, lookup_alter in Hl.
  case_decide; [|eauto]. subst k.
  destruct (requests d !! id) as [r|] eqn:Hr; [|discriminate].
  injection Hl as <-. destruct (Hf r) as [-> ->]. eauto.
Qed.

Lemma deadlines_ok_same d' d : deadlines_ok d -> requests d' = requests d -> deadlines_ok d'.
Proof. intros Hok Heq k r Hl. rewrite Heq in Hl. eauto. Qed.

Lemma db_step_deadlines d d' : db_step E d d' -> deadlines_ok d -> deadlines_ok d'.
Proof.
  intros [c ev d0 s res w Hrun | now_ d0] Hok.
  - replace w with (handle E c ev (start d0 s)).2 by now rewrite Hrun.
    destruct ev as [text | fileId | | act id]; simpl.
    + destruct (on_text_requests c text (start d0 s)) as [Heq | (card & _ & Heq)].
      * now apply (deadlines_ok_same _ d0).
      * eapply (deadlines_ok_insert _ d0); [exact Hok | | | exact Heq]; easy.
    + destruct (on_photo_requests c fileId (start d0 s)) as [Heq | Heq].
      * now apply (deadlines_ok_same _ d0).
      * eapply (deadlines_ok_insert _ d0); [exact Hok | | | exact Heq].
        -- apply str_or_null_stamp.
        -- discriminate.
    + now apply (deadlines_ok_same _ d0).
    + destruct (isAdmin E (from c)) eqn:Ha;
        [|rewrite (admin_action_denied c act id _ Ha); now apply (deadlines_ok_same _ d0)].
      destruct (requests d0 !! id) as [r|] eqn:Hl;
        [|rewrite (admin_action_not_found c act id (start d0 s) Ha Hl);
          now apply (deadlines_ok_same _ d0)].
      destruct (decide (status r = pending)) as [Hs|Hs];
        [|rewrite (admin_action_already c act id (start d0 s) r Ha Hl Hs);
          now apply (deadlines_ok_same _ d0)].
      eapply (deadlines_ok_alter _ d0); [exact Hok | |
        exact (admin_action_pending_requests c act id (start d0 s) r Ha Hl Hs)].
      now intros r0.
  - intros k r Hl. rewrite sweep_requests in Hl.
    destruct (requests d0 !! k) as [r0|] eqn:Hr; [|discriminate].
    injection Hl as <-. destruct (Hok k r0 Hr) as [H1 H2].
    unfold swept. destruct (status r0); auto.
    destruct (Js.str_or_null (expires_at r0)); auto.
    destruct (Js.str_le _ _); auto.
Qed.

(** In every store the handlers and the sweep reach from one in which
    deadlines are time stamps and withdrawals have none (the empty store to
    begin with), that is so again: then every row of the sweep's snapshot is
    compared with the clock, and no withdrawal is in the snapshot. *)
Theorem reachable_deadlines d d' :
  rtc (db_step E) d d' -> deadlines_ok d -> deadlines_ok d'.
Proof.
  intros Hsteps. induction Hsteps as [d | d1 d2 d3 Hstep _ IH]; [easy|].
  intros Hok. apply IH. now apply (db_step_deadlines d1).
Qed.

(** The update of one row by the sweep is keyed by the id alone: for a due
    row of the snapshot it sets the stored row to expired whatever the
    status the stored row has by then. *)
Theorem sweep_row_overwrites nowS d out id (snap stored : row) e :
  expires_at snap = Some e -> e <> "" -> Js.str_le e nowS = true ->
  requests d !! id = Some stored ->
  requests (sweep_row E nowS (d, out) (id, snap)).1 !! id
  = Some (expire_row nowS stored).
Proof.
  intros He Hne Hle Hl. rewrite sweep_row_requests. unfold due; simpl.
  rewrite He; simpl.
  destruct (String.eqb e "") eqn:Hz; [apply String.eqb_eq in Hz; contradiction|].
  rewrite Hle. simpl. now rewrite lookup_alter_eq, Hl.
Qed.


(** ** The secret code *)

Lemma charAt_code_chars (i : nat) :
  (i < 36)%nat ->
  exists ch, charAt i code_chars = String ch EmptyString ∧ is_code_char ch = true.
Proof.
  intros Hi.
  do 36 (destruct i as [|i]; [eexists; split; reflexivity|]).
  lia.
Qed.

Lemma code_index_spec (ch : ascii) :
  is_code_char ch = true ->
  (code_index ch < 36)%nat ∧ charAt (code_index ch) code_chars = String ch EmptyString.
Proof.
  destruct ch as [[] [] [] [] [] [] [] []]; intros H; try discriminate H;
    (split; [apply Nat.ltb_lt; vm_compute; reflexivity | vm_compute; reflexivity]).
Qed.

(** The generator and the validator of secret codes agree: a code is
    accepted by [validateSecretCode] exactly when [generateSecretCode] can
    produce it (with draws below the 36 characters of its alphabet, as
    [Math.floor(Math.random() * 36)] gives them). *)
Theorem generated_codes_are_the_valid_codes (code : string) :
  validateSecretCode code = true
  <-> exists draw : nat -> nat,
        (forall i, (draw i < 36)%nat) ∧ generateSecretCode draw = code.
Proof.
  split.
  - intros H. apply validateSecretCode_spec in H
      as (a & b & c & d & -> & Ha & Hb & Hc & Hd).
    apply code_index_spec in Ha as [Ha1 Ha2].
    apply code_index_spec in Hb as [Hb1 Hb2].
    apply code_index_spec in Hc as [Hc1 Hc2].
    apply code_index_spec in Hd as [Hd1 Hd2].
    exists (fun i => match i with
                     | 0%nat => code_index a | 1%nat => code_index b
                     | 2%nat => code_index c | _ => code_index d
                     end).
    split.
    + intros [|[|[|i]]]; assumption.
    + unfold generateSecretCode; simpl. now rewrite Ha2, Hb2, Hc2, Hd2.
  - intros (draw & Hdraw & <-).
    destruct (charAt_code_chars (draw 0%nat) (Hdraw _)) as (a & Ha & Hca).
    destruct (charAt_code_chars (draw 1%nat) (Hdraw _)) as (b & Hb & Hcb).
    destruct (charAt_code_chars (draw 2%nat) (Hdraw _)) as (c & Hc & Hcc).
    destruct (charAt_code_chars (draw 3%nat) (Hdraw _)) as (d & Hd & Hcd).
    apply validateSecretCode_spec. exists a, b, c, d.
    unfold generateSecretCode; simpl. rewrite Ha, Hb, Hc, Hd. auto.
Qed.


(** ** Users *)

Lemma ensureUser_old uid uname draw w u :
  users (w_db w) !! uid = Some u ->
  ensureUser uid uname draw w = (Ok u, w).
Proof. intros Hu. unfold ensureUser, bind, query. now rewrite Hu. Qed.

Lemma ensureUser_new uid uname draw w :
  users (w_db w) !! uid = None ->
  ensureUser uid uname draw w
  = (Ok {| username := uname; balance := Some 0;
           secret_code := Some (generateSecretCode draw) |},
     with_db (insert_user uid
                {| username := Js.str_or_null uname; balance := Some 0;
                   secret_code := Some (generateSecretCode draw) |} (w_db w)) w).
Proof. intros Hu. unfold ensureUser, bind, query. now rewrite Hu. Qed.

(** [ensureUser] creates the row of a user once and never rewrites it: a
    user who has a row gets it back and nothing changes; a user without
    one gets a row with balance 0 and the generated code, all other rows,
    the other tables and the session staying as they are; and a second
    call, whatever its username and random draws, changes nothing and
    returns the balance and the secret code of the first. *)
Theorem ensureUser_once uid uname draw uname' draw' w :
  let r1 := ensureUser uid uname draw w in
  let r2 := ensureUser uid uname' draw' r1.2 in
  (exists u1 u2, r1.1 = Ok u1 ∧ r2.1 = Ok u2
     ∧ secret_code u2 = secret_code u1 ∧ balance u2 = balance u1)
  ∧ r2.2 = r1.2
  ∧ (forall old, users (w_db w) !! uid = Some old -> r1 = (Ok old, w))
  ∧ (users (w_db w) !! uid = None ->
     users (w_db r1.2) !! uid
     = Some {| username := Js.str_or_null uname; balance := Some 0;
               secret_code := Some (generateSecretCode draw) |})
  ∧ (forall k, k <> uid -> users (w_db r1.2) !! k = users (w_db w) !! k)
  ∧ requests (w_db r1.2) = requests (w_db w)
  ∧ providers (w_db r1.2) = providers (w_db w)
  ∧ w_session r1.2 = w_session w.
Proof.
  intros r1 r2. subst r1 r2.
  destruct (users (w_db w) !! uid) as [old|] eqn:Hu.
  - rewrite (ensureUser_old uid uname draw w old Hu); simpl.
    rewrite (ensureUser_old uid uname' draw' w old Hu); simpl.
    split; [now exists old, old|].
    split; [reflexivity|]. split; [congruence|]. split; [discriminate|].
    now repeat split.
  - rewrite (ensureUser_new uid uname draw w Hu); simpl.
    erewrite ensureUser_old by (simpl; apply lookup_insert_eq). simpl.
    split; [eexists _, _; now repeat split|].
    split; [reflexivity|]. split; [discriminate|].
    split; [intros _; apply lookup_insert_eq|].
    split; [intros k Hk; now apply lookup_insert_ne|].
    now repeat split.
Qed.

Lemma ledger_grows_refl d : ledger_grows d d.
Proof. intros uid u Hu. exists u. repeat split; [exact Hu | lia]. Qed.

Lemma ledger_grows_trans d1 d2 d3 :
  ledger_grows d1 d2 -> ledger_grows d2 d3 -> ledger_grows d1 d3.
Proof.
  intros H12 H23 uid u Hu.
  destruct (H12 uid u Hu) as (u2 & Hu2 & Hn2 & Hc2 & Hb2).
  destruct (H23 uid u2 Hu2) as (u3 & Hu3 & Hn3 & Hc3 & Hb3).
  exists u3. repeat split; [exact Hu3 | congruence | congruence | lia].
Qed.

Lemma ledger_grows_same d d' : users d' = users d -> ledger_grows d d'.
Proof. intros Heq uid u Hu. exists u. rewrite Heq. repeat split; [exact Hu | lia]. Qed.

Lemma on_photo_users c fileId w : users (w_db (on_photo E c fileId w).2) = users (w_db w).
Proof.
  pose proof (on_photo_blind c fileId (users (w_db w)) w) as H.
  rewrite with_users_id in H. rewrite H at 1. reflexivity.
Qed.

Lemma admin_action_ledger c act id w :
  ledger_grows (w_db w) (w_db (admin_action E c act id w).2).
Proof.
  destruct (isAdmin E (from c)) eqn:Ha;
    [|rewrite (admin_action_denied c act id w Ha); apply ledger_grows_refl].
  destruct (requests (w_db w) !! id) as [r|] eqn:Hl;
    [|rewrite (admin_action_not_found c act id w Ha Hl); apply ledger_grows_refl].
  destruct (decide (status r = pending)) as [Hs|Hs];
    [|rewrite (admin_action_already c act id w r Ha Hl Hs); apply ledger_grows_refl].
  destruct act, (type r) eqn:Ht;
    [| destruct (admin_action_pending c approve id w r Ha Hl Hs) as [es ->];
       simpl; rewrite Ht; now apply ledger_grows_same
     | destruct (admin_action_pending c reject id w r Ha Hl Hs) as [es ->];
       simpl; now apply ledger_grows_same .. ].
  intros uid u Hu.
  rewrite (approve_deposit_users c id w r Ha Hl Hs Ht).
  destruct (0 <? amount_of E r) eqn:Hpos.
  - apply Z.ltb_lt in Hpos. rewrite lookup_alter. case_decide as Hk.
    + subst uid. rewrite Hu; simpl. eexists. split; [reflexivity|].
      simpl. repeat split. lia.
    + exists u. repeat split; [exact Hu | lia].
  - exists u. repeat split; [exact Hu | lia].
Qed.

Lemma db_step_ledger d d' : db_step E d d' -> ledger_grows d d'.
Proof.
  intros [c ev d0 s res w Hrun | now_ d0].
  - replace w with (handle E c ev (start d0 s)).2 by now rewrite Hrun.
    destruct ev as [text | fileId | | act id]; simpl.
    + apply ledger_grows_same, (on_text_users c text (start d0 s)).
    + apply ledger_grows_same, (on_photo_users c fileId (start d0 s)).
    + now apply ledger_grows_same.
    + apply (admin_action_ledger c act id (start d0 s)).
  - apply ledger_grows_same.
    apply (foldl_sweep_frame (toISOString E now_) _ (d0, [])).
Qed.

Lemma ensureUser_ledger uid uname draw w :
  ledger_grows (w_db w) (w_db (ensureUser uid uname draw w).2).
Proof.
  destruct (users (w_db w) !! uid) as [old|] eqn:Hu.
  - rewrite (ensureUser_old uid uname draw w old Hu). apply ledger_grows_refl.
  - rewrite (ensureUser_new uid uname draw w Hu); simpl.
    intros k u Hk. exists u. unfold insert_user; simpl.
    rewrite lookup_insert_ne by congruence.
    repeat split; [exact Hk | lia].
Qed.

Lemma start_cmd_db c uname draw g w :
  w_db (start_cmd c uname draw g w).2 = w_db (ensureUser (from c) uname draw w).2.
Proof.
  unfold start_cmd, bind.
  destruct (ensureUser (from c) uname draw w) as [[u|e] w1] eqn:Hr; [|reflexivity].
  now destruct (negb _).
Qed.

Lemma my_code_db c uname draw w :
  w_db (my_code c uname draw w).2 = w_db (ensureUser (from c) uname draw w).2.
Proof.
  unfold my_code, bind.
  now destruct (ensureUser (from c) uname draw w) as [[u|e] w1].
Qed.

Lemma start_flow_db f g w : w_db (start_flow f g w).2 = w_db w.
Proof.
  unfold start_flow. destruct (negb _); [reflexivity|].
  unfold bind, query. now destruct (listProviders (w_db w)).
Qed.

Lemma prov_selected_db pid w : w_db (prov_selected pid w).2 = w_db w.
Proof.
  unfold prov_selected, bind, query.
  destruct (find_provider pid (w_db w)) as [p|]; [|reflexivity]. simpl.
  now destruct (Session.flow (w_session w)) as [[|]|].
Qed.

Lemma ap_mode_db c mode w : w_db (ap_mode E c mode w).2 = w_db w.
Proof. unfold ap_mode. now destruct (negb _). Qed.

Lemma ap_stats_db c w : w_db (ap_stats E c w).2 = w_db w.
Proof. unfold ap_stats. now destruct (negb _). Qed.

Lemma ensureDefaultProvider_frame w :
  users (w_db (ensureDefaultProvider w).2) = users (w_db w)
  ∧ requests (w_db (ensureDefaultProvider w).2) = requests (w_db w).
Proof.
  unfold ensureDefaultProvider, bind, query.
  destruct (Nat.eqb _ 0); [|easy]. simpl.
  unfold insert_or_ignore_provider. now destruct (providers (w_db w) !! "coldbet").
Qed.

Lemma bot_step_ledger d d' : bot_step E d d' -> ledger_grows d d'.
Proof.
  intros [d0 d1 Hcore | d0 s r w Hrun | c uname draw g d0 s r w Hrun
         | c uname draw d0 s r w Hrun | f g d0 s r w Hrun | pid d0 s r w Hrun
         | c mode d0 s r w Hrun | c d0 s r w Hrun].
  - now apply db_step_ledger.
  - replace w with (ensureDefaultProvider (start d0 s)).2 by now rewrite Hrun.
    apply ledger_grows_same, (ensureDefaultProvider_frame (start d0 s)).
  - replace w with (start_cmd c uname draw g (start d0 s)).2 by now rewrite Hrun.
    rewrite start_cmd_db. apply (ensureUser_ledger _ _ _ (start d0 s)).
  - replace w with (my_code c uname draw (start d0 s)).2 by now rewrite Hrun.
    rewrite my_code_db. apply (ensureUser_ledger _ _ _ (start d0 s)).
  - replace w with (start_flow f g (start d0 s)).2 by now rewrite Hrun.
    rewrite start_flow_db. apply ledger_grows_refl.
  - replace w with (prov_selected pid (start d0 s)).2 by now rewrite Hrun.
    rewrite prov_selected_db. apply ledger_grows_refl.
  - replace w with (ap_mode E c mode (start d0 s)).2 by now rewrite Hrun.
    rewrite ap_mode_db. apply ledger_grows_refl.
  - replace w with (ap_stats E c (start d0 s)).2 by now rewrite Hrun.
    rewrite ap_stats_db. apply ledger_grows_refl.
Qed.

Lemma rtc_ledger d d' : rtc (bot_step E) d d' -> ledger_grows d d'.
Proof.
  intros Hsteps. induction Hsteps as [d | d1 d2 d3 Hstep _ IH].
  - apply ledger_grows_refl.
  - eapply ledger_grows_trans; [|exact IH]. now apply bot_step_ledger.
Qed.

(** The code the bot shows stays the same: after any sequence of events,
    [Mening kodim] answers a user who had a row with the secret code of
    that row, and changes nothing. *)
Theorem my_code_is_stable d d' c uname draw u w :
  rtc (bot_step E) d d' ->
  users d !! from c = Some u ->
  w_db w = d' ->
  exists u', my_code c uname draw w = (Ok [YourCode (secret_code u)], w)
    ∧ users (w_db w) !! from c = Some u'
    ∧ secret_code u' = secret_code u.
Proof.
  intros Hsteps Hu <-.
  destruct (rtc_ledger _ _ Hsteps (from c) u Hu) as (u' & Hu' & _ & Hcode & _).
  exists u'. split; [|auto].
  unfold my_code, bind. rewrite (ensureUser_old _ uname draw w u' Hu').
  unfold ret. now rewrite Hcode.
Qed.


(** ** The list of providers *)

#[local] Instance name_le_total : Total name_le.
Proof.
  intros p q. unfold name_le, Js.str_le.
  destruct (String.leb_total p.2 q.2) as [H|H]; [left|right]; exact H.
Qed.

Lemma listProviders_perm d : listProviders d ≡ₚ map_to_list (providers d).
Proof. apply merge_sort_Permutation. Qed.

Lemma listProviders_elem d id name :
  (id, name) ∈ listProviders d <-> providers d !! id = Some name.
Proof. rewrite listProviders_perm. apply elem_of_map_to_list. Qed.

Lemma listProviders_nil d : listProviders d = [] <-> providers d = ∅.
Proof.
  split.
  - intros H. apply map_to_list_empty_iff.
    apply Permutation_nil_r. rewrite <- H. symmetry. apply listProviders_perm.
  - intros H. apply Permutation_nil_r.
    rewrite listProviders_perm, H. now rewrite map_to_list_empty.
Qed.

(** [listProviders] returns every provider of the table exactly once, as
    the pair of its id and name, in ascending order of the names (compared
    as strings, by character codes); it is empty exactly when the table
    is. *)
Theorem listProviders_sorted d :
  Sorted name_le (listProviders d)
  ∧ NoDup (listProviders d).*1
  ∧ (forall id name, (id, name) ∈ listProviders d <-> providers d !! id = Some name)
  ∧ length (listProviders d) = size (providers d)
  ∧ (listProviders d = [] <-> providers d = ∅).
Proof.
  split; [apply Sorted_merge_sort, _|].
  split; [rewrite listProviders_perm; apply NoDup_fst_map_to_list|].
  split; [apply listProviders_elem|].
  split; [|apply listProviders_nil].
  rewrite listProviders_perm. apply length_map_to_list.
Qed.


(** ** A flow from the menu to the stored request *)

Lemma start_flow_run f g w :
  (ensureSubscribed g).1 = true ->
  providers (w_db w) <> ∅ ->
  start_flow f g w
  = (Ok ((ensureSubscribed g).2 ++ [ChooseProvider f (listProviders (w_db w))])%list,
     with_session (Session.set_data Session.empty
                     (Session.set_flow (Some f) (w_session w))) w).
Proof.
  intros Hsub Hne. unfold start_flow. rewrite Hsub. cbn [negb].
  unfold bind at 1. unfold query at 1.
  destruct (listProviders (w_db w)) as [|p l] eqn:Hl; [|reflexivity].
  now apply listProviders_nil in Hl.
Qed.

Lemma prov_selected_run pid name w :
  providers (w_db w) !! pid = Some name ->
  exists ns,
    prov_selected pid w
    = (Ok ns,
       with_session
         (Session.set_data
            (match Session.flow (w_session w) with
             | Some deposit => Session.set_step deposit_userid
             | Some withdraw => Session.set_step withdraw_userid
             | None => fun x => x
             end (set_provider pid name (Session.sdata (w_session w))))
            (w_session w)) w).
Proof.
  intros Hp. unfold prov_selected, bind, query, find_provider. rewrite Hp.
  unfold get_session; simpl.
  destruct (Session.flow (w_session w)) as [[|]|]; eexists; reflexivity.
Qed.

Lemma on_text_deposit_userid_run c text w :
  admin_input E c (w_session w) = None ->
  Session.flow (w_session w) = Some deposit ->
  Session.step (Session.sdata (w_session w)) = Some deposit_userid ->
  on_text E c text w
  = (Ok tt,
     sent [Reply (AskAmount (MIN_DEPOSIT E))]
       (with_session
          (Session.set_data
             (Session.set_step deposit_amount
                (Session.set_userGameId (Js.trim text) (Session.sdata (w_session w))))
             (w_session w)) w)).
Proof. intros Hgate Hflow Hstep. on_text_at Hgate Hflow Hstep. reflexivity. Qed.

Lemma on_text_withdraw_userid_run c text w :
  admin_input E c (w_session w) = None ->
  Session.flow (w_session w) = Some withdraw ->
  Session.step (Session.sdata (w_session w)) = Some withdraw_userid ->
  on_text E c text w
  = (Ok tt,
     sent [Reply AskCode]
       (with_session
          (Session.set_data
             (Session.set_step withdraw_code
                (Session.set_userGameId (Js.trim text) (Session.sdata (w_session w))))
             (w_session w)) w)).
Proof. intros Hgate Hflow Hstep. on_text_at Hgate Hflow Hstep. reflexivity. Qed.

Lemma on_text_amount_run c text w a :
  admin_input E c (w_session w) = None ->
  Session.flow (w_session w) = Some deposit ->
  Session.step (Session.sdata (w_session w)) = Some deposit_amount ->
  Js.parseInt (Js.trim text) = Some a ->
  MIN_DEPOSIT E <= a ->
  on_text E c text w
  = (Ok tt,
     sent [Reply (PayInstructions (PAYMENT_CARDS E) a (CHECK_TIMEOUT_MIN E))]
       (with_session
          (Session.set_data
             (Session.set_expiresAt (toISOString E (now c + CHECK_TIMEOUT_MIN E * 60000))
                (Session.set_step deposit_wait_check
                   (Session.set_amount a (Session.sdata (w_session w)))))
             (w_session w)) w)).
Proof.
  intros Hgate Hflow Hstep Hparse Hmin. on_text_at Hgate Hflow Hstep.
  rewrite Hparse. apply Z.ltb_ge in Hmin. rewrite Hmin. reflexivity.
Qed.

Lemma on_text_code_run c text w :
  admin_input E c (w_session w) = None ->
  Session.flow (w_session w) = Some withdraw ->
  Session.step (Session.sdata (w_session w)) = Some withdraw_code ->
  validateSecretCode (toUpperCase E (Js.trim text)) = true ->
  on_text E c text w
  = (Ok tt,
     sent [Reply AskCard]
       (with_session
          (Session.set_data
             (Session.set_step withdraw_card
                (Session.set_code (toUpperCase E (Js.trim text))
                   (Session.sdata (w_session w))))
             (w_session w)) w)).
Proof.
  intros Hgate Hflow Hstep Hcode. on_text_at Hgate Hflow Hstep.
  rewrite Hcode. reflexivity.
Qed.

Lemma admin_input_mode c s s' :
  Session.adminMode s' = Session.adminMode s ->
  admin_input E c s' = admin_input E c s.
Proof. intros H. unfold admin_input. now rewrite H. Qed.

(** ** The admin panel: providers *)

Lemma forallb_filter_str p s : Js.forallb_str p (Js.filter_str p s) = true.
Proof.
  induction s as [|ch s IH]; simpl; [reflexivity|].
  destruct (p ch) eqn:Hp; simpl; [now rewrite Hp|exact IH].
Qed.

Lemma on_text_add_run c text w :
  admin_input E c (w_session w) = Some add_provider ->
  let val := Js.trim text in
  let x := Js.filter_str (fun ch => Js.is_lower ch || Js.is_digit ch) (toLowerCase E val) in
  let id := if String.eqb x "" then "prov" ++ pretty (random c) else x in
  on_text E c text w
  = (Ok tt,
     sent [Reply (ProviderAdded val id)]
       (with_session (Session.set_adminMode None (w_session w))
          (with_db (insert_or_ignore_provider id val (w_db w)) w))).
Proof.
  intros Hgate val x id.
  unfold on_text; unfold bind at 1; unfold get_session at 1; cbv zeta.
  rewrite Hgate. reflexivity.
Qed.

Lemma on_text_remove_run c text w :
  admin_input E c (w_session w) = Some remove_provider ->
  on_text E c text w
  = (Ok tt,
     sent [Reply ProviderRemoved]
       (with_session (Session.set_adminMode None (w_session w))
          (with_db (delete_provider (toLowerCase E (Js.trim text)) (w_db w)) w))).
Proof.
  intros Hgate.
  unfold on_text; unfold bind at 1; unfold get_session at 1; cbv zeta.
  rewrite Hgate. reflexivity.
Qed.

(** Adding a provider. The text an administrator sends in the add mode is
    stored as the name, under the id made of its letters a-z and digits
    after lower-casing, or [prov] and a random number when none is left.
    The id is never empty. The insertion is an INSERT OR IGNORE: when the
    id is new the table gains this one row, and when the id is taken the
    table stays as it is, the old name included, though the reply is the
    same. Users, requests, flow and flow data are untouched, and the mode
    is over: the next text is not taken by it. *)
Theorem add_provider_text c text w :
  admin_input E c (w_session w) = Some add_provider ->
  let val := Js.trim text in
  let x := Js.filter_str (fun ch => Js.is_lower ch || Js.is_digit ch) (toLowerCase E val) in
  let id := if String.eqb x "" then "prov" ++ pretty (random c) else x in
  let res := on_text E c text w in
  res.1 = Ok tt
  ∧ w_out res.2 = (w_out w ++ [Reply (ProviderAdded val id)])%list
  ∧ id <> ""
  ∧ (x <> "" -> Js.forallb_str (fun ch => Js.is_lower ch || Js.is_digit ch) id = true)
  ∧ (providers (w_db w) !! id = None ->
     providers (w_db res.2) = <[id := val]> (providers (w_db w)))
  ∧ (forall old, providers (w_db w) !! id = Some old ->
     providers (w_db res.2) = providers (w_db w))
  ∧ users (w_db res.2) = users (w_db w)
  ∧ requests (w_db res.2) = requests (w_db w)
  ∧ Session.flow (w_session res.2) = Session.flow (w_session w)
  ∧ Session.sdata (w_session res.2) = Session.sdata (w_session w)
  ∧ admin_input E c (w_session res.2) = None.
Proof.
  intros Hgate val x id res. subst res.
  rewrite (on_text_add_run c text w Hgate). fold val x id. simpl.
  split; [reflexivity|]. split; [reflexivity|].
  split.
  { subst id. destruct (String.eqb x "") eqn:Hx; [discriminate|].
    now apply String.eqb_neq in Hx. }
  split.
  { intros Hx. subst id. apply String.eqb_neq in Hx. rewrite Hx.
    apply forallb_filter_str. }
  unfold insert_or_ignore_provider.
  split; [intros Hid; now rewrite Hid|].
  split; [intros old Hid; now rewrite Hid|].
  split; [now destruct (providers (w_db w) !! id)|].
  split; [now destruct (providers (w_db w) !! id)|].
  split; [reflexivity|]. split; [reflexivity|].
  unfold admin_input; simpl. now destruct (isAdmin E (from c)).
Qed.

(** Removing a provider. The text an administrator sends in the remove
    mode is trimmed and lower-cased to a key; afterwards the table holds
    exactly the providers it held whose id is not the key and whose name,
    lower-cased by SQLite, is not the lower-cased key. The reply is the
    same whether or not a row went. Stored requests keep the provider id
    and name they were created with; users, flow and flow data are
    untouched, and the mode is over. *)
Theorem remove_provider_text c text w :
  admin_input E c (w_session w) = Some remove_provider ->
  let key := toLowerCase E (Js.trim text) in
  let res := on_text E c text w in
  res.1 = Ok tt
  ∧ w_out res.2 = (w_out w ++ [Reply ProviderRemoved])%list
  ∧ (forall id name,
       providers (w_db res.2) !! id = Some name
       <-> providers (w_db w) !! id = Some name
           ∧ id <> key ∧ sql_lower name <> sql_lower key)
  ∧ users (w_db res.2) = users (w_db w)
  ∧ requests (w_db res.2) = requests (w_db w)
  ∧ Session.flow (w_session res.2) = Session.flow (w_session w)
  ∧ Session.sdata (w_session res.2) = Session.sdata (w_session w)
  ∧ admin_input E c (w_session res.2) = None.
Proof.
  intros Hgate key res. subst res.
  rewrite (on_text_remove_run c text w Hgate). fold key. simpl.
  split; [reflexivity|]. split; [reflexivity|].
  split.
  { intros id name. rewrite map_lookup_filter_Some. simpl. tauto. }
  do 4 (split; [reflexivity|]).
  unfold admin_input; simpl. now destruct (isAdmin E (from c)).
Qed.



(** ** The admin panel: statistics *)

Lemma requests_alter_split (m : gmap string row) id r f :
  m !! id = Some r ->
  map_to_list m ≡ₚ (id, r) :: map_to_list (delete id m)
  ∧ map_to_list (alter f id m) ≡ₚ (id, f r) :: map_to_list (delete id m).
Proof.
  intros Hl. split.
  - symmetry. now apply map_to_list_delete.
  - assert (Hd : delete id (alter f id m) = delete id m).
    { rewrite delete_alter. now rewrite decide_True. }
    rewrite <- Hd. symmetry. apply map_to_list_delete.
    rewrite lookup_alter_eq, Hl. reflexivity.
Qed.

Lemma sum_Permutation (l l' : list Z) :
  l ≡ₚ l' -> foldr Z.add 0 l = foldr Z.add 0 l'.
Proof. induction 1; simpl; lia. Qed.

Lemma ap_stats_run c w :
  isAdmin E (from c) = true ->
  ap_stats E c w
  = (Ok [CallbackAnswered;
         Statistics (count_requests (w_db w)) (count_pending (w_db w))
           (sum_approved_deposits (w_db w))], w).
Proof. intros Ha. unfold ap_stats. now rewrite Ha. Qed.

(** The statistics follow the decisions. When an administrator decides a
    pending request, the statistics shown afterwards have the same total,
    one pending request less, and a sum of approved deposits that grew by
    the stored amount of the request when a deposit was approved (by
    nothing when that amount is NULL, even if an amount of the details
    was credited) and is unchanged by a rejection or a withdrawal. *)
Theorem statistics_follow_decisions c c' act id w r :
  isAdmin E (from c) = true ->
  isAdmin E (from c') = true ->
  requests (w_db w) !! id = Some r ->
  status r = pending ->
  let w' := carry (admin_action E c act id w).2 in
  ap_stats E c' w
  = (Ok [CallbackAnswered;
         Statistics (count_requests (w_db w)) (count_pending (w_db w))
           (sum_approved_deposits (w_db w))], w)
  ∧ ap_stats E c' w'
    = (Ok [CallbackAnswered;
           Statistics (count_requests (w_db w)) (count_pending (w_db w) - 1)
             (sum_approved_deposits (w_db w)
              + match act, type r with
                | approve, deposit => Js.int_or_zero (amount r)
                | _, _ => 0
                end)], w').
Proof.
  intros Ha Ha' Hl Hs w'.
  split; [exact (ap_stats_run c' w Ha')|].
  rewrite (ap_stats_run c' w' Ha').
  assert (Hreq : requests (w_db w')
    = alter (resolve_row (decided act) (nowISO E c) (Some (note_of c act))) id
            (requests (w_db w))).
  { subst w'. unfold carry. cbn [w_db start].
    exact (admin_action_pending_requests c act id w r Ha Hl Hs). }
  destruct (requests_alter_split (requests (w_db w)) id r
              (resolve_row (decided act) (nowISO E c) (Some (note_of c act))) Hl)
    as [Hold Hnew].
  rewrite <- Hreq in Hnew.
  assert (Htotal : count_requests (w_db w') = count_requests (w_db w)).
  { unfold count_requests. now rewrite Hold, Hnew. }
  assert (Hpending : count_pending (w_db w') = count_pending (w_db w) - 1).
  { unfold count_pending. rewrite Hold, Hnew.
    rewrite !filter_cons. cbn [snd status resolve_row].
    rewrite (decide_True (P := status r = pending)) by exact Hs.
    rewrite (decide_False (P := decided act = pending))
      by (destruct act; discriminate).
    cbn [length]. lia. }
  assert (Hsum : sum_approved_deposits (w_db w')
    = sum_approved_deposits (w_db w)
      + match act, type r with
        | approve, deposit => Js.int_or_zero (amount r)
        | _, _ => 0
        end).
  { unfold sum_approved_deposits.
    rewrite (sum_Permutation _ _ (fmap_Permutation _ _ _
               (filter_Permutation _ _ _ Hold))).
    rewrite (sum_Permutation _ _ (fmap_Permutation _ _ _
               (filter_Permutation _ _ _ Hnew))).
    rewrite !filter_cons. cbn [snd status type resolve_row].
    rewrite (decide_False (P := status r = approved ∧ _))
      by (rewrite Hs; intros [? _]; discriminate).
    destruct act, (type r) eqn:Ht; cbn [decided].
    - rewrite decide_True by (split; reflexivity).
      rewrite fmap_cons. cbn [foldr snd amount resolve_row]. lia.
    - rewrite decide_False by (intros [_ ?]; discriminate). lia.
    - rewrite decide_False by (intros [? _]; discriminate). lia.
    - rewrite decide_False by (intros [? _]; discriminate). lia. }
  now rewrite Htotal, Hpending, Hsum.
Qed.


(** ** The menu *)

Lemma ensureSubscribed_open g :
  CHANNEL_ID g = "" ∨ getChatMember g = None ->
  ensureSubscribed g = (true, []).
Proof.
  intros [H|H]; unfold ensureSubscribed; rewrite H; [reflexivity|].
  now destruct (String.eqb (CHANNEL_ID g) "").
Qed.

(** Starting a flow. The subscription check fails open: with no channel
    configured, or when the call to the messenger throws, the sender
    counts as subscribed and nothing is sent by the check. A sender whose
    status in the channel is none of creator, administrator and member is
    only asked to join, and the session, a flow in progress included,
    stays as it is. A subscribed sender gets the notice that there are no
    providers when the table is empty, the session again staying as it
    is, and otherwise the providers in the order of [listProviders], the
    session being set to the new flow with empty data (a flow in progress
    is dropped) and the admin mode kept. The tables never change. *)
Theorem start_flow_gate f g w :
  let r := start_flow f g w in
  w_db r.2 = w_db w
  ∧ (CHANNEL_ID g = "" ∨ getChatMember g = None -> ensureSubscribed g = (true, []))
  ∧ (forall st, CHANNEL_ID g <> "" -> getChatMember g = Some st ->
       st ∉ ["creator"; "administrator"; "member"] ->
       r = (Ok [JoinChannel (CHANNEL_ID g)], w))
  ∧ ((ensureSubscribed g).1 = true -> providers (w_db w) = ∅ ->
     r = (Ok ((ensureSubscribed g).2 ++ [NoProviders])%list, w))
  ∧ ((ensureSubscribed g).1 = true -> providers (w_db w) <> ∅ ->
     r.1 = Ok ((ensureSubscribed g).2 ++ [ChooseProvider f (listProviders (w_db w))])%list
     ∧ w_session r.2
       = {| Session.flow := Some f; Session.sdata := Session.empty;
            Session.adminMode := Session.adminMode (w_session w) |}).
Proof.
  intros r. subst r.
  split; [apply start_flow_db|].
  split; [apply ensureSubscribed_open|].
  split.
  { intros st Hch Hst Hnot. unfold start_flow, ensureSubscribed.
    apply String.eqb_neq in Hch. rewrite Hch, Hst.
    now rewrite bool_decide_eq_false_2 by exact Hnot. }
  split.
  { intros Hsub He. unfold start_flow. rewrite Hsub. cbn [negb].
    unfold bind, query. apply listProviders_nil in He. now rewrite He. }
  intros Hsub Hne. now rewrite (start_flow_run f g w Hsub Hne).
Qed.

Lemma provider_by_name_Some name d p :
  provider_by_name name d = Some p ->
  providers d !! p.1 = Some p.2 ∧ p.2 = name.
Proof.
  unfold provider_by_name. intros H. apply find_some in H as [Hin Heq].
  apply String.eqb_eq in Heq. split; [|exact Heq].
  apply list_elem_of_In in Hin. destruct p as [i n].
  now apply elem_of_map_to_list in Hin.
Qed.

Lemma provider_by_name_None name d :
  provider_by_name name d = None <-> forall id, providers d !! id <> Some name.
Proof.
  unfold provider_by_name. split.
  - intros H id Hid.
    assert (Hin : In (id, name) (map_to_list (providers d))).
    { apply list_elem_of_In. now apply elem_of_map_to_list. }
    pose proof (find_none _ _ H (id, name) Hin) as Hf. simpl in Hf.
    now rewrite String.eqb_refl in Hf.
  - intros H. destruct (find _ _) as [p|] eqn:Hf; [|reflexivity].
    apply (provider_by_name_Some name d p) in Hf as [Hl Hn].
    rewrite Hn in Hl. now apply H in Hl.
Qed.

(** Picking a provider. The argument of the button is looked up as an id
    first and as a name only when no provider has that id. When neither
    finds a row, the sender is told so and nothing changes. Otherwise the
    session records the id and the name of a row of the table (the row of
    that id, or else a row of that name); in a flow the step becomes the
    one that asks for the game id, in no flow the provider is recorded all
    the same and the step stays; the other data of the session (game id,
    amount, deadline, code, card) stay as they are, and so do the flow,
    the admin mode and the tables. *)
Theorem prov_selected_picks pid w :
  let d := w_db w in
  let s := w_session w in
  let r := prov_selected pid w in
  w_db r.2 = d
  ∧ (providers d !! pid = None -> (forall id, providers d !! id <> Some pid) ->
     r = (Ok [CallbackAnswered; ProviderNotFound], w))
  ∧ (is_Some (providers d !! pid) ∨ (exists id, providers d !! id = Some pid) ->
     exists id name,
       providers d !! id = Some name
       ∧ (id = pid ∨ (providers d !! pid = None ∧ name = pid))
       ∧ r.1 = Ok [CallbackAnswered;
                   match Session.flow s with
                   | Some _ => AskGameId name
                   | None => ChooseFromMenu
                   end]
       ∧ w_session r.2
         = {| Session.flow := Session.flow s;
              Session.sdata :=
                {| Session.providerId := Some id;
                   Session.providerName := Some name;
                   Session.step :=
                     match Session.flow s with
                     | Some deposit => Some deposit_userid
                     | Some withdraw => Some withdraw_userid
                     | None => Session.step (Session.sdata s)
                     end;
                   Session.userGameId := Session.userGameId (Session.sdata s);
                   Session.amount := Session.amount (Session.sdata s);
                   Session.expiresAt := Session.expiresAt (Session.sdata s);
                   Session.code := Session.code (Session.sdata s);
                   Session.card := Session.card (Session.sdata s) |};
              Session.adminMode := Session.adminMode s |}).
Proof.
  intros d s r. subst d s r.
  split; [apply prov_selected_db|].
  split.
  { intros Hid Hname. unfold prov_selected, bind, query, find_provider.
    rewrite Hid. apply provider_by_name_None in Hname. now rewrite Hname. }
  intros Hsome.
  assert (Hfound : exists id name,
    find_provider pid (w_db w) = Some (id, name)
    ∧ providers (w_db w) !! id = Some name
    ∧ (id = pid ∨ (providers (w_db w) !! pid = None ∧ name = pid))).
  { unfold find_provider.
    destruct (providers (w_db w) !! pid) as [name|] eqn:Hid.
    - exists pid, name. auto.
    - destruct Hsome as [[x Hx]|[id Hname]]; [discriminate|].
      destruct (provider_by_name pid (w_db w)) as [[i n]|] eqn:Hf.
      + destruct (provider_by_name_Some _ _ _ Hf) as [Hl Hn]. simpl in Hl, Hn.
        exists i, n. auto.
      + exfalso. exact (proj1 (provider_by_name_None pid (w_db w)) Hf id Hname). }
  destruct Hfound as (id & name & Hf & Hl & Hor).
  exists id, name. split; [exact Hl|]. split; [exact Hor|].
  unfold prov_selected, bind, query. rewrite Hf.
  unfold get_session; simpl.
  destruct (w_session w) as [[[|]|] data am]; simpl; split; reflexivity.
Qed.

(** ** The default provider *)

(** The seeding at startup. Over a table with a provider it changes
    nothing; over an empty table it stores the one provider coldbet named
    ColdBet. Either way a provider is there afterwards, so that the list a
    flow starts with is not empty; users and requests are untouched, and
    seeding again changes nothing. *)
Theorem seeding_default_provider w :
  let w' := (ensureDefaultProvider w).2 in
  (providers (w_db w) <> ∅ -> w' = w)
  ∧ (providers (w_db w) = ∅ -> providers (w_db w') = {[ "coldbet" := "ColdBet" ]})
  ∧ listProviders (w_db w') <> []
  ∧ users (w_db w') = users (w_db w)
  ∧ requests (w_db w') = requests (w_db w)
  ∧ (ensureDefaultProvider w').2 = w'.
Proof.
  intros w'. subst w'.
  assert (Hfull : forall v, providers (w_db v) <> ∅ -> ensureDefaultProvider v = (Ok tt, v)).
  { intros v Hne. unfold ensureDefaultProvider, bind, query.
    destruct (Nat.eqb _ 0) eqn:Hz; [|reflexivity].
    apply Nat.eqb_eq, map_size_empty_iff in Hz. contradiction. }
  assert (Hempty : providers (w_db w) = ∅ ->
    ensureDefaultProvider w
    = (Ok tt, with_db (set_providers {[ "coldbet" := "ColdBet" ]} (w_db w)) w)).
  { intros He. unfold ensureDefaultProvider, bind, query.
    rewrite He, map_size_empty. simpl. unfold exec, insert_or_ignore_provider.
    rewrite He, lookup_empty. now rewrite insert_empty. }
  destruct (decide (providers (w_db w) = ∅)) as [He|Hne].
  - rewrite (Hempty He); simpl.
    assert (Hne' : ({[ "coldbet" := "ColdBet" ]} : gmap string string) <> ∅).
    { apply insert_non_empty. }
    split; [contradiction|]. split; [reflexivity|].
    split; [rewrite listProviders_nil; exact Hne'|].
    split; [reflexivity|]. split; [reflexivity|].
    now rewrite Hfull.
  - rewrite (Hfull w Hne); simpl.
    split; [reflexivity|]. split; [contradiction|].
    split; [now rewrite listProviders_nil|].
    split; [reflexivity|]. split; [reflexivity|].
    now rewrite Hfull.
Qed.


(** ** Sessions and the requests they lead to *)

Lemma session_ok_none s :
  Session.step (Session.sdata s) = None -> session_ok E s.
Proof. intros Hn st Hst. congruence. Qed.

Lemma session_ok_same s s' :
  Session.flow s' = Session.flow s ->
  Session.sdata s' = Session.sdata s ->
  session_ok E s -> session_ok E s'.
Proof. intros Hf Hd Hok. unfold session_ok. rewrite Hf, Hd. exact Hok. Qed.

(** a session that a step of the text handler has advanced *)
Ltac session_advanced Hok Hstep :=
  let Hf := fresh "Hf" in
  let Hpi := fresh "Hpi" in
  let Hpn := fresh "Hpn" in
  let Hg := fresh "Hg" in
  let Hd := fresh "Hd" in
  let Hc := fresh "Hc" in
  let st := fresh "st" in
  let Hst := fresh "Hst" in
  destruct (Hok _ Hstep) as (Hf & Hpi & Hpn & Hg & Hd & Hc);
  intros st Hst; simpl in Hst; injection Hst as <-; simpl;
  repeat split; eauto; try discriminate; try congruence.

Lemma on_text_session_ok c text w :
  session_ok E (w_session w) -> session_ok E (w_session (on_text E c text w).2).
Proof.
  intros Hok.
  destruct (admin_input E c (w_session w)) as [[|]|] eqn:Hgate.
  - rewrite (on_text_add_run c text w Hgate). simpl.
    now apply (session_ok_same (w_session w)).
  - rewrite (on_text_remove_run c text w Hgate). simpl.
    now apply (session_ok_same (w_session w)).
  - destruct (Session.flow (w_session w)) as [[|]|] eqn:Hflow;
    destruct (Session.step (Session.sdata (w_session w))) as [[| | | | |]|] eqn:Hstep;
    try (on_text_at Hgate Hflow Hstep; exact Hok).
    + rewrite (on_text_deposit_userid_run c text w Hgate Hflow Hstep). simpl.
      session_advanced Hok Hstep.
    + destruct (Js.parseInt (Js.trim text)) as [a|] eqn:Hparse;
        [|on_text_at Hgate Hflow Hstep; rewrite Hparse; exact Hok].
      destruct (a <? MIN_DEPOSIT E) eqn:Hmin;
        [on_text_at Hgate Hflow Hstep; rewrite Hparse, Hmin; exact Hok|].
      apply Z.ltb_ge in Hmin.
      rewrite (on_text_amount_run c text w a Hgate Hflow Hstep Hparse Hmin). simpl.
      session_advanced Hok Hstep.
    + rewrite (on_text_withdraw_userid_run c text w Hgate Hflow Hstep). simpl.
      session_advanced Hok Hstep.
    + destruct (validateSecretCode (toUpperCase E (Js.trim text))) eqn:Hcode;
        [|on_text_at Hgate Hflow Hstep; rewrite Hcode; exact Hok].
      rewrite (on_text_code_run c text w Hgate Hflow Hstep Hcode). simpl.
      session_advanced Hok Hstep.
    + destruct (valid_card (Js.filter_str (fun ch => negb (Js.is_space ch)) (Js.trim text)))
        eqn:Hcard; [|on_text_at Hgate Hflow Hstep; rewrite Hcard; exact Hok].
      destruct (requests (w_db w) !! new_id c w) eqn:Hfresh.
      * on_text_at Hgate Hflow Hstep. rewrite Hcard. cbn [negb]. cbv zeta.
        unfold bind at 1. unfold put_session at 1.
        unfold bind at 1. unfold nanoid at 1.
        unfold bind at 1. rewrite createRequest_run.
        cbn [nr_id w_pos w_db with_session].
        unfold new_id in Hfresh.
        destruct (Hok _ Hstep) as (Hf & Hpi & Hpn & Hg & Hd & Hc).
        destruct (String.eqb (tape c (w_pos w)) ""); rewrite Hfresh; simpl;
          intros st Hst; simpl in Hst; rewrite Hstep in Hst; injection Hst as <-;
          simpl; repeat split; eauto; discriminate.
      * destruct (on_text_card_run c text w Hgate Hflow Hstep Hcard Hfresh)
          as (w' & Hrun & _ & Hs).
        rewrite Hrun; simpl. rewrite Hs. now apply session_ok_none.
Qed.

Lemma on_text_creates c text w :
  requests (w_db (on_text E c text w).2) = requests (w_db w)
  ∨ exists card,
      Session.step (Session.sdata (w_session w)) = Some withdraw_card
      ∧ requests (w_db (on_text E c text w).2)
        = <[new_id c w := withdraw_request E c card (w_session w)]> (requests (w_db w)).
Proof.
  destruct (Session.step (Session.sdata (w_session w))) as [st|] eqn:Hstep.
  - destruct (on_text_requests c text w) as [Heq | (card & _ & Heq)]; [now left|].
    destruct (decide (st = withdraw_card)) as [->|Hne]; [right; eauto|].
    left.
    destruct (admin_input E c (w_session w)) as [[|]|] eqn:Hgate.
    + rewrite (on_text_add_run c text w Hgate). simpl.
      apply insert_or_ignore_provider_requests.
    + now rewrite (on_text_remove_run c text w Hgate).
    + destruct (Session.flow (w_session w)) as [[|]|] eqn:Hflow;
      destruct st; try contradiction;
        try (on_text_at Hgate Hflow Hstep; reflexivity).
      * on_text_at Hgate Hflow Hstep.
        destruct (Js.parseInt _) as [a|]; [|reflexivity].
        now destruct (a <? MIN_DEPOSIT E).
      * on_text_at Hgate Hflow Hstep. now destruct (validateSecretCode _).
  - left.
    destruct (admin_input E c (w_session w)) as [[|]|] eqn:Hgate.
    + rewrite (on_text_add_run c text w Hgate). simpl.
      apply insert_or_ignore_provider_requests.
    + now rewrite (on_text_remove_run c text w Hgate).
    + destruct (Session.flow (w_session w)) as [[|]|] eqn:Hflow;
        on_text_at Hgate Hflow Hstep; reflexivity.
Qed.

Lemma on_photo_creates c fileId w :
  requests (w_db (on_photo E c fileId w).2) = requests (w_db w)
  ∨ (Session.step (Session.sdata (w_session w)) = Some deposit_wait_check
     ∧ requests (w_db (on_photo E c fileId w).2)
       = <[new_id c w := deposit_request E c fileId (w_session w)]> (requests (w_db w))).
Proof.
  destruct (on_photo_requests c fileId w) as [Heq | Heq]; [now left|].
  destruct (Session.flow (w_session w)) as [[|]|] eqn:Hflow;
  destruct (Session.step (Session.sdata (w_session w))) as [[| | | | |]|] eqn:Hstep;
    try (left; unfold on_photo; unfold bind at 1; unfold get_session at 1; cbv zeta;
         rewrite Hflow, ?Hstep; reflexivity).
  right. auto.
Qed.

Lemma on_photo_session c fileId w :
  w_session (on_photo E c fileId w).2 = w_session w
  ∨ w_session (on_photo E c fileId w).2 = reset_flow (w_session w).
Proof.
  destruct (Session.flow (w_session w)) as [[|]|] eqn:Hflow;
  destruct (Session.step (Session.sdata (w_session w))) as [[| | | | |]|] eqn:Hstep;
    try (left; unfold on_photo; unfold bind at 1; unfold get_session at 1; cbv zeta;
         rewrite Hflow, ?Hstep; reflexivity).
  destruct (requests (w_db w) !! new_id c w) eqn:Hfresh.
  - left. unfold on_photo. unfold bind at 1. unfold get_session at 1. cbv zeta.
    rewrite Hflow, Hstep.
    unfold bind at 1. unfold nanoid at 1.
    unfold bind at 1. rewrite createRequest_run. cbn [nr_id w_pos w_db].
    unfold new_id in Hfresh.
    destruct (String.eqb (tape c (w_pos w)) ""); now rewrite Hfresh.
  - right. now destruct (on_photo_run c fileId w Hflow Hstep Hfresh) as (w' & -> & _ & Hs).
Qed.

Lemma admin_action_session c act id w :
  w_session (admin_action E c act id w).2 = w_session w.
Proof.
  destruct (isAdmin E (from c)) eqn:Ha;
    [|now rewrite (admin_action_denied c act id w Ha)].
  destruct (requests (w_db w) !! id) as [r|] eqn:Hl;
    [|now rewrite (admin_action_not_found c act id w Ha Hl)].
  destruct (decide (status r = pending)) as [Hs|Hs];
    [|now rewrite (admin_action_already c act id w r Ha Hl Hs)].
  now destruct (admin_action_pending c act id w r Ha Hl Hs) as [es ->].
Qed.

Lemma admin_action_requests c act id w :
  requests (w_db (admin_action E c act id w).2) = requests (w_db w)
  ∨ exists st at_ note,
      requests (w_db (admin_action E c act id w).2)
      = alter (resolve_row st at_ note) id (requests (w_db w)).
Proof.
  destruct (isAdmin E (from c)) eqn:Ha;
    [|left; now rewrite (admin_action_denied c act id w Ha)].
  destruct (requests (w_db w) !! id) as [r|] eqn:Hl;
    [|left; now rewrite (admin_action_not_found c act id w Ha Hl)].
  destruct (decide (status r = pending)) as [Hs|Hs];
    [|left; now rewrite (admin_action_already c act id w r Ha Hl Hs)].
  right. do 3 eexists. exact (admin_action_pending_requests c act id w r Ha Hl Hs).
Qed.

Lemma prov_selected_session_ok pid w :
  session_ok E (w_session w) -> session_ok E (w_session (prov_selected pid w).2).
Proof.
  intros Hok. unfold prov_selected, bind, query.
  destruct (find_provider pid (w_db w)) as [p|]; [|exact Hok].
  unfold get_session; simpl.
  destruct (Session.flow (w_session w)) as [[|]|] eqn:Hflow; simpl.
  - intros st Hst; simpl in Hst; injection Hst as <-; simpl.
    repeat split; eauto; try discriminate; try congruence.
  - intros st Hst; simpl in Hst; injection Hst as <-; simpl.
    repeat split; eauto; try discriminate; try congruence.
  - intros st Hst; simpl in Hst.
    destruct (Hok st Hst) as (Hf & _). congruence.
Qed.

Lemma start_flow_session_ok f g w :
  session_ok E (w_session w) -> session_ok E (w_session (start_flow f g w).2).
Proof.
  intros Hok. unfold start_flow. destruct (negb _); [exact Hok|].
  unfold bind, query. destruct (listProviders (w_db w)); [exact Hok|].
  now apply session_ok_none.
Qed.

Lemma ensureUser_frame uid uname draw w :
  w_session (ensureUser uid uname draw w).2 = w_session w
  ∧ requests (w_db (ensureUser uid uname draw w).2) = requests (w_db w).
Proof.
  destruct (users (w_db w) !! uid) as [old|] eqn:Hu.
  - now rewrite (ensureUser_old uid uname draw w old Hu).
  - now rewrite (ensureUser_new uid uname draw w Hu).
Qed.

Lemma start_cmd_frame c uname draw g w :
  w_session (start_cmd c uname draw g w).2 = w_session w
  ∧ requests (w_db (start_cmd c uname draw g w).2) = requests (w_db w).
Proof.
  destruct (ensureUser_frame (from c) uname draw w) as [Hs Hr].
  unfold start_cmd, bind.
  destruct (ensureUser (from c) uname draw w) as [[u|e] w1]; [|easy].
  now destruct (negb _).
Qed.

Lemma my_code_frame c uname draw w :
  w_session (my_code c uname draw w).2 = w_session w
  ∧ requests (w_db (my_code c uname draw w).2) = requests (w_db w).
Proof.
  destruct (ensureUser_frame (from c) uname draw w) as [Hs Hr].
  unfold my_code, bind.
  now destruct (ensureUser (from c) uname draw w) as [[u|e] w1].
Qed.

Lemma run_core c ev w : (run E c (Core ev) w).2 = (handle E c ev w).2.
Proof. unfold run, bind. now destruct (handle E c ev w) as [[[]|e] w1]. Qed.

Lemma run_session_ok c u w :
  session_ok E (w_session w) -> session_ok E (w_session (run E c u w).2).
Proof.
  intros Hok. destruct u as [ev | uname draw g | uname draw | f g | pid | mode |].
  - rewrite run_core. destruct ev as [text | fileId | | act id]; simpl.
    + now apply on_text_session_ok.
    + destruct (on_photo_session c fileId w) as [-> | ->];
        [exact Hok | now apply session_ok_none].
    + now apply session_ok_none.
    + now rewrite admin_action_session.
  - simpl. now rewrite (proj1 (start_cmd_frame c uname draw g w)).
  - simpl. now rewrite (proj1 (my_code_frame c uname draw w)).
  - now apply start_flow_session_ok.
  - now apply prov_selected_session_ok.
  - simpl. unfold ap_mode. destruct (negb _); [exact Hok|]. simpl.
    now apply (session_ok_same (w_session w)).
  - simpl. unfold ap_stats. now destruct (negb _).
Qed.

Lemma requests_ok_same d d' :
  requests d' = requests d -> requests_ok E d -> requests_ok E d'.
Proof. intros Heq Hok id r. rewrite Heq. apply Hok. Qed.

Lemma requests_ok_insert d d' id r :
  requests d' = <[id := r]> (requests d) ->
  request_ok E r -> requests_ok E d -> requests_ok E d'.
Proof.
  intros Heq Hr Hok k r0. rewrite Heq, lookup_insert. case_decide.
  - intros [= <-]. exact Hr.
  - apply Hok.
Qed.

Lemma requests_ok_alter d d' id f :
  requests d' = alter f id (requests d) ->
  (forall r, request_ok E r -> request_ok E (f r)) ->
  requests_ok E d -> requests_ok E d'.
Proof.
  intros Heq Hf Hok k r0. rewrite Heq, lookup_alter. case_decide.
  - subst k. destruct (requests d !! id) as [r|] eqn:Hl; [|discriminate].
    intros [= <-]. apply Hf. now apply (Hok id).
  - apply Hok.
Qed.

Lemma run_requests_ok c u w :
  session_ok E (w_session w) -> amount_safe (w_session w) ->
  requests_ok E (w_db w) ->
  requests_ok E (w_db (run E c u w).2).
Proof.
  intros Hs Hsafe Hok. destruct u as [ev | uname draw g | uname draw | f g | pid | mode |].
  - rewrite run_core. destruct ev as [text | fileId | | act id]; simpl.
    + destruct (on_text_creates c text w) as [Heq | (card & Hstep & Heq)];
        [now apply (requests_ok_same (w_db w))|].
      apply (requests_ok_insert (w_db w) _ _ _ Heq); [|exact Hok].
      destruct (Hs _ Hstep) as (_ & Hpi & Hpn & _).
      unfold request_ok; simpl. repeat split; eauto.
    + destruct (on_photo_creates c fileId w) as [Heq | [Hstep Heq]];
        [now apply (requests_ok_same (w_db w))|].
      apply (requests_ok_insert (w_db w) _ _ _ Heq); [|exact Hok].
      destruct (Hs _ Hstep) as (_ & Hpi & Hpn & _ & Hd & _).
      destruct (Hd eq_refl) as (_ & a & Ha & Hmin).
      unfold request_ok; simpl. repeat split; eauto.
      exists a. rewrite Ha. split; [exact Hmin|].
      split; [exact (Hsafe a Ha)|reflexivity].
    + exact Hok.
    + destruct (admin_action_requests c act id w) as [Heq | (st & at_ & note & Heq)];
        [now apply (requests_ok_same (w_db w))|].
      apply (requests_ok_alter (w_db w) _ _ _ Heq); [|exact Hok].
      now intros r.
  - simpl. apply (requests_ok_same (w_db w)); [|exact Hok].
    apply (start_cmd_frame c uname draw g w).
  - simpl. apply (requests_ok_same (w_db w)); [|exact Hok].
    apply (my_code_frame c uname draw w).
  - simpl. apply (requests_ok_same (w_db w)); [|exact Hok]. now rewrite start_flow_db.
  - simpl. apply (requests_ok_same (w_db w)); [|exact Hok]. now rewrite prov_selected_db.
  - simpl. apply (requests_ok_same (w_db w)); [|exact Hok]. now rewrite ap_mode_db.
  - simpl. apply (requests_ok_same (w_db w)); [|exact Hok]. now rewrite ap_stats_db.
Qed.

Lemma rtc_session_ok s s' :
  rtc (session_step E) s s' -> session_ok E s -> session_ok E s'.
Proof.
  intros Hsteps. induction Hsteps as [s | s1 s2 s3 Hstep _ IH]; [easy|].
  intros Hok. apply IH.
  destruct Hstep as [c u d s r w Hrun].
  replace w with (run E c u (start d s)).2 by now rewrite Hrun.
  now apply run_session_ok.
Qed.

(** What a session holds at a step. The default session is at no step,
    and every update keeps this true of the session of its chat, over
    whatever is in the tables: the step is one of the session's flow (in
    no flow there is no step), a provider has been picked, past the first
    step the game id is there, at the proof step the session holds a
    deadline and an amount of at least the minimum, and at the card step a
    code of the format. *)
Theorem sessions_collect_in_order :
  session_ok E Session.default
  ∧ forall s s',
      session_ok E s -> rtc (session_step E) s s' ->
      forall st, Session.step (Session.sdata s') = Some st ->
        Session.flow s' = Some (kind_of st)
        ∧ is_Some (Session.providerId (Session.sdata s'))
        ∧ is_Some (Session.providerName (Session.sdata s'))
        ∧ (st <> deposit_userid -> st <> withdraw_userid ->
           is_Some (Session.userGameId (Session.sdata s')))
        ∧ (st = deposit_wait_check ->
           is_Some (Session.expiresAt (Session.sdata s'))
           ∧ exists a, Session.amount (Session.sdata s') = Some a ∧ MIN_DEPOSIT E <= a)
        ∧ (st = withdraw_card ->
           exists code, Session.code (Session.sdata s') = Some code
                        ∧ validateSecretCode code = true).
Proof.
  split; [now apply session_ok_none|].
  intros s s' Hok Hsteps. revert Hok.
  induction Hsteps as [s | s1 s2 s3 Hstep _ IH]; [intros Hok; exact Hok|].
  intros Hok. apply IH.
  destruct Hstep as [c u d s r w Hrun].
  replace w with (run E c u (start d s)).2 by now rewrite Hrun.
  now apply run_session_ok.
Qed.




(** ** The whole bot on the requests *)

Lemma ensureSubscribed_true g :
  (ensureSubscribed g).1 = true -> (ensureSubscribed g).2 = [].
Proof.
  unfold ensureSubscribed. destruct (String.eqb _ _); [reflexivity|].
  destruct (getChatMember g) as [st|]; [|reflexivity].
  now destruct (bool_decide _).
Qed.

Lemma ensureSubscribed_false g :
  (ensureSubscribed g).1 = false -> (ensureSubscribed g).2 = [JoinChannel (CHANNEL_ID g)].
Proof.
  unfold ensureSubscribed. destruct (String.eqb _ _); [discriminate|].
  destruct (getChatMember g) as [st|]; [|discriminate].
  now destruct (bool_decide _).
Qed.

(** [/start] registers before it checks the subscription: whoever sends
    it has a row in [users] afterwards, subscribed or not (an existing
    row is left as it is); the welcome is sent to a subscribed sender and
    the prompt to join to the others; requests, providers and session are
    untouched. *)
Theorem start_registers_before_the_gate c uname draw g w :
  let r := start_cmd c uname draw g w in
  r.1 = Ok (if (ensureSubscribed g).1 then [Welcome] else [JoinChannel (CHANNEL_ID g)])
  ∧ is_Some (users (w_db r.2) !! from c)
  ∧ (forall old, users (w_db w) !! from c = Some old -> r.2 = w)
  ∧ (users (w_db w) !! from c = None ->
     users (w_db r.2)
     = <[from c := {| username := Js.str_or_null uname; balance := Some 0;
                      secret_code := Some (generateSecretCode draw) |}]> (users (w_db w)))
  ∧ requests (w_db r.2) = requests (w_db w)
  ∧ providers (w_db r.2) = providers (w_db w)
  ∧ w_session r.2 = w_session w.
Proof.
  intros r. subst r. unfold start_cmd, bind.
  destruct (users (w_db w) !! from c) as [old|] eqn:Hu.
  - rewrite (ensureUser_old _ uname draw w old Hu).
    destruct ((ensureSubscribed g).1) eqn:Hsub; cbn [negb]; unfold ret; cbn [fst snd].
    + rewrite (ensureSubscribed_true g Hsub). rewrite Hu.
      split; [reflexivity|]. split; [eauto|]. split; [reflexivity|].
      split; [discriminate|]. now repeat split.
    + rewrite (ensureSubscribed_false g Hsub). rewrite Hu.
      split; [reflexivity|]. split; [eauto|]. split; [reflexivity|].
      split; [discriminate|]. now repeat split.
  - rewrite (ensureUser_new _ uname draw w Hu).
    destruct ((ensureSubscribed g).1) eqn:Hsub; cbn [negb]; unfold ret; cbn [fst snd].
    + rewrite (ensureSubscribed_true g Hsub).
      split; [reflexivity|].
      split; [simpl; rewrite lookup_insert_eq; eauto|].
      split; [discriminate|]. now repeat split.
    + rewrite (ensureSubscribed_false g Hsub).
      split; [reflexivity|].
      split; [simpl; rewrite lookup_insert_eq; eauto|].
      split; [discriminate|]. now repeat split.
Qed.

Lemma bot_step_requests d d' :
  bot_step E d d' -> db_step E d d' ∨ requests d' = requests d.
Proof.
  intros [d0 d1 Hcore | d0 s r w Hrun | c uname draw g d0 s r w Hrun
         | c uname draw d0 s r w Hrun | f g d0 s r w Hrun | pid d0 s r w Hrun
         | c mode d0 s r w Hrun | c d0 s r w Hrun]; [now left | right ..].
  - replace w with (ensureDefaultProvider (start d0 s)).2 by now rewrite Hrun.
    apply (ensureDefaultProvider_frame (start d0 s)).
  - replace w with (start_cmd c uname draw g (start d0 s)).2 by now rewrite Hrun.
    apply (start_cmd_frame c uname draw g (start d0 s)).
  - replace w with (my_code c uname draw (start d0 s)).2 by now rewrite Hrun.
    apply (my_code_frame c uname draw (start d0 s)).
  - replace w with (start_flow f g (start d0 s)).2 by now rewrite Hrun.
    now rewrite start_flow_db.
  - replace w with (prov_selected pid (start d0 s)).2 by now rewrite Hrun.
    now rewrite prov_selected_db.
  - replace w with (ap_mode E c mode (start d0 s)).2 by now rewrite Hrun.
    now rewrite ap_mode_db.
  - replace w with (ap_stats E c (start d0 s)).2 by now rewrite Hrun.
    now rewrite ap_stats_db.
Qed.

(** The requests and the rest of the bot. The seeding, [/start], the
    code reminder, the buttons that start a flow, the provider buttons and
    the admin panel write no request: each of them, run in any state,
    leaves the table of requests exactly as it is. So a step of the whole
    bot is a step of the text, photo, cancel and decision handlers or of
    the sweep, or it leaves the requests alone; and in every store the
    whole bot reaches, deadlines are still time stamps that withdrawals do
    not have. *)
Theorem menu_and_panel_write_no_request :
  (forall w, requests (w_db (ensureDefaultProvider w).2) = requests (w_db w))
  ∧ (forall c uname draw g w,
       requests (w_db (start_cmd c uname draw g w).2) = requests (w_db w))
  ∧ (forall c uname draw w,
       requests (w_db (my_code c uname draw w).2) = requests (w_db w))
  ∧ (forall f g w, requests (w_db (start_flow f g w).2) = requests (w_db w))
  ∧ (forall pid w, requests (w_db (prov_selected pid w).2) = requests (w_db w))
  ∧ (forall c mode w, requests (w_db (ap_mode E c mode w).2) = requests (w_db w))
  ∧ (forall c w, requests (w_db (ap_stats E c w).2) = requests (w_db w))
  ∧ (forall d d', bot_step E d d' -> db_step E d d' ∨ requests d' = requests d)
  ∧ (forall d d', rtc (bot_step E) d d' -> deadlines_ok d -> deadlines_ok d').
Proof.
  split; [intros w; apply (ensureDefaultProvider_frame w)|].
  split; [intros c uname draw g w; apply (start_cmd_frame c uname draw g w)|].
  split; [intros c uname draw w; apply (my_code_frame c uname draw w)|].
  split; [intros f g w; now rewrite start_flow_db|].
  split; [intros pid w; now rewrite prov_selected_db|].
  split; [intros c mode w; now rewrite ap_mode_db|].
  split; [intros c w; now rewrite ap_stats_db|].
  split; [exact bot_step_requests|].
  intros d d' Hsteps.
  induction Hsteps as [d | d1 d2 d3 Hstep _ IH]; [easy|].
  intros Hok. apply IH.
  destruct (bot_step_requests _ _ Hstep) as [Hcore | Heq].
  - now apply (db_step_deadlines d1).
  - now apply (deadlines_ok_same _ d1).
Qed.


(** ** The sweep between its statements *)

Lemma sweep_row_db nowS d out out' x :
  (sweep_row E nowS (d, out) x).1 = (sweep_row E nowS (d, out') x).1.
Proof.
  unfold sweep_row; simpl.
  destruct (Js.str_or_null (expires_at x.2)); [|reflexivity].
  now destruct (Js.str_le _ _).
Qed.

Lemma foldl_sweep_db nowS l d out out' :
  (foldl (sweep_row E nowS) (d, out) l).1 = (foldl (sweep_row E nowS) (d, out') l).1.
Proof.
  revert d out out'. induction l as [|x l IH]; intros d out out'; simpl; [reflexivity|].
  destruct (sweep_row E nowS (d, out) x) as [d1 o1] eqn:H1.
  destruct (sweep_row E nowS (d, out') x) as [d2 o2] eqn:H2.
  assert (Hd : d1 = d2).
  { pose proof (sweep_row_db nowS d out out' x) as H. now rewrite H1, H2 in H. }
  subst d2. apply IH.
Qed.

Lemma tick_runs nowS l d :
  rtc (race_step E) (d, Some {| tick_now := nowS; tick_rows := l |})
      ((foldl (sweep_row E nowS) (d, []) l).1, None).
Proof.
  revert d. induction l as [|x l IH]; intros d.
  - apply rtc_once. apply (race_next E {| tick_now := nowS; tick_rows := [] |} d).
  - eapply rtc_l.
    + apply (race_next E {| tick_now := nowS; tick_rows := x :: l |} d).
    + unfold tick_next; simpl.
      destruct (sweep_row E nowS (d, []) x) as [d1 o1] eqn:H1. simpl.
      rewrite (foldl_sweep_db nowS l d1 o1 []). apply IH.
Qed.

(** a tick with nothing in between is the tick of [sweep] *)
Lemma sweep_is_a_race now_ d :
  rtc (race_step E) (d, None) ((sweep E now_ d).1, None).
Proof.
  eapply rtc_l; [apply race_select|]. apply tick_runs.
Qed.


(** C2 fails on the code. The SELECT of the sweep (line 496) reads the
    pending requests, and the UPDATE of a row (line 499) is keyed by the id
    alone, with awaits in between. When the snapshot of a tick is the
    pending, due request [id] and an administrator decides that request
    before the tick updates it, the three steps are steps of the bot, the
    request is approved (or rejected) after the decision, and the tick
    then makes it expired: a terminal status is replaced by another. *)
Theorem stale_tick_expires_a_decided_request now_ c act id d r e :
  requests d !! id = Some r ->
  status r = pending ->
  expires_at r = Some e -> e <> "" ->
  Js.str_le e (toISOString E now_) = true ->
  tick_rows (tick_select E now_ d) = [(id, r)] ->
  isAdmin E (from c) = true ->
  let t := tick_select E now_ d in
  let d1 := w_db (admin_action E c act id (start d Session.default)).2 in
  let d2 := (tick_next E t d1).1 in
  race_step E (d, None) (d, Some t)
  ∧ race_step E (d, Some t) (d1, Some t)
  ∧ race_step E (d1, Some t) (tick_next E t d1)
  ∧ status <$> requests d !! id = Some pending
  ∧ status <$> requests d1 !! id = Some (decided act)
  ∧ decided act <> pending
  ∧ status <$> requests d2 !! id = Some expired.
Proof.
  intros Hl Hs He Hne Hle Hsnap Ha t d1 d2.
  assert (Hrow : requests d1 !! id
                 = Some (resolve_row (decided act) (nowISO E c) (Some (note_of c act)) r)).
  { exact (admin_action_pending_row c act id (start d Session.default) r Ha Hl Hs). }
  split; [apply race_select|].
  split.
  { apply (race_handle E c (AdminAction act id) d Session.default
             (admin_action E c act id (start d Session.default)).1
             (admin_action E c act id (start d Session.default)).2).
    simpl. now destruct (admin_action E c act id (start d Session.default)). }
  split; [apply race_next|].
  split; [now rewrite Hl; simpl; rewrite Hs|].
  split; [now rewrite Hrow|].
  split; [now destruct act|].
  subst d2. unfold tick_next.
  change (tick_rows t) with (tick_rows (tick_select E now_ d)). rewrite Hsnap.
  cbn [fst]. rewrite sweep_row_requests. unfold due. cbn [fst snd].
  rewrite He. cbn [Js.str_or_null].
  destruct (String.eqb e "") eqn:Hz; [apply String.eqb_eq in Hz; contradiction|].
  change (tick_now t) with (toISOString E now_). rewrite Hle.
  now rewrite lookup_alter_eq, Hrow.
Qed.


(** ** Who writes to the users table *)

Lemma admin_action_users c act id w :
  users (w_db (admin_action E c act id w).2) = users (w_db w)
  ∨ exists r b,
      act = approve
      ∧ isAdmin E (from c) = true
      ∧ requests (w_db w) !! id = Some r
      ∧ status r = pending ∧ type r = deposit
      ∧ users (w_db (admin_action E c act id w).2)
        = alter (fun u => set_balance (Js.int_or_zero (balance u) + b) u)
                (user_id r) (users (w_db w)).
Proof.
  destruct (isAdmin E (from c)) eqn:Ha;
    [|left; now rewrite (admin_action_denied c act id w Ha)].
  destruct (requests (w_db w) !! id) as [r|] eqn:Hl;
    [|left; now rewrite (admin_action_not_found c act id w Ha Hl)].
  destruct (decide (status r = pending)) as [Hs|Hs];
    [|left; now rewrite (admin_action_already c act id w r Ha Hl Hs)].
  destruct act, (type r) eqn:Ht;
    [| left; destruct (admin_action_pending c approve id w r Ha Hl Hs) as [es ->];
       simpl; now rewrite Ht
     | left; destruct (admin_action_pending c reject id w r Ha Hl Hs) as [es ->];
       reflexivity .. ].
  rewrite (approve_deposit_users c id w r Ha Hl Hs Ht).
  destruct (0 <? amount_of E r); [|now left].
  right. exists r, (amount_of E r). auto 10.
Qed.

Lemma ensureUser_users uid uname draw w :
  users (w_db (ensureUser uid uname draw w).2)
  = match users (w_db w) !! uid with
    | Some _ => users (w_db w)
    | None => <[uid := {| username := Js.str_or_null uname; balance := Some 0;
                          secret_code := Some (generateSecretCode draw) |}]>
                (users (w_db w))
    end.
Proof.
  destruct (users (w_db w) !! uid) as [old|] eqn:Hu.
  - now rewrite (ensureUser_old uid uname draw w old Hu).
  - now rewrite (ensureUser_new uid uname draw w Hu).
Qed.

(** what an update does to the users table: nothing, the row of the
    sender inserted by [ensureUser], or one balance rewritten by the
    approval of a pending deposit *)
Lemma run_users c u w :
  users (w_db (run E c u w).2) = users (w_db w)
  ∨ (users (w_db w) !! from c = None
     ∧ exists uname draw,
         ((exists g, u = StartCmd uname draw g) ∨ u = MyCode uname draw)
         ∧ users (w_db (run E c u w).2)
           = <[from c := {| username := Js.str_or_null uname; balance := Some 0;
                            secret_code := Some (generateSecretCode draw) |}]>
               (users (w_db w)))
  ∨ (exists id r b,
       u = Core (AdminAction approve id)
       ∧ isAdmin E (from c) = true
       ∧ requests (w_db w) !! id = Some r
       ∧ status r = pending ∧ type r = deposit
       ∧ users (w_db (run E c u w).2)
         = alter (fun u => set_balance (Js.int_or_zero (balance u) + b) u)
                 (user_id r) (users (w_db w))).
Proof.
  destruct u as [ev | uname draw g | uname draw | f g | pid | mode |].
  - rewrite run_core. destruct ev as [text | fileId | | act id]; simpl.
    + left. apply on_text_users.
    + left. apply on_photo_users.
    + now left.
    + destruct (admin_action_users c act id w)
        as [Heq | (r & b & -> & Ha & Hl & Hs & Ht & Heq)]; [now left|].
      right; right. exists id, r, b. auto 10.
  - simpl. rewrite start_cmd_db, ensureUser_users.
    destruct (users (w_db w) !! from c) eqn:Hu; [now left|].
    right; left. split; [reflexivity|]. exists uname, draw. eauto.
  - simpl. rewrite my_code_db, ensureUser_users.
    destruct (users (w_db w) !! from c) eqn:Hu; [now left|].
    right; left. split; [reflexivity|]. exists uname, draw. eauto.
  - left. simpl. now rewrite start_flow_db.
  - left. simpl. now rewrite prov_selected_db.
  - left. simpl. now rewrite ap_mode_db.
  - left. simpl. now rewrite ap_stats_db.
Qed.

(** Who writes to the users table. A handler run leaves every row of
    [users] in place with its username and its secret code, and it leaves
    the balance as it is unless it is the approval, by an administrator,
    of a pending deposit of that user: no text, photo, cancellation, menu
    or panel handler, no rejection and no approval of a withdrawal writes
    a balance. A row appears only for the sender of [/start] or of the
    code reminder who had none, with balance 0 and a generated code. The
    sweep does not touch the table. *)
Theorem only_deposit_approval_writes_a_balance :
  (forall c u w uid row, users (w_db w) !! uid = Some row ->
     exists row', users (w_db (run E c u w).2) !! uid = Some row'
       ∧ username row' = username row
       ∧ secret_code row' = secret_code row
       ∧ (balance row' = balance row
          ∨ exists id r,
              u = Core (AdminAction approve id)
              ∧ isAdmin E (from c) = true
              ∧ requests (w_db w) !! id = Some r
              ∧ status r = pending ∧ type r = deposit ∧ user_id r = uid))
  ∧ (forall c u w uid, users (w_db w) !! uid = None ->
       users (w_db (run E c u w).2) !! uid = None
       ∨ (uid = from c
          ∧ exists uname draw,
              ((exists g, u = StartCmd uname draw g) ∨ u = MyCode uname draw)
              ∧ users (w_db (run E c u w).2) !! uid
                = Some {| username := Js.str_or_null uname; balance := Some 0;
                          secret_code := Some (generateSecretCode draw) |}))
  ∧ (forall now_ d, users (sweep E now_ d).1 = users d).
Proof.
  split; [|split].
  - intros c u w uid row Hrow.
    destruct (run_users c u w)
      as [Heq | [(Hnone & uname & draw & _ & Heq)
                | (id & r & b & -> & Ha & Hl & Hs & Ht & Heq)]];
      rewrite Heq.
    + exists row. auto.
    + exists row. rewrite lookup_insert_ne by congruence. auto.
    + rewrite lookup_alter. case_decide as Hk.
      * subst uid. rewrite Hrow. simpl. eexists. split; [reflexivity|].
        split; [reflexivity|]. split; [reflexivity|].
        right. exists id, r. auto 10.
      * exists row. auto.
  - intros c u w uid Hnone.
    destruct (run_users c u w)
      as [Heq | [(Hsender & uname & draw & Hu & Heq)
                | (id & r & b & -> & Ha & Hl & Hs & Ht & Heq)]];
      rewrite Heq.
    + now left.
    + destruct (decide (uid = from c)) as [->|Hne].
      * right. split; [reflexivity|]. exists uname, draw.
        split; [exact Hu|]. apply lookup_insert_eq.
      * left. now rewrite lookup_insert_ne by congruence.
    + left. rewrite lookup_alter. case_decide; [subst; now rewrite Hnone | exact Hnone].
  - intros now_ d. apply (foldl_sweep_frame (toISOString E now_) _ (d, [])).
Qed.

(** ** The admin mode *)

Lemma on_text_adminMode c text w :
  admin_input E c (w_session w) = None ->
  Session.adminMode (w_session (on_text E c text w).2) = Session.adminMode (w_session w).
Proof.
  intros Hgate.
  destruct (Session.flow (w_session w)) as [[|]|] eqn:Hflow;
  destruct (Session.step (Session.sdata (w_session w))) as [[| | | | |]|] eqn:Hstep;
    try (on_text_at Hgate Hflow Hstep; reflexivity).
  - on_text_at Hgate Hflow Hstep.
    destruct (Js.parseInt (Js.trim text)) as [a|]; [|reflexivity].
    now destruct (a <? MIN_DEPOSIT E).
  - on_text_at Hgate Hflow Hstep. now destruct (validateSecretCode _).
  - destruct (valid_card (Js.filter_str (fun ch => negb (Js.is_space ch)) (Js.trim text)))
      eqn:Hcard; [|on_text_at Hgate Hflow Hstep; now rewrite Hcard].
    destruct (requests (w_db w) !! new_id c w) eqn:Hfresh.
    + on_text_at Hgate Hflow Hstep. rewrite Hcard. cbn [negb]. cbv zeta.
      unfold bind at 1. unfold put_session at 1.
      unfold bind at 1. unfold nanoid at 1.
      unfold bind at 1. rewrite createRequest_run.
      cbn [nr_id w_pos w_db with_session].
      unfold new_id in Hfresh.
      destruct (String.eqb (tape c (w_pos w)) ""); now rewrite Hfresh.
    + destruct (on_text_card_run c text w Hgate Hflow Hstep Hcard Hfresh)
        as (w' & Hrun & _ & Hs).
      rewrite Hrun; simpl. now rewrite Hs.
Qed.

(** The admin mode. The add and remove buttons of the panel answer the
    callback query and, for a sender who is not an administrator, do
    nothing else: tables and session stay. For an administrator they set
    the mode, send the prompt and leave tables, flow and flow data alone.
    No other handler sets the mode, and the only handler that clears it is
    the text handler, in its admin branch: the photo, cancel and decision
    handlers, [/start], the code reminder, the buttons that start a flow
    and that pick a provider and the statistics leave the mode as it is,
    so that it stays set while such updates come. A text that the text
    handler receives from an administrator with a mode set is taken by the
    admin branch, whatever step of a flow the session is at: flow, flow
    data, requests and users stay, and the mode is cleared. *)
Theorem admin_mode_set_by_panel_cleared_by_text :
  (forall c mode w, isAdmin E (from c) = false ->
     ap_mode E c mode w = (Ok [CallbackAnswered], w))
  ∧ (forall c mode w, isAdmin E (from c) = true ->
       let r := ap_mode E c mode w in
       r.1 = Ok [CallbackAnswered;
                 match mode with
                 | add_provider => AskNewProvider
                 | remove_provider => AskProviderToRemove
                 end]
       ∧ w_db r.2 = w_db w
       ∧ Session.flow (w_session r.2) = Session.flow (w_session w)
       ∧ Session.sdata (w_session r.2) = Session.sdata (w_session w)
       ∧ Session.adminMode (w_session r.2) = Some mode
       ∧ admin_input E c (w_session r.2) = Some mode)
  ∧ (forall c u w,
       let s' := w_session (run E c u w).2 in
       Session.adminMode s' = Session.adminMode (w_session w)
       ∨ (exists mode, u = ApMode mode ∧ isAdmin E (from c) = true
                       ∧ Session.adminMode s' = Some mode)
       ∨ (exists text, u = Core (Text text)
                       ∧ is_Some (admin_input E c (w_session w))
                       ∧ Session.adminMode s' = None))
  ∧ (forall c text w mode, admin_input E c (w_session w) = Some mode ->
       let r := on_text E c text w in
       Session.flow (w_session r.2) = Session.flow (w_session w)
       ∧ Session.sdata (w_session r.2) = Session.sdata (w_session w)
       ∧ requests (w_db r.2) = requests (w_db w)
       ∧ users (w_db r.2) = users (w_db w)
       ∧ Session.adminMode (w_session r.2) = None).
Proof.
  split; [|split; [|split]].
  - intros c mode w Ha. unfold ap_mode. now rewrite Ha.
  - intros c mode w Ha r. subst r. unfold ap_mode. rewrite Ha. cbn [negb].
    unfold bind, get_session, put_session, ret. cbn [fst snd w_db with_session w_session].
    do 5 (split; [reflexivity|]).
    unfold admin_input. now rewrite Ha.
  - intros c u w s'. subst s'.
    destruct u as [ev | uname draw g | uname draw | f g | pid | mode |].
    + rewrite run_core. destruct ev as [text | fileId | | act id]; simpl.
      * destruct (admin_input E c (w_session w)) as [mode|] eqn:Hgate.
        -- right; right. exists text. split; [reflexivity|]. split; [eauto|].
           destruct mode.
           ++ now rewrite (on_text_add_run c text w Hgate).
           ++ now rewrite (on_text_remove_run c text w Hgate).
        -- left. now apply on_text_adminMode.
      * left. now destruct (on_photo_session c fileId w) as [-> | ->].
      * now left.
      * left. now rewrite admin_action_session.
    + left. simpl. now rewrite (proj1 (start_cmd_frame c uname draw g w)).
    + left. simpl. now rewrite (proj1 (my_code_frame c uname draw w)).
    + left. simpl. unfold start_flow. destruct (negb _); [reflexivity|].
      unfold bind, query. now destruct (listProviders (w_db w)).
    + left. simpl. unfold prov_selected, bind, query.
      destruct (find_provider pid (w_db w)) as [p|]; [|reflexivity].
      unfold get_session; simpl.
      now destruct (Session.flow (w_session w)) as [[|]|].
    + simpl. unfold ap_mode. destruct (isAdmin E (from c)) eqn:Ha; cbn [negb].
      * right; left. exists mode. now repeat split.
      * now left.
    + left. simpl. unfold ap_stats. now destruct (negb _).
  - intros c text w mode Hgate r. subst r. destruct mode.
    + rewrite (on_text_add_run c text w Hgate). simpl.
      split; [reflexivity|]. split; [reflexivity|].
      split; [apply insert_or_ignore_provider_requests|].
      split; [|reflexivity].
      unfold insert_or_ignore_provider. now destruct (providers (w_db w) !! _).
    + rewrite (on_text_remove_run c text w Hgate). simpl.
      now repeat split.
Qed.


(** ** The text and photo handlers when a send can fail *)

(** with sends that never fail, the two handlers are [on_text] and
    [on_photo] *)
Lemma on_text_with_emit c text : on_text_with E emit c text = on_text E c text.
Proof. reflexivity. Qed.

Lemma on_photo_with_emit c fileId : on_photo_with E emit c fileId = on_photo E c fileId.
Proof. reflexivity. Qed.

Lemma send_delivered deliver e w : deliver e = true -> send deliver e w = emit e w.
Proof. intros H. unfold send. now rewrite H. Qed.

Lemma send_refused deliver e w :
  deliver e = false -> send deliver e w = (Throw TelegramError, w).
Proof. intros H. unfold send. now rewrite H. Qed.

(** a loop of sends: it ends well when each goes through, and otherwise
    throws at the first that does not; tables and session are not its
    business *)
Lemma for_each_send {A} deliver (f : A -> effect) (l : list A) w :
  for_each l (fun x => send deliver (f x)) w
  = (if forallb (fun x => deliver (f x)) l then Ok tt else Throw TelegramError,
     sent (delivered deliver (map f l)) w).
Proof.
  revert w. induction l as [|x l IH]; intros w; simpl.
  - unfold ret, sent. now rewrite app_nil_r; destruct w.
  - unfold bind, send at 1. destruct (deliver (f x)) eqn:Hx; simpl.
    + rewrite IH, sent_sent. reflexivity.
    + unfold sent. now rewrite app_nil_r; destruct w.
Qed.


(** At the steps that store nothing the session is written before the
    reply is sent (lines 242-244, 249-255, 262-264, 268-271): whether or
    not the reply is delivered, the next handler starts as after [on_text]. *)
Lemma on_text_via_deposit_userid deliver c text w :
  admin_input E c (w_session w) = None ->
  Session.flow (w_session w) = Some deposit ->
  Session.step (Session.sdata (w_session w)) = Some deposit_userid ->
  carry (on_text_via E deliver c text w).2 = carry (on_text E c text w).2.
Proof.
  intros Hgate Hflow Hstep.
  rewrite (on_text_deposit_userid_run c text w Hgate Hflow Hstep).
  unfold on_text_via, on_text_with.
  unfold bind at 1. unfold get_session at 1. cbv zeta.
  rewrite Hgate, Hflow, Hstep.
  unfold bind, put_session, send. now destruct (deliver _).
Qed.

Lemma on_text_via_withdraw_userid deliver c text w :
  admin_input E c (w_session w) = None ->
  Session.flow (w_session w) = Some withdraw ->
  Session.step (Session.sdata (w_session w)) = Some withdraw_userid ->
  carry (on_text_via E deliver c text w).2 = carry (on_text E c text w).2.
Proof.
  intros Hgate Hflow Hstep.
  rewrite (on_text_withdraw_userid_run c text w Hgate Hflow Hstep).
  unfold on_text_via, on_text_with.
  unfold bind at 1. unfold get_session at 1. cbv zeta.
  rewrite Hgate, Hflow, Hstep.
  unfold bind, put_session, send. now destruct (deliver _).
Qed.

Lemma on_text_via_amount deliver c text w a :
  admin_input E c (w_session w) = None ->
  Session.flow (w_session w) = Some deposit ->
  Session.step (Session.sdata (w_session w)) = Some deposit_amount ->
  Js.parseInt (Js.trim text) = Some a ->
  MIN_DEPOSIT E <= a ->
  carry (on_text_via E deliver c text w).2 = carry (on_text E c text w).2.
Proof.
  intros Hgate Hflow Hstep Hparse Hmin.
  rewrite (on_text_amount_run c text w a Hgate Hflow Hstep Hparse Hmin).
  unfold on_text_via, on_text_with.
  unfold bind at 1. unfold get_session at 1. cbv zeta.
  rewrite Hgate, Hflow, Hstep, Hparse.
  apply Z.ltb_ge in Hmin. rewrite Hmin.
  unfold bind, put_session, send. now destruct (deliver _).
Qed.

Lemma on_text_via_code deliver c text w :
  admin_input E c (w_session w) = None ->
  Session.flow (w_session w) = Some withdraw ->
  Session.step (Session.sdata (w_session w)) = Some withdraw_code ->
  validateSecretCode (toUpperCase E (Js.trim text)) = true ->
  carry (on_text_via E deliver c text w).2 = carry (on_text E c text w).2.
Proof.
  intros Hgate Hflow Hstep Hcode.
  rewrite (on_text_code_run c text w Hgate Hflow Hstep Hcode).
  unfold on_text_via, on_text_with.
  unfold bind at 1. unfold get_session at 1. cbv zeta.
  rewrite Hgate, Hflow, Hstep, Hcode. cbn [negb].
  unfold bind, put_session, send. now destruct (deliver _).
Qed.

(** The photo handler when sends can fail: the request is stored before
    anything is sent; the session is reset once every administrator has
    been notified, and stays as it is when a notification is refused. *)
Lemma on_photo_via_run deliver c fileId w :
  Session.flow (w_session w) = Some deposit ->
  Session.step (Session.sdata (w_session w)) = Some deposit_wait_check ->
  requests (w_db w) !! new_id c w = None ->
  let r := on_photo_via E deliver c fileId w in
  let notified := forallb (fun admin => deliver (deposit_notice c fileId w admin))
                          (ADMIN_IDS E) in
  w_db r.2 = set_requests
      (<[new_id c w := deposit_request E c fileId (w_session w)]> (requests (w_db w)))
      (w_db w)
  ∧ (notified = true ->
     w_session r.2 = reset_flow (w_session w)
     ∧ r.1 = if deliver (Reply CheckReceived) then Ok tt else Throw TelegramError)
  ∧ (notified = false ->
     w_session r.2 = w_session w ∧ r.1 = Throw TelegramError).
Proof.
  intros Hflow Hstep Hfresh r notified.
  remember (on_photo_via E deliver c fileId w) as r0 eqn:Hr. subst r notified.
  unfold on_photo_via, on_photo_with in Hr. unfold deposit_notice.
  unfold bind at 1 in Hr. unfold get_session at 1 in Hr. cbv zeta in Hr.
  rewrite Hflow, Hstep in Hr.
  unfold bind at 1 in Hr. unfold nanoid at 1 in Hr.
  unfold bind at 1 in Hr. rewrite createRequest_run in Hr.
  cbn [nr_id w_pos w_db] in Hr.
  unfold new_id in Hfresh |- *.
  destruct (String.eqb (tape c (w_pos w)) "") eqn:Hid; rewrite Hfresh in Hr;
    unfold bind at 1 in Hr; rewrite for_each_send in Hr;
    destruct (forallb _ (ADMIN_IDS E)); simpl in Hr;
    unfold bind, put_session, send in Hr; simpl in Hr;
    try destruct (deliver (Reply CheckReceived)); simpl in Hr; subst r0;
    (split; [reflexivity|]); split; intros; try discriminate; split; reflexivity.
Qed.

(** The text handler at the card step when sends can fail: likewise. *)
Lemma on_text_via_card_run deliver c text w :
  admin_input E c (w_session w) = None ->
  Session.flow (w_session w) = Some withdraw ->
  Session.step (Session.sdata (w_session w)) = Some withdraw_card ->
  let card := Js.filter_str (fun ch => negb (Js.is_space ch)) (Js.trim text) in
  valid_card card = true ->
  requests (w_db w) !! new_id c w = None ->
  let r := on_text_via E deliver c text w in
  let notified := forallb (fun admin => deliver (withdraw_notice c card w admin))
                          (ADMIN_IDS E) in
  w_db r.2 = set_requests
      (<[new_id c w := withdraw_request E c card (w_session w)]> (requests (w_db w)))
      (w_db w)
  ∧ (notified = true ->
     w_session r.2 = reset_flow (w_session w)
     ∧ r.1 = if deliver (Reply WithdrawReceived) then Ok tt else Throw TelegramError)
  ∧ (notified = false ->
     w_session r.2
     = Session.set_data (Session.set_card card (Session.sdata (w_session w))) (w_session w)
     ∧ r.1 = Throw TelegramError).
Proof.
  intros Hgate Hflow Hstep card Hcard Hfresh r notified.
  remember (on_text_via E deliver c text w) as r0 eqn:Hr. subst r notified.
  unfold on_text_via, on_text_with in Hr. unfold withdraw_notice.
  unfold bind at 1 in Hr. unfold get_session at 1 in Hr. cbv zeta in Hr.
  rewrite Hgate, Hflow, Hstep in Hr. fold card in Hr. rewrite Hcard in Hr.
  cbn [negb] in Hr.
  unfold bind at 1 in Hr. unfold put_session at 1 in Hr.
  unfold bind at 1 in Hr. unfold nanoid at 1 in Hr.
  unfold bind at 1 in Hr. rewrite createRequest_run in Hr.
  cbn [nr_id w_pos w_db with_session] in Hr.
  unfold new_id in Hfresh |- *.
  destruct (String.eqb (tape c (w_pos w)) "") eqn:Hid; rewrite Hfresh in Hr;
    unfold bind at 1 in Hr; rewrite for_each_send in Hr;
    destruct (forallb _ (ADMIN_IDS E)); simpl in Hr;
    unfold bind, put_session, send in Hr; simpl in Hr;
    try destruct (deliver (Reply WithdrawReceived)); simpl in Hr; subst r0;
    (split; [reflexivity|]); split; intros; try discriminate; split; reflexivity.
Qed.


(** ** From the menu to the stored request *)

(** A deposit from the menu to the stored request, sends that can fail
    included. A subscribed user starts the flow, picks a provider of the
    table, sends a game id, an amount of at least the minimum that is a
    safe integer, and then a photo; the two texts are texts the text
    handler sees, and no admin mode takes them. Whatever the messenger
    delivers of the replies: up to the photo the tables are as before and
    the session waits for the receipt; the photo stores one new pending
    deposit of the sender, with the id and the name the provider had when
    it was picked, the amount typed, the trimmed game id and the photo in
    the details, and as expires_at the deadline computed when the amount
    was sent. The flow of the session is over when every administrator was
    notified; when a notification is refused the handler throws there, with
    the request stored and the session still waiting for the receipt. *)
Theorem deposit_from_menu_to_request
    (deliver : effect -> bool)
    (g : subscription) (pid name gameId amountText fileId : string)
    (c1 c2 c3 : ctx) (a : Z) (d : db) (s : Session.t) :
  (ensureSubscribed g).1 = true ->
  providers d !! pid = Some name ->
  admin_input E c1 s = None ->
  admin_input E c2 s = None ->
  reaches_text gameId = true ->
  reaches_text amountText = true ->
  Js.parseInt (Js.trim amountText) = Some a ->
  Js.safe a ->
  MIN_DEPOSIT E <= a ->
  toISOString E (now c2 + CHECK_TIMEOUT_MIN E * 60000) <> "" ->
  requests d !! new_id c3 (start d s) = None ->
  let w1 := (start_flow deposit g (start d s)).2 in
  let w2 := (prov_selected pid (carry w1)).2 in
  let w3 := (on_text_via E deliver c1 gameId (carry w2)).2 in
  let w4 := (on_text_via E deliver c2 amountText (carry w3)).2 in
  let r5 := on_photo_via E deliver c3 fileId (carry w4) in
  let deadline := toISOString E (now c2 + CHECK_TIMEOUT_MIN E * 60000) in
  let notified :=
    forallb (fun admin => deliver
               (SendPhoto (ChatName admin) fileId
                  (NewDeposit (tape c3 0) (from c3) (Some name)
                     (Some (Js.trim gameId)) a)))
            (ADMIN_IDS E) in
  w_db w4 = d
  ∧ Session.flow (w_session w4) = Some deposit
  ∧ Session.step (Session.sdata (w_session w4)) = Some deposit_wait_check
  ∧ Session.adminMode (w_session w4) = Session.adminMode s
  ∧ w_db r5.2
    = set_requests
        (<[new_id c3 (start d s) :=
           {| user_id := from c3;
              provider_id := Some pid;
              provider_name := Some name;
              type := deposit;
              amount := Js.int_or_null (Some a);
              details := Some (JSON_stringify E
                (Js.JObj [("userGameId", Js.JStr (Js.trim gameId));
                          ("checkFileId", Js.JStr fileId)]));
              status := pending;
              created_at := Some (toISOString E (now c3));
              expires_at := Some deadline;
              resolved_at := None; admin_note := None |}]> (requests d)) d
  ∧ (notified = true ->
     r5.1 = (if deliver (Reply CheckReceived) then Ok tt else Throw TelegramError)
     ∧ w_session r5.2
       = {| Session.flow := None; Session.sdata := Session.empty;
            Session.adminMode := Session.adminMode s |})
  ∧ (notified = false ->
     r5.1 = Throw TelegramError ∧ w_session r5.2 = w_session w4).
Proof.
  intros Hsub Hp Hg1 Hg2 _ _ Hparse Hsafe Hmin Hiso Hfresh
         w1 w2 w3 w4 r5 deadline notified.
  assert (Hne : providers (w_db (start d s)) <> ∅).
  { simpl. intros He. rewrite He in Hp. discriminate. }
  pose proof (start_flow_run deposit g (start d s) Hsub Hne) as H1.
  assert (Hw1 : carry w1
    = start d (Session.set_data Session.empty (Session.set_flow (Some deposit) s))).
  { subst w1. now rewrite H1. }
  destruct (prov_selected_run pid name (carry w1)) as [ns H2].
  { rewrite Hw1. exact Hp. }
  assert (Hw2 : carry w2
    = start d {| Session.flow := Some deposit;
                 Session.sdata := Session.set_step deposit_userid
                                    (set_provider pid name Session.empty);
                 Session.adminMode := Session.adminMode s |}).
  { subst w2. rewrite H2, Hw1. reflexivity. }
  pose proof (on_text_deposit_userid_run c1 gameId (carry w2)) as H3.
  pose proof (on_text_via_deposit_userid deliver c1 gameId (carry w2)) as V3.
  rewrite Hw2 in H3, V3.
  specialize (H3 Hg1 eq_refl eq_refl). specialize (V3 Hg1 eq_refl eq_refl).
  assert (Hw3 : carry w3
    = start d {| Session.flow := Some deposit;
                 Session.sdata := Session.set_step deposit_amount
                    (Session.set_userGameId (Js.trim gameId)
                       (Session.set_step deposit_userid
                          (set_provider pid name Session.empty)));
                 Session.adminMode := Session.adminMode s |}).
  { subst w3. rewrite Hw2, V3, H3. reflexivity. }
  pose proof (on_text_amount_run c2 amountText (carry w3) a) as H4.
  pose proof (on_text_via_amount deliver c2 amountText (carry w3) a) as V4.
  rewrite Hw3 in H4, V4.
  specialize (H4 Hg2 eq_refl eq_refl Hparse Hmin).
  specialize (V4 Hg2 eq_refl eq_refl Hparse Hmin).
  assert (Hw4 : carry w4
    = start d {| Session.flow := Some deposit;
                 Session.sdata :=
                   Session.set_expiresAt deadline
                     (Session.set_step deposit_wait_check
                        (Session.set_amount a
                           (Session.set_step deposit_amount
                              (Session.set_userGameId (Js.trim gameId)
                                 (Session.set_step deposit_userid
                                    (set_provider pid name Session.empty))))));
                 Session.adminMode := Session.adminMode s |}).
  { subst w4. rewrite Hw3, V4, H4. reflexivity. }
  assert (Hdb4 : w_db w4 = d) by exact (f_equal w_db Hw4).
  assert (Hs4 : w_session w4 = w_session (carry w4)) by reflexivity.
  rewrite Hs4, Hw4. cbn [w_session Session.flow Session.sdata Session.adminMode].
  do 4 (split; [reflexivity || exact Hdb4|]).
  destruct (on_photo_via_run deliver c3 fileId (carry w4)) as (Hdb & Hyes & Hno).
  { rewrite Hw4. reflexivity. }
  { rewrite Hw4. reflexivity. }
  { rewrite Hw4. exact Hfresh. }
  fold r5 in Hdb, Hyes, Hno. rewrite Hw4 in Hdb, Hyes, Hno.
  unfold deposit_notice in Hyes, Hno.
  cbn [w_session w_db w_pos start Session.sdata Session.providerName
       Session.userGameId Session.amount Session.set_expiresAt Session.set_step
       Session.set_amount Session.set_userGameId set_provider Js.int_or_zero] in Hyes, Hno.
  fold notified in Hyes, Hno.
  split.
  { rewrite Hdb. unfold deposit_request, new_id; simpl. fold deadline.
    apply String.eqb_neq in Hiso. fold deadline in Hiso. now rewrite !Hiso. }
  split.
  - intros Hn. destruct (Hyes Hn) as [Hs Hr]. split; [exact Hr|exact Hs].
  - intros Hn. destruct (Hno Hn) as [Hs Hr]. split; [exact Hr|exact Hs].
Qed.

(** A withdrawal from the menu to the stored request, sends that can fail
    included. A subscribed user starts the flow, picks a provider of the
    table, sends a game id, a text that is a well-formed code once trimmed
    and put in upper case, and a card number of 12 to 20 digits once its
    white space is removed; the three texts are texts the text handler
    sees, and no admin mode takes them. Whatever the messenger delivers of
    the replies: up to the card the tables are as before and the session
    waits for the card; the card stores one new pending withdrawal of the
    sender with the provider as picked, no amount, no deadline, and the
    game id, the normalized code and the card in the details. The flow of
    the session is over when every administrator was notified; when a
    notification is refused the handler throws there, with the request
    stored and the session still at the card step, the card written to it.
    No row of [users] is read on the way. *)
Theorem withdraw_from_menu_to_request
    (deliver : effect -> bool)
    (g : subscription) (pid name gameId codeText cardText : string)
    (c1 c2 c3 : ctx) (d : db) (s : Session.t) :
  (ensureSubscribed g).1 = true ->
  providers d !! pid = Some name ->
  admin_input E c1 s = None ->
  admin_input E c2 s = None ->
  admin_input E c3 s = None ->
  reaches_text gameId = true ->
  reaches_text codeText = true ->
  reaches_text cardText = true ->
  validateSecretCode (toUpperCase E (Js.trim codeText)) = true ->
  valid_card (Js.filter_str (fun ch => negb (Js.is_space ch)) (Js.trim cardText)) = true ->
  requests d !! new_id c3 (start d s) = None ->
  let w1 := (start_flow withdraw g (start d s)).2 in
  let w2 := (prov_selected pid (carry w1)).2 in
  let w3 := (on_text_via E deliver c1 gameId (carry w2)).2 in
  let w4 := (on_text_via E deliver c2 codeText (carry w3)).2 in
  let r5 := on_text_via E deliver c3 cardText (carry w4) in
  let code := toUpperCase E (Js.trim codeText) in
  let card := Js.filter_str (fun ch => negb (Js.is_space ch)) (Js.trim cardText) in
  let notified :=
    forallb (fun admin => deliver
               (SendMessage (ChatName admin)
                  (NewWithdraw (tape c3 0) (from c3) (Some name)
                     (Some (Js.trim gameId)) (Some code) (Some card))))
            (ADMIN_IDS E) in
  w_db w4 = d
  ∧ Session.flow (w_session w4) = Some withdraw
  ∧ Session.step (Session.sdata (w_session w4)) = Some withdraw_card
  ∧ Session.adminMode (w_session w4) = Session.adminMode s
  ∧ w_db r5.2
    = set_requests
        (<[new_id c3 (start d s) :=
           {| user_id := from c3;
              provider_id := Some pid;
              provider_name := Some name;
              type := withdraw;
              amount := None;
              details := Some (JSON_stringify E
                (Js.JObj [("userGameId", Js.JStr (Js.trim gameId));
                          ("code", Js.JStr code);
                          ("card", Js.JStr card)]));
              status := pending;
              created_at := Some (toISOString E (now c3));
              expires_at := None;
              resolved_at := None; admin_note := None |}]> (requests d)) d
  ∧ (notified = true ->
     r5.1 = (if deliver (Reply WithdrawReceived) then Ok tt else Throw TelegramError)
     ∧ w_session r5.2
       = {| Session.flow := None; Session.sdata := Session.empty;
            Session.adminMode := Session.adminMode s |})
  ∧ (notified = false ->
     r5.1 = Throw TelegramError
     ∧ w_session r5.2
       = Session.set_data (Session.set_card card (Session.sdata (w_session w4)))
           (w_session w4)).
Proof.
  intros Hsub Hp Hg1 Hg2 Hg3 _ _ _ Hcode Hcard Hfresh
         w1 w2 w3 w4 r5 code card notified.
  assert (Hne : providers (w_db (start d s)) <> ∅).
  { simpl. intros He. rewrite He in Hp. discriminate. }
  pose proof (start_flow_run withdraw g (start d s) Hsub Hne) as H1.
  assert (Hw1 : carry w1
    = start d (Session.set_data Session.empty (Session.set_flow (Some withdraw) s))).
  { subst w1. now rewrite H1. }
  destruct (prov_selected_run pid name (carry w1)) as [ns H2].
  { rewrite Hw1. exact Hp. }
  assert (Hw2 : carry w2
    = start d {| Session.flow := Some withdraw;
                 Session.sdata := Session.set_step withdraw_userid
                                    (set_provider pid name Session.empty);
                 Session.adminMode := Session.adminMode s |}).
  { subst w2. rewrite H2, Hw1. reflexivity. }
  pose proof (on_text_withdraw_userid_run c1 gameId (carry w2)) as H3.
  pose proof (on_text_via_withdraw_userid deliver c1 gameId (carry w2)) as V3.
  rewrite Hw2 in H3, V3.
  specialize (H3 Hg1 eq_refl eq_refl). specialize (V3 Hg1 eq_refl eq_refl).
  assert (Hw3 : carry w3
    = start d {| Session.flow := Some withdraw;
                 Session.sdata := Session.set_step withdraw_code
                    (Session.set_userGameId (Js.trim gameId)
                       (Session.set_step withdraw_userid
                          (set_provider pid name Session.empty)));
                 Session.adminMode := Session.adminMode s |}).
  { subst w3. rewrite Hw2, V3, H3. reflexivity. }
  pose proof (on_text_code_run c2 codeText (carry w3)) as H4.
  pose proof (on_text_via_code deliver c2 codeText (carry w3)) as V4.
  rewrite Hw3 in H4, V4.
  specialize (H4 Hg2 eq_refl eq_refl Hcode). specialize (V4 Hg2 eq_refl eq_refl Hcode).
  assert (Hw4 : carry w4
    = start d {| Session.flow := Some withdraw;
                 Session.sdata :=
                   Session.set_step withdraw_card
                     (Session.set_code code
                        (Session.set_step withdraw_code
                           (Session.set_userGameId (Js.trim gameId)
                              (Session.set_step withdraw_userid
                                 (set_provider pid name Session.empty)))));
                 Session.adminMode := Session.adminMode s |}).
  { subst w4. rewrite Hw3, V4, H4. reflexivity. }
  assert (Hdb4 : w_db w4 = d) by exact (f_equal w_db Hw4).
  assert (Hs4 : w_session w4 = w_session (carry w4)) by reflexivity.
  rewrite Hs4, Hw4. cbn [w_session Session.flow Session.sdata Session.adminMode].
  do 4 (split; [reflexivity || exact Hdb4|]).
  destruct (on_text_via_card_run deliver c3 cardText (carry w4)) as (Hdb & Hyes & Hno).
  { rewrite Hw4. exact Hg3. }
  { rewrite Hw4. reflexivity. }
  { rewrite Hw4. reflexivity. }
  { exact Hcard. }
  { rewrite Hw4. exact Hfresh. }
  fold r5 card in Hdb, Hyes, Hno. rewrite Hw4 in Hdb, Hyes, Hno.
  unfold withdraw_notice in Hyes, Hno.
  cbn [w_session w_db w_pos start Session.sdata Session.providerName
       Session.userGameId Session.code Session.set_step Session.set_code
       Session.set_userGameId set_provider] in Hyes, Hno.
  fold notified in Hyes, Hno.
  split; [rewrite Hdb; reflexivity|].
  split.
  - intros Hn. destruct (Hyes Hn) as [Hs Hr]. split; [exact Hr|exact Hs].
  - intros Hn. destruct (Hno Hn) as [Hs Hr]. split; [exact Hr|exact Hs].
Qed.


(** ** Handlers over a messenger that refuses sends *)

(** When the id drawn is taken the INSERT fails before anything is sent. *)
Lemma on_text_with_card_taken say c text w r :
  admin_input E c (w_session w) = None ->
  Session.flow (w_session w) = Some withdraw ->
  Session.step (Session.sdata (w_session w)) = Some withdraw_card ->
  let card := Js.filter_str (fun ch => negb (Js.is_space ch)) (Js.trim text) in
  valid_card card = true ->
  requests (w_db w) !! new_id c w = Some r ->
  w_db (on_text_with E say c text w).2 = w_db w
  ∧ w_session (on_text_with E say c text w).2
    = Session.set_data (Session.set_card card (Session.sdata (w_session w))) (w_session w).
Proof.
  intros Hgate Hflow Hstep card Hcard Hfresh.
  remember (on_text_with E say c text w) as r0 eqn:Hr.
  unfold on_text_with in Hr.
  unfold bind at 1 in Hr. unfold get_session at 1 in Hr. cbv zeta in Hr.
  rewrite Hgate, Hflow, Hstep in Hr. fold card in Hr. rewrite Hcard in Hr.
  cbn [negb] in Hr.
  unfold bind at 1 in Hr. unfold put_session at 1 in Hr.
  unfold bind at 1 in Hr. unfold nanoid at 1 in Hr.
  unfold bind at 1 in Hr. rewrite createRequest_run in Hr.
  cbn [nr_id w_pos w_db with_session] in Hr.
  unfold new_id in Hfresh.
  destruct (String.eqb (tape c (w_pos w)) ""); rewrite Hfresh in Hr;
    subst r0; split; reflexivity.
Qed.

Lemma on_photo_with_taken say c fileId w r :
  Session.flow (w_session w) = Some deposit ->
  Session.step (Session.sdata (w_session w)) = Some deposit_wait_check ->
  requests (w_db w) !! new_id c w = Some r ->
  w_db (on_photo_with E say c fileId w).2 = w_db w
  ∧ w_session (on_photo_with E say c fileId w).2 = w_session w.
Proof.
  intros Hflow Hstep Hfresh.
  remember (on_photo_with E say c fileId w) as r0 eqn:Hr.
  unfold on_photo_with in Hr.
  unfold bind at 1 in Hr. unfold get_session at 1 in Hr. cbv zeta in Hr.
  rewrite Hflow, Hstep in Hr.
  unfold bind at 1 in Hr. unfold nanoid at 1 in Hr.
  unfold bind at 1 in Hr. rewrite createRequest_run in Hr.
  cbn [nr_id w_pos w_db] in Hr.
  unfold new_id in Hfresh.
  destruct (String.eqb (tape c (w_pos w)) ""); rewrite Hfresh in Hr;
    subst r0; split; reflexivity.
Qed.

(** Whatever is delivered, the text handler leaves the tables as when
    every send is delivered; the session too, except at the card step,
    where a refused notification leaves the session as it was with the
    card written to it. *)
Lemma on_text_via_state deliver c text w :
  w_db (on_text_via E deliver c text w).2 = w_db (on_text E c text w).2
  ∧ (w_session (on_text_via E deliver c text w).2 = w_session (on_text E c text w).2
     ∨ exists card,
         w_session (on_text_via E deliver c text w).2
         = Session.set_data (Session.set_card card (Session.sdata (w_session w)))
             (w_session w)).
Proof.
  assert (Hcarry : carry (on_text_via E deliver c text w).2
                   = carry (on_text E c text w).2 ->
    w_db (on_text_via E deliver c text w).2 = w_db (on_text E c text w).2
    ∧ (w_session (on_text_via E deliver c text w).2 = w_session (on_text E c text w).2
       ∨ exists card,
           w_session (on_text_via E deliver c text w).2
           = Session.set_data (Session.set_card card (Session.sdata (w_session w)))
               (w_session w))).
  { intros H. split; [exact (f_equal w_db H)|left; exact (f_equal w_session H)]. }
  destruct (admin_input E c (w_session w)) as [[|]|] eqn:Hgate.
  - unfold on_text_via, on_text_with, on_text.
    unfold bind, get_session, exec, put_session, send, emit. cbv zeta.
    rewrite Hgate. simpl. destruct (deliver _); simpl; auto.
  - unfold on_text_via, on_text_with, on_text.
    unfold bind, get_session, exec, put_session, send, emit. cbv zeta.
    rewrite Hgate. simpl. destruct (deliver _); simpl; auto.
  - destruct (Session.flow (w_session w)) as [[|]|] eqn:Hflow;
    destruct (Session.step (Session.sdata (w_session w))) as [[| | | | |]|] eqn:Hstep;
    try (unfold on_text_via, on_text_with, on_text;
         unfold bind, get_session; cbv zeta;
         rewrite Hgate, Hflow, ?Hstep; auto; fail).
    + apply Hcarry. now apply on_text_via_deposit_userid.
    + destruct (Js.parseInt (Js.trim text)) as [a|] eqn:Hparse.
      * destruct (a <? MIN_DEPOSIT E) eqn:Hmin.
        -- unfold on_text_via, on_text_with, on_text.
           unfold bind, get_session, send, emit; cbv zeta.
           rewrite Hgate, Hflow, Hstep, Hparse, Hmin.
           destruct (deliver _); auto.
        -- apply Z.ltb_ge in Hmin. apply Hcarry.
           now apply (on_text_via_amount deliver c text w a).
      * unfold on_text_via, on_text_with, on_text.
        unfold bind, get_session, send, emit; cbv zeta.
        rewrite Hgate, Hflow, Hstep, Hparse.
        destruct (deliver _); auto.
    + apply Hcarry. now apply on_text_via_withdraw_userid.
    + destruct (validateSecretCode (toUpperCase E (Js.trim text))) eqn:Hcode.
      * apply Hcarry. now apply on_text_via_code.
      * unfold on_text_via, on_text_with, on_text.
        unfold bind, get_session, send, emit; cbv zeta.
        rewrite Hgate, Hflow, Hstep, Hcode. cbn [negb].
        destruct (deliver _); auto.
    + destruct (valid_card (Js.filter_str (fun ch => negb (Js.is_space ch)) (Js.trim text)))
        eqn:Hcard.
      * destruct (requests (w_db w) !! new_id c w) as [r|] eqn:Hfresh.
        -- destruct (on_text_with_card_taken (send deliver) c text w r
                       Hgate Hflow Hstep Hcard Hfresh) as [Hd1 Hs1].
           destruct (on_text_with_card_taken emit c text w r
                       Hgate Hflow Hstep Hcard Hfresh) as [Hd2 Hs2].
           rewrite on_text_with_emit in Hd2, Hs2. unfold on_text_via.
           rewrite Hd1, Hd2, Hs1, Hs2. auto.
        -- destruct (on_text_card_run c text w Hgate Hflow Hstep Hcard Hfresh)
             as (w' & Hrun & Hdb & Hs).
           destruct (on_text_via_card_run deliver c text w Hgate Hflow Hstep Hcard Hfresh)
             as (Hdbv & Hyes & Hno).
           rewrite Hrun. cbn [snd]. rewrite Hdb, Hs. split; [exact Hdbv|].
           destruct (forallb _ (ADMIN_IDS E)).
           ++ left. now destruct (Hyes eq_refl).
           ++ right. destruct (Hno eq_refl) as [Hs' _]. eexists. exact Hs'.
      * unfold on_text_via, on_text_with, on_text.
        unfold bind, get_session, send, emit; cbv zeta.
        rewrite Hgate, Hflow, Hstep, Hcard. cbn [negb].
        destruct (deliver _); auto.
Qed.

(** Whatever is delivered, the photo handler leaves the tables as when
    every send is delivered; the session too, or as it was when a
    notification is refused. *)
Lemma on_photo_via_state deliver c fileId w :
  w_db (on_photo_via E deliver c fileId w).2 = w_db (on_photo E c fileId w).2
  ∧ (w_session (on_photo_via E deliver c fileId w).2
     = w_session (on_photo E c fileId w).2
     ∨ w_session (on_photo_via E deliver c fileId w).2 = w_session w).
Proof.
  destruct (Session.flow (w_session w)) as [[|]|] eqn:Hflow;
  destruct (Session.step (Session.sdata (w_session w))) as [[| | | | |]|] eqn:Hstep;
    try (unfold on_photo_via, on_photo_with, on_photo;
         unfold bind, get_session; cbv zeta;
         rewrite Hflow, ?Hstep; auto; fail).
  destruct (requests (w_db w) !! new_id c w) as [r|] eqn:Hfresh.
  - destruct (on_photo_with_taken (send deliver) c fileId w r Hflow Hstep Hfresh)
      as [Hd1 Hs1].
    destruct (on_photo_with_taken emit c fileId w r Hflow Hstep Hfresh) as [Hd2 Hs2].
    rewrite on_photo_with_emit in Hd2, Hs2. unfold on_photo_via.
    rewrite Hd1, Hd2, Hs1, Hs2. auto.
  - destruct (on_photo_run c fileId w Hflow Hstep Hfresh) as (w' & Hrun & Hdb & Hs).
    destruct (on_photo_via_run deliver c fileId w Hflow Hstep Hfresh)
      as (Hdbv & Hyes & Hno).
    rewrite Hrun. cbn [snd]. rewrite Hdb, Hs. split; [exact Hdbv|].
    destruct (forallb _ (ADMIN_IDS E)).
    + left. now destruct (Hyes eq_refl).
    + right. now destruct (Hno eq_refl).
Qed.


(** ** Stored requests *)

(** The amount of a session changes only at the amount step, to the integer
    the text begins with, and when the data of the session is emptied. *)
Lemma on_text_amount c text w :
  Session.amount (Session.sdata (w_session (on_text E c text w).2))
  = Session.amount (Session.sdata (w_session w))
  ∨ Session.amount (Session.sdata (w_session (on_text E c text w).2)) = None
  ∨ exists a, Js.parseInt (Js.trim text) = Some a
              ∧ Session.amount (Session.sdata (w_session (on_text E c text w).2)) = Some a.
Proof.
  destruct (admin_input E c (w_session w)) as [[|]|] eqn:Hgate.
  - rewrite (on_text_add_run c text w Hgate). now left.
  - rewrite (on_text_remove_run c text w Hgate). now left.
  - destruct (Session.flow (w_session w)) as [[|]|] eqn:Hflow;
    destruct (Session.step (Session.sdata (w_session w))) as [[| | | | |]|] eqn:Hstep;
    try (on_text_at Hgate Hflow Hstep; now left).
    + destruct (Js.parseInt (Js.trim text)) as [a|] eqn:Hparse;
        [|on_text_at Hgate Hflow Hstep; rewrite Hparse; now left].
      destruct (a <? MIN_DEPOSIT E) eqn:Hmin;
        [on_text_at Hgate Hflow Hstep; rewrite Hparse, Hmin; now left|].
      apply Z.ltb_ge in Hmin.
      rewrite (on_text_amount_run c text w a Hgate Hflow Hstep Hparse Hmin).
      right. right. exists a. split; reflexivity.
    + destruct (validateSecretCode (toUpperCase E (Js.trim text))) eqn:Hcode;
        [|on_text_at Hgate Hflow Hstep; rewrite Hcode; now left].
      rewrite (on_text_code_run c text w Hgate Hflow Hstep Hcode). now left.
    + destruct (valid_card (Js.filter_str (fun ch => negb (Js.is_space ch)) (Js.trim text)))
        eqn:Hcard; [|on_text_at Hgate Hflow Hstep; rewrite Hcard; now left].
      destruct (requests (w_db w) !! new_id c w) as [r|] eqn:Hfresh.
      * destruct (on_text_with_card_taken emit c text w r Hgate Hflow Hstep Hcard Hfresh)
          as [_ Hs].
        rewrite on_text_with_emit in Hs. rewrite Hs. now left.
      * destruct (on_text_card_run c text w Hgate Hflow Hstep Hcard Hfresh)
          as (w' & Hrun & _ & Hs).
        rewrite Hrun; simpl. rewrite Hs. right. now left.
Qed.

Lemma run_amount c u w :
  Session.amount (Session.sdata (w_session (run E c u w).2))
  = Session.amount (Session.sdata (w_session w))
  ∨ Session.amount (Session.sdata (w_session (run E c u w).2)) = None
  ∨ exists text a,
      u = Core (Text text) ∧ Js.parseInt (Js.trim text) = Some a
      ∧ Session.amount (Session.sdata (w_session (run E c u w).2)) = Some a.
Proof.
  destruct u as [ev | uname draw g | uname draw | f g | pid | mode |].
  - rewrite run_core. destruct ev as [text | fileId | | act id]; simpl.
    + destruct (on_text_amount c text w) as [H | [H | (a & Hp & H)]]; auto.
      right. right. exists text, a. auto.
    + destruct (on_photo_session c fileId w) as [-> | ->]; auto.
    + auto.
    + rewrite admin_action_session. auto.
  - simpl. rewrite (proj1 (start_cmd_frame c uname draw g w)). auto.
  - simpl. rewrite (proj1 (my_code_frame c uname draw w)). auto.
  - simpl. unfold start_flow. destruct (negb _); [auto|].
    unfold bind, query. destruct (listProviders (w_db w)); auto.
  - simpl. unfold prov_selected, bind, query.
    destruct (find_provider pid (w_db w)) as [p|]; [|auto].
    unfold get_session; simpl.
    destruct (Session.flow (w_session w)) as [[|]|]; auto.
  - simpl. unfold ap_mode. destruct (negb _); auto.
  - simpl. unfold ap_stats. destruct (negb _); auto.
Qed.

(** Over a messenger that refuses sends an update leaves the tables as
    [run] does, and the session as [run] does, or as it was, or as it was
    with a card written to it. *)
Lemma run_via_state deliver c u w :
  w_db (run_via E deliver c u w).2 = w_db (run E c u w).2
  ∧ (w_session (run_via E deliver c u w).2 = w_session (run E c u w).2
     ∨ w_session (run_via E deliver c u w).2 = w_session w
     ∨ exists card,
         w_session (run_via E deliver c u w).2
         = Session.set_data (Session.set_card card (Session.sdata (w_session w)))
             (w_session w)).
Proof.
  destruct u as [[text | fileId | | act id] | | | | | |]; try (split; [reflexivity|now left]).
  - assert (Hv : (run_via E deliver c (Core (Text text)) w).2
                 = (on_text_via E deliver c text w).2).
    { unfold run_via, bind. now destruct (on_text_via E deliver c text w) as [[[]|e] w1]. }
    rewrite Hv, run_core. simpl.
    destruct (on_text_via_state deliver c text w) as [Hd [Hs | Hs]]; auto.
  - assert (Hv : (run_via E deliver c (Core (Photo fileId)) w).2
                 = (on_photo_via E deliver c fileId w).2).
    { unfold run_via, bind. now destruct (on_photo_via E deliver c fileId w) as [[[]|e] w1]. }
    rewrite Hv, run_core. simpl.
    destruct (on_photo_via_state deliver c fileId w) as [Hd [Hs | Hs]]; auto.
Qed.

Lemma session_ok_card card s :
  session_ok E s ->
  session_ok E (Session.set_data (Session.set_card card (Session.sdata s)) s).
Proof. intros Hok st Hst. exact (Hok st Hst). Qed.

Lemma typed_step_keeps s s' :
  typed_step E s s' ->
  session_ok E s ∧ amount_safe s -> session_ok E s' ∧ amount_safe s'.
Proof.
  intros [deliver c u d s0 r w Htyped Hrun] [Hok Hsafe].
  replace w with (run_via E deliver c u (start d s0)).2 by now rewrite Hrun.
  pose proof (run_session_ok c u (start d s0) Hok) as Hok'.
  assert (Hsafe' : amount_safe (w_session (run E c u (start d s0)).2)).
  { intros a Ha.
    destruct (run_amount c u (start d s0)) as [H | [H | (text & a' & -> & Hp & H)]].
    - rewrite H in Ha. exact (Hsafe a Ha).
    - rewrite H in Ha. discriminate.
    - rewrite H in Ha. injection Ha as <-. exact (Htyped a' Hp). }
  destruct (run_via_state deliver c u (start d s0)) as [_ [-> | [-> | [card ->]]]].
  - split; assumption.
  - split; assumption.
  - split; [now apply session_ok_card|exact Hsafe].
Qed.

Lemma rtc_typed_step_keeps s s' :
  rtc (typed_step E) s s' ->
  session_ok E s ∧ amount_safe s -> session_ok E s' ∧ amount_safe s'.
Proof.
  intros Hsteps. induction Hsteps as [s | s1 s2 s3 Hstep _ IH]; [easy|].
  intros H. apply IH. exact (typed_step_keeps _ _ Hstep H).
Qed.

(** Every request the bot stores is well formed, whatever the messenger
    delivers. Starting from tables whose requests are (none, to begin
    with), after any sequence of updates with safely typed texts, of chats
    whose sessions started as the default session, and of sweep ticks:
    every stored request names a provider id and a provider name, has its
    creation time and its details; the amount of a deposit is a safe
    integer of at least the configured minimum (NULL in its place when it
    is 0), and a withdrawal has no amount. *)
Theorem stored_requests_are_well_formed d d' :
  requests_ok E d ->
  rtc (served_step E) d d' ->
  forall id r, requests d' !! id = Some r ->
    is_Some (provider_id r) ∧ is_Some (provider_name r)
    ∧ is_Some (created_at r) ∧ is_Some (details r)
    ∧ match type r with
      | deposit => exists a, MIN_DEPOSIT E <= a ∧ Js.safe a
                             ∧ amount r = Js.int_or_null (Some a)
      | withdraw => amount r = None
      end.
Proof.
  intros Hok Hsteps. change (requests_ok E d').
  induction Hsteps as [d | d1 d2 d3 Hstep _ IH]; [exact Hok|].
  apply IH. clear IH.
  destruct Hstep as [deliver c u d0 s r w Hreach Htyped Hrun | now_ d0].
  - replace w with (run_via E deliver c u (start d0 s)).2 by now rewrite Hrun.
    destruct (rtc_typed_step_keeps _ _ Hreach) as [Hs Hsafe].
    { split; [now apply session_ok_none|]. intros a Ha. discriminate. }
    apply (requests_ok_same (w_db (run E c u (start d0 s)).2)).
    { now rewrite (proj1 (run_via_state deliver c u (start d0 s))). }
    now apply (run_requests_ok c u (start d0 s)).
  - intros k r Hl. rewrite sweep_requests in Hl.
    destruct (requests d0 !! k) as [r0|] eqn:Hr; [|discriminate].
    injection Hl as <-. specialize (Hok k r0 Hr).
    unfold swept. destruct (status r0); auto.
    destruct (Js.str_or_null (expires_at r0)); auto.
    now destruct (Js.str_le _ _).
Qed.

End Facts.

(** * The claims on the concrete platform *)

(** C9, at a sample: user 7 is no administrator of [Demo.env]; the approval
    user 7 attempts on the pending deposit changes nothing. *)
Lemma non_admin_decision_changes_nothing_witness :
  isAdmin Demo.env (from (Sample.client 1700000100000)) = false
  ∧ w_db (admin_action Demo.env (Sample.client 1700000100000) approve Sample.rid
            Sample.pending_deposit).2
    = w_db Sample.pending_deposit.
Proof.
  split; [reflexivity|].
  apply (non_admin_decision_changes_nothing Demo.env (Sample.client 1700000100000)
           approve Sample.rid Sample.pending_deposit).
  reflexivity.
Defined.






(** At a sample: an approval attempt and a sweep, one after the other, on
    the expired deposit; its row is as it was. *)
Lemma status_only_leaves_pending_witness :
  rtc (db_step Demo.env)
      (w_db Sample.expired_deposit)
      (sweep Demo.env 1700009000000
         (w_db (handle Demo.env (Sample.admin 1700000100000)
                  (AdminAction approve Sample.rid) Sample.expired_deposit).2)).1
  ∧ exists r',
      requests
        (sweep Demo.env 1700009000000
           (w_db (handle Demo.env (Sample.admin 1700000100000)
                    (AdminAction approve Sample.rid) Sample.expired_deposit).2)).1
        !! Sample.rid = Some r'
      ∧ status r' = expired.
Proof.
  assert (Hsteps : rtc (db_step Demo.env)
      (w_db Sample.expired_deposit)
      (sweep Demo.env 1700009000000
         (w_db (handle Demo.env (Sample.admin 1700000100000)
                  (AdminAction approve Sample.rid) Sample.expired_deposit).2)).1).
  { eapply rtc_l; [|apply rtc_once, step_sweep].
    eapply (step_handle Demo.env (Sample.admin 1700000100000)
              (AdminAction approve Sample.rid) _ Session.default).
    apply surjective_pairing. }
  split; [exact Hsteps|].
  destruct (status_only_leaves_pending Demo.env _ _ Hsteps Sample.rid
              (Sample.deposit_row expired (Some 10000) Sample.proof_payload
                 (Some (Demo.iso_string 1700000300000))) eq_refl)
    as (r' & Hl & Hfix & _).
  exists r'. split; [exact Hl|].
  rewrite Hfix; [reflexivity | discriminate].
Defined.


(** C5, at a sample with the minimum 5000 and the timeout of 5 minutes:
    the text abc is answered with the re-prompt and changes nothing; the
    text 5000 moves the flow to the proof step, fixes the deadline five
    minutes after the clock of the text and, 5000 being a safe integer,
    stores the amount 5000. *)
Lemma deposit_amount_step_witness :
  admin_input Demo.env (Sample.client 1700000000000)
    (w_session (Sample.in_flow deposit deposit_amount)) = None
  ∧ Session.flow (w_session (Sample.in_flow deposit deposit_amount)) = Some deposit
  ∧ Session.step (Session.sdata (w_session (Sample.in_flow deposit deposit_amount)))
    = Some deposit_amount
  ∧ Js.safe (MIN_DEPOSIT Demo.env)
  ∧ on_text Demo.env (Sample.client 1700000000000) "abc"
      (Sample.in_flow deposit deposit_amount)
    = (Ok tt, sent [Reply (BadAmount 5000)] (Sample.in_flow deposit deposit_amount))
  ∧ Session.step (Session.sdata (w_session
      (on_text Demo.env (Sample.client 1700000000000) "5000"
         (Sample.in_flow deposit deposit_amount)).2)) = Some deposit_wait_check
  ∧ Session.expiresAt (Session.sdata (w_session
      (on_text Demo.env (Sample.client 1700000000000) "5000"
         (Sample.in_flow deposit deposit_amount)).2))
    = Some (Demo.iso_string (1700000000000 + 5 * 60000))
  ∧ Js.safe 5000
  ∧ Session.amount (Session.sdata (w_session
      (on_text Demo.env (Sample.client 1700000000000) "5000"
         (Sample.in_flow deposit deposit_amount)).2)) = Some 5000.
Proof.
  do 3 (split; [reflexivity|]).
  assert (Hsafe : Js.safe 5000) by (split; discriminate).
  split; [exact Hsafe|].
  destruct (deposit_amount_step Demo.env (Sample.client 1700000000000) "abc"
              (Sample.in_flow deposit deposit_amount) eq_refl eq_refl eq_refl Hsafe)
    as [Hbad _].
  destruct (deposit_amount_step Demo.env (Sample.client 1700000000000) "5000"
              (Sample.in_flow deposit deposit_amount) eq_refl eq_refl eq_refl Hsafe)
    as [_ Hgood].
  assert (Hmin : MIN_DEPOSIT Demo.env <= 5000) by discriminate.
  destruct (Hgood 5000 eq_refl Hmin) as (_ & _ & _ & Hstep & Hexp & Hrun & _).
  split; [apply Hbad; left; reflexivity|].
  split; [exact Hstep|]. split; [exact Hexp|]. split; [exact Hsafe|].
  rewrite (Hrun Hsafe). reflexivity.
Defined.

(** C6, at a sample: a9k3 is accepted as A9K3 and the flow is at the card
    step; the three characters a9k are answered with the re-prompt and
    change nothing. *)
Lemma withdraw_code_step_witness :
  admin_input Demo.env (Sample.client 1700000000000)
    (w_session (Sample.in_flow withdraw withdraw_code)) = None
  ∧ Session.flow (w_session (Sample.in_flow withdraw withdraw_code)) = Some withdraw
  ∧ Session.step (Session.sdata (w_session (Sample.in_flow withdraw withdraw_code)))
    = Some withdraw_code
  ∧ on_text Demo.env (Sample.client 1700000000000) "a9k3"
      (Sample.in_flow withdraw withdraw_code)
    = (Ok tt,
       sent [Reply AskCard]
         (with_session
            (Session.set_data
               (Session.set_step withdraw_card
                  (Session.set_code "A9K3"
                     (Session.sdata (w_session (Sample.in_flow withdraw withdraw_code)))))
               (w_session (Sample.in_flow withdraw withdraw_code)))
            (Sample.in_flow withdraw withdraw_code)))
  ∧ on_text Demo.env (Sample.client 1700000000000) "a9k"
      (Sample.in_flow withdraw withdraw_code)
    = (Ok tt, sent [Reply BadCode] (Sample.in_flow withdraw withdraw_code)).
Proof.
  do 3 (split; [reflexivity|]).
  split.
  - exact (proj2 (withdraw_code_step Demo.env (Sample.client 1700000000000) "a9k3"
                    (Sample.in_flow withdraw withdraw_code) eq_refl eq_refl eq_refl)).
  - exact (proj2 (withdraw_code_step Demo.env (Sample.client 1700000000000) "a9k"
                    (Sample.in_flow withdraw withdraw_code) eq_refl eq_refl eq_refl)).
Defined.

(** C7, at a sample: user 7 types a card number at the card step, once
    over the users table with the secret code Q7ZK and once over a table
    with the secret code 0000; the same request is stored, and its details
    record the code A9K3 of the session. *)
Lemma withdraw_ignores_stored_code_witness :
  requests (w_db (on_text Demo.env (Sample.client 1700000000000) "8600 1234 1234 1234"
                    (with_users (users (w_db Sample.at_card)) Sample.at_card)).2)
  = requests (w_db (on_text Demo.env (Sample.client 1700000000000) "8600 1234 1234 1234"
                      (with_users Sample.other_users Sample.at_card)).2)
  ∧ exists r,
      requests (w_db (on_text Demo.env (Sample.client 1700000000000) "8600 1234 1234 1234"
                        (with_users (users (w_db Sample.at_card)) Sample.at_card)).2)
        !! Sample.rid = Some r
      ∧ details r = Some (Demo.stringify (Js.JObj
          [("userGameId", Js.JStr "g1"); ("code", Js.JStr "A9K3");
           ("card", Js.JStr "8600123412341234")])).
Proof.
  destruct (withdraw_ignores_stored_code Demo.env (Sample.client 1700000000000)
              "8600 1234 1234 1234" Sample.at_card
              (users (w_db Sample.at_card)) Sample.other_users)
    as ((_ & _ & _ & Hreq & _) & _ & Hcard).
  split; [exact Hreq|].
  destruct (Hcard eq_refl eq_refl eq_refl "8600123412341234" eq_refl eq_refl eq_refl)
    as (r & Hl & _ & _ & Hd).
  exists r. split; [exact Hl | exact Hd].
Defined.


(** At a sample: from the empty store, a withdrawal is created and a sweep
    runs; deadlines are in order before and after. *)
Lemma reachable_deadlines_witness :
  rtc (db_step Demo.env)
      (w_db Sample.at_card)
      (sweep Demo.env 1700009000000
         (w_db (handle Demo.env (Sample.client 1700000000000)
                  (Text "8600 1234 1234 1234") Sample.at_card).2)).1
  ∧ deadlines_ok (w_db Sample.at_card)
  ∧ deadlines_ok
      (sweep Demo.env 1700009000000
         (w_db (handle Demo.env (Sample.client 1700000000000)
                  (Text "8600 1234 1234 1234") Sample.at_card).2)).1.
Proof.
  assert (Hsteps : rtc (db_step Demo.env)
      (w_db Sample.at_card)
      (sweep Demo.env 1700009000000
         (w_db (handle Demo.env (Sample.client 1700000000000)
                  (Text "8600 1234 1234 1234") Sample.at_card).2)).1).
  { eapply rtc_l; [|apply rtc_once, step_sweep].
    eapply (step_handle Demo.env (Sample.client 1700000000000)
              (Text "8600 1234 1234 1234") _ (w_session Sample.at_card)).
    apply surjective_pairing. }
  assert (Hok : deadlines_ok (w_db Sample.at_card)).
  { intros id r Hl. simpl in Hl. rewrite lookup_empty in Hl. discriminate Hl. }
  split; [exact Hsteps|]. split; [exact Hok|].
  exact (reachable_deadlines Demo.env _ _ Hsteps Hok).
Defined.

(** At a sample: the snapshot holds the pending deposit, which is due; the
    stored row has been approved since; the update makes it expired. *)
Lemma sweep_row_overwrites_witness :
  expires_at Sample.deposit_due = Some (Demo.iso_string 1700000300000)
  ∧ status <$> requests
      (sweep_row Demo.env (Demo.iso_string 1700000400000)
         (Sample.approved_tables, []) (Sample.rid, Sample.deposit_due)).1 !! Sample.rid
    = Some expired.
Proof.
  split; [reflexivity|].
  assert (Hne : Demo.iso_string 1700000300000 <> "")
    by (intros Hempty; vm_compute in Hempty; discriminate Hempty).
  rewrite (sweep_row_overwrites Demo.env (Demo.iso_string 1700000400000)
             Sample.approved_tables [] Sample.rid Sample.deposit_due
             (resolve_row approved (Demo.iso_string 1700000100000)
                (Some "Manually approved by 1001") Sample.deposit_due)
             (Demo.iso_string 1700000300000) eq_refl Hne eq_refl eq_refl).
  reflexivity.
Defined.

(** ** The primitives on small inputs *)

Example parseInt_digits : Js.parseInt "5000" = Some 5000.
Proof. reflexivity. Qed.

Example parseInt_prefix : Js.parseInt "  -12abc" = Some (-12).
Proof. reflexivity. Qed.

Example parseInt_nan : Js.parseInt "abc" = None ∧ Js.parseInt "+" = None.
Proof. split; reflexivity. Qed.

Example trim_both : Js.trim "  a9k3 " = "a9k3".
Proof. reflexivity. Qed.

Example validate_samples :
  validateSecretCode "A9K3" = true ∧ validateSecretCode "A9K" = false
  ∧ validateSecretCode "a9k3" = false ∧ validateSecretCode "A9K3X" = false.
Proof. repeat split. Qed.

Example valid_card_samples :
  valid_card "8600123412341234" = true ∧ valid_card "86001234" = false
  ∧ valid_card "8600-1234-1234-1234" = false.
Proof. repeat split. Qed.

Example iso_epoch : Demo.iso_string 0 = "1970-01-01T00:00:00.000Z".
Proof. vm_compute. reflexivity. Qed.

Example iso_leap_day : Demo.iso_string 1709210096789 = "2024-02-29T12:34:56.789Z".
Proof. vm_compute. reflexivity. Qed.

Example iso_order :
  Js.str_le (Demo.iso_string 1700000300000) (Demo.iso_string 1700000400000) = true
  ∧ Js.str_le (Demo.iso_string 1700000400000) (Demo.iso_string 1700000300000) = false.
Proof. split; vm_compute; reflexivity. Qed.

Example parse_stringify :
  Demo.parse (Demo.stringify Sample.proof_payload) = Some Sample.proof_payload.
Proof. vm_compute. reflexivity. Qed.

Example parse_not_json : Demo.parse "{oops" = None.
Proof. vm_compute. reflexivity. Qed.

(** At a sample: the deposit is expired; after an approval attempt and a
    sweep, a rejection by an administrator is answered with the
    already-resolved notice. *)
Lemma decided_stays_decided_witness :
  status (Sample.deposit_row expired (Some 10000) Sample.proof_payload
            (Some (Demo.iso_string 1700000300000))) <> pending
  ∧ isAdmin Demo.env (from (Sample.admin 1700009100000)) = true
  ∧ last_sent
      (admin_action Demo.env (Sample.admin 1700009100000) reject Sample.rid
         (start (sweep Demo.env 1700009000000
                   (w_db (handle Demo.env (Sample.admin 1700000100000)
                            (AdminAction approve Sample.rid) Sample.expired_deposit).2)).1
                Session.default)).2
    = Some (Reply AlreadyResolved).
Proof.
  split; [discriminate|]. split; [reflexivity|].
  assert (Hsteps : rtc (db_step Demo.env)
      (w_db Sample.expired_deposit)
      (sweep Demo.env 1700009000000
         (w_db (handle Demo.env (Sample.admin 1700000100000)
                  (AdminAction approve Sample.rid) Sample.expired_deposit).2)).1).
  { eapply rtc_l; [|apply rtc_once, step_sweep].
    eapply (step_handle Demo.env (Sample.admin 1700000100000)
              (AdminAction approve Sample.rid) _ Session.default).
    apply surjective_pairing. }
  rewrite (decided_stays_decided Demo.env _ _ Sample.rid _
             (Sample.admin 1700009100000) reject
             (start (sweep Demo.env 1700009000000
                       (w_db (handle Demo.env (Sample.admin 1700000100000)
                                (AdminAction approve Sample.rid)
                                Sample.expired_deposit).2)).1
                    Session.default)
             Hsteps eq_refl ltac:(discriminate) eq_refl eq_refl).
  reflexivity.
Defined.

(** C5 as stated fails when an admin mode takes the text: administrator
    1001, at the amount step with the mode add_provider set, sends 5000;
    the text becomes a provider, and the flow stays at the amount step
    with no amount and no deadline. *)
Lemma admin_mode_takes_the_amount :
  Session.step (Session.sdata (w_session (Sample.admin_adding deposit deposit_amount)))
  = Some deposit_amount
  ∧ Js.parseInt (Js.trim "5000") = Some 5000
  ∧ MIN_DEPOSIT Demo.env <= 5000
  ∧ (on_text Demo.env (Sample.admin 1700000000000) "5000"
       (Sample.admin_adding deposit deposit_amount)).1 = Ok tt
  ∧ Session.sdata (w_session
      (on_text Demo.env (Sample.admin 1700000000000) "5000"
         (Sample.admin_adding deposit deposit_amount)).2)
    = Session.sdata (w_session (Sample.admin_adding deposit deposit_amount))
  ∧ last_sent
      (on_text Demo.env (Sample.admin 1700000000000) "5000"
         (Sample.admin_adding deposit deposit_amount)).2
    = Some (Reply (ProviderAdded "5000" "5000")).
Proof. repeat split; try discriminate; vm_compute; reflexivity. Qed.

(** C6 as stated fails when an admin mode takes the text: administrator
    1001, at the code step with the mode add_provider set, sends a9k3; the
    text becomes a provider, no code is stored, and the flow stays at the
    code step. *)
Lemma admin_mode_takes_the_code :
  Session.step (Session.sdata (w_session (Sample.admin_adding withdraw withdraw_code)))
  = Some withdraw_code
  ∧ validateSecretCode (toUpperCase Demo.env (Js.trim "a9k3")) = true
  ∧ (on_text Demo.env (Sample.admin 1700000000000) "a9k3"
       (Sample.admin_adding withdraw withdraw_code)).1 = Ok tt
  ∧ Session.sdata (w_session
      (on_text Demo.env (Sample.admin 1700000000000) "a9k3"
         (Sample.admin_adding withdraw withdraw_code)).2)
    = Session.sdata (w_session (Sample.admin_adding withdraw withdraw_code))
  ∧ last_sent
      (on_text Demo.env (Sample.admin 1700000000000) "a9k3"
         (Sample.admin_adding withdraw withdraw_code)).2
    = Some (Reply (ProviderAdded "a9k3" "a9k3")).
Proof. repeat split; vm_compute; reflexivity. Qed.

(** ** The other handlers at samples *)

(** At a sample: after the approval of their deposit, user 7 asks for the
    code and is shown Q7ZK, the code of the row they had. *)
Lemma my_code_is_stable_witness :
  rtc (bot_step Demo.env) (w_db Sample.pending_deposit) Visit.approved
  ∧ users (w_db Sample.pending_deposit) !! from (Sample.client 1700000200000)
    = Some (Sample.user7 0)
  ∧ exists u',
      my_code (Sample.client 1700000200000) (Some "ali") Visit.draws
        (start Visit.approved Session.default)
      = (Ok [YourCode (Some "Q7ZK")], start Visit.approved Session.default)
      ∧ users Visit.approved !! 7 = Some u'
      ∧ secret_code u' = Some "Q7ZK".
Proof.
  assert (Hsteps : rtc (bot_step Demo.env) (w_db Sample.pending_deposit) Visit.approved).
  { apply rtc_once, bot_core.
    eapply (step_handle Demo.env (Sample.admin 1700000100000)
              (AdminAction approve Sample.rid) _ Session.default).
    apply surjective_pairing. }
  split; [exact Hsteps|]. split; [reflexivity|].
  exact (my_code_is_stable Demo.env _ _ (Sample.client 1700000200000) (Some "ali")
           Visit.draws (Sample.user7 0) (start Visit.approved Session.default)
           Hsteps eq_refl eq_refl).
Defined.

(** At a sample: user 7, a member of the channel, deposits 7000 at
    coldbet with the game id g1; the amount is sent at 22:13:20 and the
    photo two minutes later. With every send delivered the request, which
    expires at 22:18:20, is stored and the session is the default one
    again. When administrator 1002 has blocked the bot the same request is
    stored, administrator 1001 is notified, the handler throws, and the
    session still waits for the receipt. *)
Lemma deposit_from_menu_to_request_witness :
  (ensureSubscribed Visit.member).1 = true
  ∧ providers Visit.shop !! "coldbet" = Some "ColdBet"
  ∧ admin_input Demo.env (Sample.client 1700000000000) Session.default = None
  ∧ reaches_text " g1 " = true
  ∧ reaches_text "7000" = true
  ∧ Js.parseInt (Js.trim "7000") = Some 7000
  ∧ Js.safe 7000
  ∧ MIN_DEPOSIT Demo.env <= 7000
  ∧ toISOString Demo.env (1700000000000 + CHECK_TIMEOUT_MIN Demo.env * 60000) <> ""
  ∧ requests Visit.shop !! "ABCDEFGH" = None
  ∧ w_db (Attempt.deposit_photo Attempt.online).2
    = set_requests (<[ "ABCDEFGH" := Visit.deposit_7000 ]> ∅) Visit.shop
  ∧ (Attempt.deposit_photo Attempt.online).1 = Ok tt
  ∧ w_session (Attempt.deposit_photo Attempt.online).2 = Session.default
  ∧ w_db (Attempt.deposit_photo (Visit.blocked "1002")).2
    = set_requests (<[ "ABCDEFGH" := Visit.deposit_7000 ]> ∅) Visit.shop
  ∧ (Attempt.deposit_photo (Visit.blocked "1002")).1 = Throw TelegramError
  ∧ Session.flow (w_session (Attempt.deposit_photo (Visit.blocked "1002")).2)
    = Some deposit
  ∧ Session.step (Session.sdata
      (w_session (Attempt.deposit_photo (Visit.blocked "1002")).2))
    = Some deposit_wait_check.
Proof.
  assert (Hiso : toISOString Demo.env (1700000000000 + CHECK_TIMEOUT_MIN Demo.env * 60000)
                 <> "").
  { vm_compute. discriminate. }
  assert (Hsafe : Js.safe 7000) by (unfold Js.safe; lia).
  assert (Hmin : MIN_DEPOSIT Demo.env <= 7000) by (vm_compute; discriminate).
  pose proof (fun deliver =>
    deposit_from_menu_to_request Demo.env deliver Visit.member
      "coldbet" "ColdBet" " g1 " "7000" "file1"
      (Sample.client 1700000000000) (Sample.client 1700000000000)
      (Sample.client 1700000120000) 7000 Visit.shop Session.default
      eq_refl eq_refl eq_refl eq_refl eq_refl eq_refl eq_refl
      Hsafe Hmin Hiso eq_refl) as H.
  destruct (H Attempt.online) as (_ & _ & _ & _ & Hdb & Hyes & _).
  destruct (Hyes eq_refl) as [Hr Hs].
  destruct (H (Visit.blocked "1002")) as (_ & Hflow & Hstep & _ & Hdb' & _ & Hno).
  destruct (Hno eq_refl) as [Hr' Hs'].
  do 6 (split; [reflexivity|]).
  split; [exact Hsafe|]. split; [exact Hmin|]. split; [exact Hiso|].
  split; [reflexivity|].
  split; [exact Hdb|]. split; [exact Hr|]. split; [exact Hs|].
  split; [exact Hdb'|]. split; [exact Hr'|].
  unfold Attempt.deposit_photo. rewrite Hs'. split; [exact Hflow|exact Hstep].
Defined.

(** At a sample: user 7 withdraws at coldbet with the code a9k3 and a
    card typed in groups of four. With every send delivered the request
    is stored and the session is the default one again. When
    administrator 1002 has blocked the bot the same request is stored,
    the handler throws, and the session is still at the card step. *)
Lemma withdraw_from_menu_to_request_witness :
  (ensureSubscribed Visit.member).1 = true
  ∧ providers Visit.shop !! "coldbet" = Some "ColdBet"
  ∧ admin_input Demo.env (Sample.client 1700000000000) Session.default = None
  ∧ reaches_text " g1 " = true
  ∧ reaches_text " a9k3 " = true
  ∧ reaches_text "8600 1234 1234 1234" = true
  ∧ validateSecretCode (toUpperCase Demo.env (Js.trim " a9k3 ")) = true
  ∧ valid_card (Js.filter_str (fun ch => negb (Js.is_space ch))
                  (Js.trim "8600 1234 1234 1234")) = true
  ∧ requests Visit.shop !! "ABCDEFGH" = None
  ∧ w_db (Attempt.withdraw_card_text Attempt.online).2
    = set_requests (<[ "ABCDEFGH" := Attempt.withdraw_a9k3 ]> ∅) Visit.shop
  ∧ (Attempt.withdraw_card_text Attempt.online).1 = Ok tt
  ∧ w_session (Attempt.withdraw_card_text Attempt.online).2 = Session.default
  ∧ w_db (Attempt.withdraw_card_text (Visit.blocked "1002")).2
    = set_requests (<[ "ABCDEFGH" := Attempt.withdraw_a9k3 ]> ∅) Visit.shop
  ∧ (Attempt.withdraw_card_text (Visit.blocked "1002")).1 = Throw TelegramError
  ∧ Session.flow (w_session (Attempt.withdraw_card_text (Visit.blocked "1002")).2)
    = Some withdraw
  ∧ Session.step (Session.sdata
      (w_session (Attempt.withdraw_card_text (Visit.blocked "1002")).2))
    = Some withdraw_card.
Proof.
  pose proof (fun deliver =>
    withdraw_from_menu_to_request Demo.env deliver Visit.member
      "coldbet" "ColdBet" " g1 " " a9k3 " "8600 1234 1234 1234"
      (Sample.client 1700000000000) (Sample.client 1700000000000)
      (Sample.client 1700000120000) Visit.shop Session.default
      eq_refl eq_refl eq_refl eq_refl eq_refl eq_refl eq_refl eq_refl
      eq_refl eq_refl eq_refl) as H.
  destruct (H Attempt.online) as (_ & _ & _ & _ & Hdb & Hyes & _).
  destruct (Hyes eq_refl) as [Hr Hs].
  destruct (H (Visit.blocked "1002")) as (_ & Hflow & Hstep & _ & Hdb' & _ & Hno).
  destruct (Hno eq_refl) as [Hr' Hs'].
  do 9 (split; [reflexivity|]).
  split; [exact Hdb|]. split; [exact Hr|]. split; [exact Hs|].
  split; [exact Hdb'|]. split; [exact Hr'|].
  unfold Attempt.withdraw_card_text. rewrite Hs'. split; [exact Hflow|exact Hstep].
Defined.

(** At a sample: administrator 1001, in the add mode, sends Cold Bet; the
    id is coldbet, which is taken, and the table is as before although
    the reply says that the provider was added. *)
Lemma add_provider_text_witness :
  admin_input Demo.env (Sample.admin 1700000000000)
    (w_session (Sample.admin_adding deposit deposit_amount)) = Some add_provider
  ∧ providers (w_db (Sample.admin_adding deposit deposit_amount)) !! "coldbet"
    = Some "ColdBet"
  ∧ w_out (on_text Demo.env (Sample.admin 1700000000000) " Cold Bet "
             (Sample.admin_adding deposit deposit_amount)).2
    = [Reply (ProviderAdded "Cold Bet" "coldbet")]
  ∧ providers (w_db (on_text Demo.env (Sample.admin 1700000000000) " Cold Bet "
                       (Sample.admin_adding deposit deposit_amount)).2)
    = providers (w_db (Sample.admin_adding deposit deposit_amount)).
Proof.
  split; [reflexivity|]. split; [reflexivity|].
  destruct (add_provider_text Demo.env (Sample.admin 1700000000000) " Cold Bet "
              (Sample.admin_adding deposit deposit_amount) eq_refl)
    as (_ & Hout & _ & _ & _ & Htaken & _).
  split; [exact Hout|].
  exact (Htaken "ColdBet" eq_refl).
Defined.

(** At a sample: administrator 1001, in the remove mode, sends COLDBET;
    the provider coldbet is gone. *)
Lemma remove_provider_text_witness :
  admin_input Demo.env (Sample.admin 1700000000000) (w_session Visit.removing)
  = Some remove_provider
  ∧ providers (w_db Visit.removing) !! "coldbet" = Some "ColdBet"
  ∧ (providers (w_db (on_text Demo.env (Sample.admin 1700000000000) " COLDBET "
                        Visit.removing).2) !! "coldbet" = Some "ColdBet"
     <-> providers (w_db Visit.removing) !! "coldbet" = Some "ColdBet"
         ∧ "coldbet" <> toLowerCase Demo.env (Js.trim " COLDBET ")
         ∧ sql_lower "ColdBet" <> sql_lower (toLowerCase Demo.env (Js.trim " COLDBET ")))
  ∧ "coldbet" = toLowerCase Demo.env (Js.trim " COLDBET ").
Proof.
  split; [reflexivity|]. split; [reflexivity|].
  destruct (remove_provider_text Demo.env (Sample.admin 1700000000000) " COLDBET "
              Visit.removing eq_refl) as (_ & _ & Hrows & _).
  split; [exact (Hrows "coldbet" "ColdBet")|reflexivity].
Defined.

(** At a sample: before the approval of the deposit of 10000 the
    statistics are 1 request, 1 pending, 0 approved; after it 1, 0 and
    10000. *)
Lemma statistics_follow_decisions_witness :
  isAdmin Demo.env (from (Sample.admin 1700000100000)) = true
  ∧ requests (w_db Sample.pending_deposit) !! Sample.rid = Some Sample.deposit_due
  ∧ status Sample.deposit_due = pending
  ∧ ap_stats Demo.env (Sample.admin 1700000100000) Sample.pending_deposit
    = (Ok [CallbackAnswered; Statistics 1 1 0], Sample.pending_deposit)
  ∧ ap_stats Demo.env (Sample.admin 1700000100000)
      (carry (admin_action Demo.env (Sample.admin 1700000100000) approve Sample.rid
                Sample.pending_deposit).2)
    = (Ok [CallbackAnswered; Statistics 1 0 10000],
       carry (admin_action Demo.env (Sample.admin 1700000100000) approve Sample.rid
                Sample.pending_deposit).2).
Proof.
  do 3 (split; [reflexivity|]).
  exact (statistics_follow_decisions Demo.env (Sample.admin 1700000100000)
           (Sample.admin 1700000100000) approve Sample.rid Sample.pending_deposit
           Sample.deposit_due eq_refl eq_refl eq_refl eq_refl).
Defined.

(** At a sample: user 7 goes through the deposit flow from the default
    session and sends the photo, while administrator 1002 has blocked the
    bot; the handler throws, and the stored request names coldbet and has
    the amount 7000, a safe integer above the minimum of 5000. *)
Lemma stored_requests_are_well_formed_witness :
  requests_ok Demo.env Visit.shop
  ∧ rtc (served_step Demo.env) Visit.shop (w_db Attempt.photo_blocked.2)
  ∧ Attempt.photo_blocked.1 = Throw TelegramError
  ∧ requests (w_db Attempt.photo_blocked.2) !! "ABCDEFGH" = Some Visit.deposit_7000
  ∧ (is_Some (provider_id Visit.deposit_7000)
     ∧ is_Some (provider_name Visit.deposit_7000)
     ∧ is_Some (created_at Visit.deposit_7000)
     ∧ is_Some (details Visit.deposit_7000)
     ∧ match type Visit.deposit_7000 with
       | deposit =>
           exists a, MIN_DEPOSIT Demo.env <= a ∧ Js.safe a
                     ∧ amount Visit.deposit_7000 = Js.int_or_null (Some a)
       | withdraw => amount Visit.deposit_7000 = None
       end).
Proof.
  assert (Hok : requests_ok Demo.env Visit.shop).
  { intros id r Hl. simpl in Hl. rewrite lookup_empty in Hl. discriminate Hl. }
  assert (Hg1 : typed_safely (Core (Text " g1 "))).
  { intros a Ha. vm_compute in Ha. discriminate Ha. }
  assert (H7000 : typed_safely (Core (Text "7000"))).
  { intros a Ha. vm_compute in Ha. injection Ha as <-. unfold Js.safe. lia. }
  assert (Hreach : rtc (typed_step Demo.env) Session.default
                     (Attempt.session_after (Visit.blocked "1002") Visit.shop
                        Visit.deposit_updates)).
  { unfold Attempt.session_after, Visit.deposit_updates. cbn [foldl].
    eapply rtc_l; [eapply (typed_run Demo.env (Visit.blocked "1002")
                             (Sample.client 1700000000000)
                             (StartFlow deposit Visit.member) Visit.shop _ _ _ I);
                   apply surjective_pairing|].
    eapply rtc_l; [eapply (typed_run Demo.env (Visit.blocked "1002")
                             (Sample.client 1700000000000)
                             (ProvSelected "coldbet") Visit.shop _ _ _ I);
                   apply surjective_pairing|].
    eapply rtc_l; [eapply (typed_run Demo.env (Visit.blocked "1002")
                             (Sample.client 1700000000000)
                             (Core (Text " g1 ")) Visit.shop _ _ _ Hg1);
                   apply surjective_pairing|].
    apply rtc_once.
    eapply (typed_run Demo.env (Visit.blocked "1002") (Sample.client 1700000000000)
              (Core (Text "7000")) Visit.shop _ _ _ H7000).
    apply surjective_pairing. }
  assert (Hsteps : rtc (served_step Demo.env) Visit.shop (w_db Attempt.photo_blocked.2)).
  { apply rtc_once.
    eapply (served_run Demo.env (Visit.blocked "1002") (Sample.client 1700000120000)
              (Core (Photo "file1")) Visit.shop _ _ _ Hreach I).
    apply surjective_pairing. }
  assert (Hl : requests (w_db Attempt.photo_blocked.2) !! "ABCDEFGH"
               = Some Visit.deposit_7000).
  { vm_compute. reflexivity. }
  split; [exact Hok|]. split; [exact Hsteps|].
  split; [vm_compute; reflexivity|]. split; [exact Hl|].
  exact (stored_requests_are_well_formed Demo.env _ _ Hok Hsteps "ABCDEFGH" _ Hl).
Defined.

(** C2, at a sample: the tick of 1700009000000 selects the pending deposit
    of user 7, whose deadline has passed; the administrator approves it a
    millisecond later, before the tick updates the row: the deposit is
    approved and credited, and then expired. *)
Lemma stale_tick_expires_a_decided_request_witness :
  requests (w_db Sample.pending_deposit) !! Sample.rid = Some Sample.deposit_due
  ∧ status Sample.deposit_due = pending
  ∧ expires_at Sample.deposit_due = Some (Demo.iso_string 1700000300000)
  ∧ Demo.iso_string 1700000300000 <> ""
  ∧ Js.str_le (Demo.iso_string 1700000300000) (toISOString Demo.env 1700009000000) = true
  ∧ tick_rows (tick_select Demo.env 1700009000000 (w_db Sample.pending_deposit))
    = [(Sample.rid, Sample.deposit_due)]
  ∧ isAdmin Demo.env (from (Sample.admin 1700009000001)) = true
  ∧ status <$> requests
      (w_db (admin_action Demo.env (Sample.admin 1700009000001) approve Sample.rid
               (start (w_db Sample.pending_deposit) Session.default)).2) !! Sample.rid
    = Some approved
  ∧ balance_of
      (w_db (admin_action Demo.env (Sample.admin 1700009000001) approve Sample.rid
               (start (w_db Sample.pending_deposit) Session.default)).2) 7 = 10000
  ∧ status <$> requests
      (tick_next Demo.env
         (tick_select Demo.env 1700009000000 (w_db Sample.pending_deposit))
         (w_db (admin_action Demo.env (Sample.admin 1700009000001) approve Sample.rid
                  (start (w_db Sample.pending_deposit) Session.default)).2)).1
      !! Sample.rid
    = Some expired.
Proof.
  assert (Hne : Demo.iso_string 1700000300000 <> "") by (vm_compute; discriminate).
  assert (Hle : Js.str_le (Demo.iso_string 1700000300000)
                  (toISOString Demo.env 1700009000000) = true)
    by (vm_compute; reflexivity).
  assert (Hsnap : tick_rows (tick_select Demo.env 1700009000000 (w_db Sample.pending_deposit))
                  = [(Sample.rid, Sample.deposit_due)])
    by (vm_compute; reflexivity).
  assert (Hbal : balance_of
      (w_db (admin_action Demo.env (Sample.admin 1700009000001) approve Sample.rid
               (start (w_db Sample.pending_deposit) Session.default)).2) 7 = 10000)
    by (vm_compute; reflexivity).
  do 3 (split; [reflexivity|]).
  split; [exact Hne|]. split; [exact Hle|]. split; [exact Hsnap|].
  split; [reflexivity|].
  destruct (stale_tick_expires_a_decided_request Demo.env 1700009000000
              (Sample.admin 1700009000001) approve Sample.rid
              (w_db Sample.pending_deposit) Sample.deposit_due
              (Demo.iso_string 1700000300000)
              eq_refl eq_refl eq_refl Hne Hle Hsnap eq_refl)
    as (_ & _ & _ & _ & Happ & _ & Hexp).
  split; [exact Happ|]. split; [exact Hbal|]. exact Hexp.
Defined.
